(** * Titanic chat agent: the query-to-answer orchestration of
      [backend/services/agent.py], embedded in Rocq.

    Python values are modelled as the code has them:
    - a [str] is the list of its Unicode code points ([pystr]);
    - the module globals [_llm], [_model_index] and [_df], the table
      objects of the process and the filesystem form the [World] that every
      operation threads through;
    - what the service cannot see inside (the hosted model, the generated
      script run by [exec], [uuid.uuid4], [str.lower], the configuration)
      is an environment record [Env] of oracles;
    - a raised exception is a value ([pyexc]); [try]/[except] is a match on
      it, with the class test of the [except] clause written out.

    Left out: the logging calls.  Taken for granted: building a client
    object, copying the table and removing a regular file do not fail, a
    path holds a regular file or a directory, the reply of the model is
    a [str], and every run of generated code ends.  What generated code can
    do to the process is part of the model: besides its namespace, tables
    and files, a run can change the module globals of the service, close
    the buffer its output is captured in, and leave a directory where the
    plot was to go.

    Embedded besides the service: the HTTP handler [chat_endpoint] of
    [backend/api/endpoints.py], what the front end's [_handle_query] posts
    to it, and the [process_query] of the standalone app
    [streamlit_app.py], which has the sanitizer and the cascade list of
    the service but keeps no state between requests and does not retry. *)

From Stdlib Require Import String Ascii NArith List Bool Lia.
From stdpp Require Import base option list gmap.
Import ListNotations.

Local Open Scope N_scope.
Local Open Scope list_scope.

(* ===================================================================== *)
(** ** Python strings *)
(* ===================================================================== *)

(** A Python [str]: a sequence of Unicode code points. *)
Abbreviation pystr := (list N).

(** An ASCII literal as a [pystr] (each byte is its own code point). *)
Definition py (s : string) : pystr :=
  List.map N_of_ascii (list_ascii_of_string s).

Definition NL : N := 10.        (* '\n' *)
Definition BACKTICK : N := 96.  (* '`' *)
Definition DQUOTE : N := 34.    (* the double quote *)
Definition EMDASH : N := 8212.  (* U+2014 *)

(** [str.isspace] on one code point, which is also the class [\s] of [re]
    on [str] patterns and the set [str.strip()] removes. *)
Definition is_space (c : N) : bool :=
  ((9 <=? c) && (c <=? 13)) || ((28 <=? c) && (c <=? 32))
  || (c =? 133) || (c =? 160) || (c =? 5760)
  || ((8192 <=? c) && (c <=? 8202))
  || (c =? 8232) || (c =? 8233) || (c =? 8239) || (c =? 8287) || (c =? 12288).

Definition str_eqb (a b : pystr) : bool := bool_decide (a = b).

(** [s.startswith(p)], returning the rest of [s] after [p]. *)
Fixpoint strip_prefix (p s : pystr) : option pystr :=
  match p, s with
  | [], _ => Some s
  | _ :: _, [] => None
  | a :: p', b :: s' => if a =? b then strip_prefix p' s' else None
  end.

(** [needle in hay]. *)
Fixpoint contains (needle hay : pystr) : bool :=
  match strip_prefix needle hay with
  | Some _ => true
  | None => match hay with
            | [] => false
            | _ :: hay' => contains needle hay'
            end
  end.

(** [s.lstrip()], [s.rstrip()], [s.strip()]. *)
Fixpoint lstrip (s : pystr) : pystr :=
  match s with
  | c :: s' => if is_space c then lstrip s' else s
  | [] => []
  end.

Definition rstrip (s : pystr) : pystr := rev (lstrip (rev s)).

Definition strip (s : pystr) : pystr := rstrip (lstrip s).

(** Length of the maximal run of whitespace at the head of [s]: what a
    greedy [\s*] consumes first. *)
Fixpoint ws_run (s : pystr) : nat :=
  match s with
  | c :: s' => if is_space c then S (ws_run s') else O
  | [] => O
  end.

(* ===================================================================== *)
(** ** The code sanitizer [_clean_code] *)
(* ===================================================================== *)

Definition FENCE : pystr := [BACKTICK; BACKTICK; BACKTICK].

(** The largest [j < v] with [s[j] = '\n'], if any: where a greedy [\s*]
    that took [v] code points stops when it has to give back until [$]. *)
Fixpoint last_newline (v : nat) (s : pystr) : option nat :=
  match v, s with
  | S v', c :: s' =>
      match last_newline v' s' with
      | Some j => Some (S j)
      | None => if c =? NL then Some O else None
      end
  | _, _ => None
  end.

(** The pattern [^\s*```(?:python)?\s*\n?] tried at a position, [s] being
    the text from that position on and [bol] telling whether the position
    starts a line (start of the text or just after a ['\n'], which is where
    [^] matches under [re.MULTILINE]).  Returns the length of the match.
    The greedy [\s*] must take the whole whitespace run, since a backtick
    is not whitespace; the optional tag is taken when present; the second
    [\s*] takes the next whole run and leaves nothing for [\n?]. *)
Definition match_open (bol : bool) (s : pystr) : option nat :=
  if bol then
    let k := ws_run s in
    match strip_prefix FENCE (drop k s) with
    | Some s2 =>
        match strip_prefix (py "python") s2 with
        | Some s3 => Some (k + 3 + 6 + ws_run s3)%nat
        | None => Some (k + 3 + ws_run s2)%nat
        end
    | None => None
    end
  else None.

(** The pattern [\n?\s*```\s*$] tried at a position.  [\n?\s*] takes the
    whole whitespace run before the fence.  After the fence the greedy
    [\s*] takes the next run; [$] (under [re.MULTILINE]: end of text, or
    just before a ['\n']) then holds at once when the run reaches the end
    of the text, and otherwise [\s*] gives code points back until the next
    one is a ['\n']. *)
Definition match_close (bol : bool) (s : pystr) : option nat :=
  let k := ws_run s in
  match strip_prefix FENCE (drop k s) with
  | Some s2 =>
      let v := ws_run s2 in
      match drop v s2 with
      | [] => Some (k + 3 + v)%nat
      | _ :: _ =>
          match last_newline v s2 with
          | Some j => Some (k + 3 + j)%nat
          | None => None
          end
      end
  | None => None
  end.

(** [re.sub(pattern, '', s)] for a pattern given by its matcher [m]: the
    text is scanned left to right, the leftmost match is dropped and the
    scan resumes just after it.  [skip] counts the code points of the
    current match still to drop; [bol] is the line-start flag of the
    current position.  Neither pattern matches the empty string. *)
Fixpoint re_sub (m : bool -> pystr -> option nat) (skip : nat) (bol : bool)
    (s : pystr) : pystr :=
  match s with
  | [] => []
  | c :: s' =>
      let bol' := c =? NL in
      match skip with
      | S k => re_sub m k bol' s'
      | O =>
          match m bol s with
          | Some (S k) => re_sub m k bol' s'
          | _ => c :: re_sub m O bol' s'
          end
      end
  end.

(** def _clean_code(raw): two substitutions, then [strip()]. *)
Definition _clean_code (raw : pystr) : pystr :=
  let raw := re_sub match_open 0 true raw in
  let raw := re_sub match_close 0 true raw in
  strip raw.

Definition all_space (s : pystr) : bool := forallb is_space s.

Definition no_newline (s : pystr) : bool :=
  forallb (fun c => negb (c =? NL)) s.

(** Does the text contain a fence marker, three backticks in a row? *)
Definition has_fence (s : pystr) : bool := contains FENCE s.

Definition no_backtick (s : pystr) : bool :=
  forallb (fun c => negb (c =? BACKTICK)) s.

(** A body between an opening fence line, tagged [python] or not, and a
    closing fence line. *)
Definition fenced (tagged : bool) (body : pystr) : pystr :=
  FENCE ++ (if tagged then py "python" else []) ++ [NL] ++ body ++ [NL]
  ++ FENCE.

Local Close Scope N_scope.

(* ===================================================================== *)
(** ** The system prompt *)
(* ===================================================================== *)

(** One line of a literal, with its newline. *)
Definition ln (s : pystr) : pystr := s ++ [NL].

(** The f-string of [_build_system_prompt] is the literal before the
    interpolated [{plot_path}], the path, and the literal after it. *)
Definition PROMPT_HEAD : pystr :=
  concat
    [ ln (py "You are an expert Python data analyst working with the Titanic passenger dataset.");
      ln [];
      ln (py "DATAFRAME `df` " ++ [EMDASH] ++ py " 891 rows, 12 columns:");
      ln (py "  PassengerId  int    unique id 1-891");
      ln (py "  Survived     int    0=died, 1=survived");
      ln (py "  Pclass       int    ticket class: 1=First, 2=Second, 3=Third");
      ln (py "  Name         str    full name");
      ln (py "  Sex          str    'male' or 'female'");
      ln (py "  Age          float  age in years (177 NaN values)");
      ln (py "  SibSp        int    num siblings/spouses aboard");
      ln (py "  Parch        int    num parents/children aboard");
      ln (py "  Ticket       str    ticket number");
      ln (py "  Fare         float  fare in GBP");
      ln (py "  Cabin        str    cabin number (687 NaN values)");
      ln (py "  Embarked     str    port: C=Cherbourg Q=Queenstown S=Southampton");
      ln [];
      ln (py "EXECUTION NAMESPACE (already available " ++ [EMDASH] ++ py " do NOT import or redefine):");
      ln (py "  df         " ++ [EMDASH] ++ py " the Titanic DataFrame");
      ln (py "  pd         " ++ [EMDASH] ++ py " pandas");
      ln (py "  np         " ++ [EMDASH] ++ py " numpy");
      ln (py "  plt        " ++ [EMDASH] ++ py " matplotlib.pyplot (Agg backend)");
      ln (py "  sns        " ++ [EMDASH] ++ py " seaborn");
      py "  PLOT_PATH  " ++ [EMDASH] ++ py " " ++ [DQUOTE] ].

Definition PROMPT_TAIL : pystr :=
  concat
    [ ln ([DQUOTE] ++ py " (absolute file path; save plots here)");
      ln [];
      ln (py "RULES " ++ [EMDASH] ++ py " follow exactly:");
      ln [];
      ln (py "FOR STATISTICS / DATA QUESTIONS:");
      ln (py "  1. Compute the answer using pandas/numpy on df.");
      ln (py "  2. Use print() to output a single clear English sentence.");
      ln (py "     Format numbers with f-strings. Use **bold** for key figures.");
      ln (py "     Example: print(f" ++ [DQUOTE] ++ py "**{pct:.1f}%** of passengers were male." ++ [DQUOTE] ++ py ")");
      ln (py "  3. For multi-row results print a neat markdown table, e.g.:");
      ln (py "       | Port | Count |");
      ln (py "       |------|-------|");
      ln (py "       | S    | 644   |");
      ln [];
      ln (py "FOR CHARTS / PLOTS / VISUALIZATIONS:");
      ln (py "  1. Apply style: plt.style.use('seaborn-v0_8-whitegrid')");
      ln (py "  2. Use sns.set_palette(" ++ [DQUOTE] ++ py "husl" ++ [DQUOTE] ++ py ")");
      ln (py "  3. Create figure: fig, ax = plt.subplots(figsize=(10, 6))");
      ln (py "     (use figsize=(7,7) for pie/square charts)");
      ln (py "  4. Build the chart on ax (NOT plt directly).");
      ln (py "     Typical patterns:");
      ln (py "       Histogram:   ax.hist(df['Age'].dropna(), bins=25, color='#3B82F6', edgecolor='white')");
      ln (py "       Bar chart:   data.plot(kind='bar', ax=ax, color='#3B82F6', edgecolor='white')");
      ln (py "       Count plot:  sns.countplot(data=df, x='Pclass', hue='Survived', palette='husl', ax=ax)");
      ln (py "       Box plot:    sns.boxplot(data=df, x='Pclass', y='Fare', palette='husl', ax=ax)");
      ln (py "       Pie chart:   ax.pie(vals, labels=lbls, autopct='%1.1f%%', startangle=90, colors=sns.color_palette('husl', len(vals)))");
      ln (py "       Heatmap:     sns.heatmap(df.select_dtypes('number').corr(), annot=True, fmt='.2f', cmap='Blues', ax=ax)");
      ln (py "       Scatter:     ax.scatter(df['Age'].dropna(), df.loc[df['Age'].notna(),'Fare'], alpha=0.5, c='#3B82F6')");
      ln (py "  5. Add labels:");
      ln (py "       ax.set_title('Clear Descriptive Title', fontsize=14, fontweight='bold', pad=10)");
      ln (py "       ax.set_xlabel('X Label', fontsize=11)");
      ln (py "       ax.set_ylabel('Y Label', fontsize=11)");
      ln (py "       ax.tick_params(labelsize=9)");
      ln (py "  6. For bar charts rotate x labels if needed: plt.xticks(rotation=0)");
      ln (py "  7. plt.tight_layout()");
      ln (py "  8. SAVE: plt.savefig(PLOT_PATH, bbox_inches='tight', dpi=150)");
      ln (py "  9. plt.close('all')  # always free memory");
      ln (py "  10. print() one sentence describing what the chart shows.");
      ln [];
      ln (py "CRITICAL:");
      ln (py "  - NEVER call plt.show() " ++ [EMDASH] ++ py " it will hang the server.");
      ln (py "  - Output ONLY valid Python code " ++ [EMDASH] ++ py " no markdown fences, no explanations.");
      ln (py "  - The code is executed with exec() so it must be self-contained.") ].


(** def _build_system_prompt(plot_path) *)
Definition _build_system_prompt (plot_path : pystr) : pystr :=
  PROMPT_HEAD ++ plot_path ++ PROMPT_TAIL.

(** Reading the prompt back: its lines, and the names its EXECUTION
    NAMESPACE section lists (the first word of each line from the header
    to the next blank line). *)
Fixpoint lines (s : pystr) : list pystr :=
  match s with
  | [] => [[]]
  | c :: s' =>
      if (c =? NL)%N then [] :: lines s'
      else match lines s' with
           | l :: ls => (c :: l) :: ls
           | [] => [[c]]
           end
  end.

(** The lines of a text cut in two: the last line of the first part
    continues with the line [l] the second part starts with. *)
Fixpoint glue (ls : list pystr) (l : pystr) (rest : list pystr) : list pystr :=
  match ls with
  | [] => l :: rest
  | [x] => (x ++ l) :: rest
  | x :: ls' => x :: glue ls' l rest
  end.

Fixpoint word (s : pystr) : pystr :=
  match s with
  | c :: s' => if is_space c then [] else c :: word s'
  | [] => []
  end.

Definition first_word (line : pystr) : pystr := word (lstrip line).

Fixpoint after_header (header : pystr) (ls : list pystr) : list pystr :=
  match ls with
  | [] => []
  | l :: ls' =>
      match strip_prefix header l with
      | Some _ => ls'
      | None => after_header header ls'
      end
  end.

Fixpoint until_blank (ls : list pystr) : list pystr :=
  match ls with
  | [] => []
  | [] :: _ => []
  | l :: ls' => l :: until_blank ls'
  end.

Definition documented_names (prompt : pystr) : list pystr :=
  List.map first_word
    (until_blank (after_header (py "EXECUTION NAMESPACE") (lines prompt))).

(* ===================================================================== *)
(** ** Values, exceptions, events *)
(* ===================================================================== *)

(** The class of a raised exception, as far as the [except] clauses of the
    service tell classes apart: [ValueError] (caught by [except ValueError]
    and by [except Exception]), any other subclass of [Exception], and the
    exceptions outside [Exception] ([SystemExit], [KeyboardInterrupt],
    [GeneratorExit]), which no clause of the service catches. *)
Inductive exc_class := ClsValueError | ClsException | ClsBaseException.

(** A raised exception; [exc_str] is [str(exc)]. *)
Record pyexc := PyExc { exc_cls : exc_class; exc_str : pystr }.

Definition is_ValueError (e : pyexc) : bool :=
  match exc_cls e with ClsValueError => true | _ => false end.

Definition is_Exception (e : pyexc) : bool :=
  match exc_cls e with ClsBaseException => false | _ => true end.

(** The client object [ChatGroq(model=..., temperature=0,
    groq_api_key=..., max_retries=1)]. *)
Record ChatGroq := mkChatGroq {
  model : pystr;
  temperature : nat;
  groq_api_key : pystr;
  max_retries : nat;
}.

Inductive Message :=
| SystemMessage (content : pystr)
| HumanMessage (content : pystr).

(** A reference to a table object: the one the module global [_df] is
    bound to at import, or the [i]-th table allocated since. *)
Inductive tref := TCanonical | TObject (i : nat).

(** What a name of the execution namespace can be bound to. *)
Inductive pyval :=
| VTable (r : tref)
| VModule (name : pystr)
| VStr (s : pystr)
| VOther (tag : nat).

(** {"response": ..., "image_url": ...} *)
Record QueryResult := mkResult {
  response : pystr;
  image_url : option pystr;
}.

(** How a call ends: with the returned dict, or with an exception that
    leaves [process_query] unhandled. *)
Inductive Outcome :=
| Returned (r : QueryResult)
| Propagated (e : pyexc).

(** What a path of the filesystem holds: a regular file with its bytes,
    or a directory, of which the service sees no more than the size
    [os.path.getsize] reports for it. *)
Inductive fsnode :=
| File (data : list Byte.byte)
| Dir (size : nat).

(** [os.path.getsize(path)] for what is at the path. *)
Definition getsize (node : fsnode) : nat :=
  match node with
  | File data => length data
  | Dir size => size
  end.

(** The [ValueError] of [buf.getvalue()] on a closed [io.StringIO]. *)
Definition CLOSED_FILE : pyexc :=
  PyExc ClsValueError (py "I/O operation on closed file").

Section Tables.

(** The contents of a [pandas.DataFrame]; the service never looks inside. *)
Context {DataFrame : Type}.

(** The part of the process a script run by [exec] can read and write:
    the namespace dict it is given, the table objects of the process, the
    filesystem, and the module globals of the service: the script runs
    in-process and unrestricted, so the canonical table [_df], [_llm] and
    [_model_index] are within its reach, by importing the service module
    or through [os.sys.modules]. *)
Record ExecState := mkExecState {
  st_ns : gmap pystr pyval;
  st_df : DataFrame;
  st_objects : list DataFrame;
  st_fs : gmap pystr fsnode;
  st_llm : option ChatGroq;
  st_model_index : nat;
}.

(** What [exec(compile(code, ...), ns)] under [redirect_stdout(buf)] leaves:
    the state after the run, everything written to [buf] up to the end or
    to the failure, the exception raised, if any ([compile]'s
    [SyntaxError] included), and whether the run closed [buf], which is
    [sys.stdout] while it runs. *)
Record ExecResult := mkExecResult {
  ex_state : ExecState;
  ex_stdout : pystr;
  ex_raised : option pyexc;
  ex_closed : bool;
}.

(** [buf.getvalue()] after the run: a closed buffer cannot be read. *)
Definition getvalue (r : ExecResult) : pyexc + pystr :=
  if ex_closed r then inl CLOSED_FILE else inr (ex_stdout r).

(** What the service does to the outside, in order. *)
Inductive Event :=
| EvInvoke (llm : ChatGroq) (messages : list Message) (res : pyexc + pystr)
| EvExec (code : pystr) (before : ExecState) (res : ExecResult).

(** Module globals, tables, files, and the events so far. *)
Record World := mkWorld {
  _llm : option ChatGroq;
  _model_index : nat;
  _df : DataFrame;
  objects : list DataFrame;
  fs : gmap pystr fsnode;
  uuid_calls : nat;
  trace : list Event;
}.

(** The environment of the service. [str_lower] is [str.lower];
    [llm_invoke] is [llm.invoke(messages)], which may answer differently
    on each call and so sees the events so far; [exec_py] runs a script;
    [uuid4_hex n] is [uuid.uuid4().hex] at the [n]-th call;
    [remove_strerror path] and [open_strerror path] are the texts of the
    [OSError] that [os.remove(path)] and [open(path, 'rb')] raise for a
    directory, which depend on the platform. *)
Record Env := mkEnv {
  GROQ_API_KEY : pystr;
  GROQ_MODEL : pystr;
  STATIC_DIR : pystr;
  str_lower : pystr -> pystr;
  llm_invoke : list Event -> ChatGroq -> list Message -> pyexc + pystr;
  exec_py : pystr -> ExecState -> ExecResult;
  uuid4_hex : nat -> pystr;
  remove_strerror : pystr -> pystr;
  open_strerror : pystr -> pystr;
}.

End Tables.

Arguments ExecState : clear implicits.
Arguments ExecResult : clear implicits.
Arguments Event : clear implicits.
Arguments World : clear implicits.
Arguments Env : clear implicits.


(* ===================================================================== *)
(** ** The service *)
(* ===================================================================== *)

(** _MODEL_CASCADE *)
Definition _MODEL_CASCADE : list pystr :=
  [ py "llama-3.3-70b-versatile";
    py "llama3-70b-8192";
    py "mixtral-8x7b-32768";
    py "llama3-8b-8192" ].

(** _QUOTA_PHRASES *)
Definition _QUOTA_PHRASES : list pystr :=
  [ py "RESOURCE_EXHAUSTED";
    py "quota";
    py "rate limit";
    py "429";
    py "Too Many Requests" ].

(** U+26A0 U+FE0F, the warning sign that opens two of the messages. *)
Definition WARNING_SIGN : pystr := [9888%N; 65039%N].

Definition MSG_NOT_CONFIGURED : pystr :=
  py "GROQ_API_KEY is not configured. "
  ++ py "Add it to your .env file and restart the server.".

Definition MSG_ALL_RATE_LIMITED : pystr :=
  WARNING_SIGN ++ py " All Groq models are currently rate-limited. "
  ++ py "Please wait a minute and try again, or see "
  ++ py "[Groq rate limits](https://console.groq.com/settings/limits).".

Definition MSG_QUOTA_REACHED : pystr :=
  WARNING_SIGN
  ++ py " API quota reached for today. Please wait a moment and try again.".

Definition MSG_NO_RESPONSE : pystr :=
  py "No response generated. Please try again.".

Definition MSG_NO_OUTPUT : pystr :=
  py "The analysis ran but produced no printable output. Try rephrasing.".

Definition MSG_VISUALISATION : pystr := py "Here is the visualisation:".

Definition msg_could_not_contact (exc : pyexc) : pystr :=
  py "Could not contact Gemini API: " ++ exc_str exc.

Definition msg_error (err_msg : pystr) : pystr :=
  py "I ran into an error while analysing your request: `" ++ err_msg
  ++ py "`" ++ [NL; NL] ++ py "Please try rephrasing your question.".

Definition retry_message (err_msg code : pystr) : pystr :=
  py "The code you wrote raised this error:" ++ [NL] ++ err_msg ++ [NL; NL]
  ++ py "Offending code:" ++ [NL] ++ py "```python" ++ [NL] ++ code ++ [NL]
  ++ py "```" ++ [NL; NL]
  ++ py "Rewrite it correctly. Output ONLY valid Python code.".

(** Truth value of a [str] and of a [str | None]. *)
Definition truthy (s : pystr) : bool :=
  match s with [] => false | _ :: _ => true end.

Definition truthy_opt (o : option pystr) : bool :=
  match o with Some s => truthy s | None => false end.

(** [os.path.join(a, b)] for a relative [b]. *)
Definition os_path_join (a b : pystr) : pystr :=
  match last a with
  | None => b
  | Some c => if (c =? 47)%N then a ++ b else a ++ [47%N] ++ b
  end.

(** The namespace dict of [process_query], [df] being bound to the table
    object [copy]. *)
Definition namespace (copy : tref) (plot_path : pystr) : gmap pystr pyval :=
  <[py "df" := VTable copy]>
  (<[py "pd" := VModule (py "pandas")]>
  (<[py "np" := VModule (py "numpy")]>
  (<[py "plt" := VModule (py "matplotlib.pyplot")]>
  (<[py "sns" := VModule (py "seaborn")]>
  (<[py "PLOT_PATH" := VStr plot_path]>
  (<[py "os" := VModule (py "os")]>
  (<[py "uuid" := VModule (py "uuid")]> ∅))))))).

(** The final [if]/[elif] chain of [process_query]. *)
Definition build_response (err_msg : option pystr) (text : pystr)
    (image_url : option pystr) : pystr :=
  if truthy_opt err_msg && negb (truthy text) then
    msg_error (default [] err_msg)
  else if negb (truthy text) && negb (bool_decide (is_Some image_url)) then
    MSG_NO_OUTPUT
  else if negb (truthy text) && bool_decide (is_Some image_url) then
    MSG_VISUALISATION
  else text.

Section Service.

Context {DataFrame : Type}.
Variable E : Env DataFrame.

Local Abbreviation World := (World DataFrame).
Local Abbreviation Event := (Event DataFrame).

Definition log (ev : Event) (w : World) : World :=
  mkWorld (_llm w) (_model_index w) (_df w) (objects w) (fs w)
          (uuid_calls w) (trace w ++ [ev]).

Definition set_llm (c : option ChatGroq) (w : World) : World :=
  mkWorld c (_model_index w) (_df w) (objects w) (fs w)
          (uuid_calls w) (trace w).

Definition set_model_index (i : nat) (w : World) : World :=
  mkWorld (_llm w) i (_df w) (objects w) (fs w) (uuid_calls w) (trace w).

Definition set_fs (f : gmap pystr fsnode) (w : World) : World :=
  mkWorld (_llm w) (_model_index w) (_df w) (objects w) f
          (uuid_calls w) (trace w).

(** def _is_quota_error(exc) *)
Definition _is_quota_error (exc : pyexc) : bool :=
  let msg := exc_str exc in
  existsb (fun p => contains (str_lower E p) (str_lower E msg))
          _QUOTA_PHRASES.

(** def _get_llm(): the only exception it raises is its own [ValueError]. *)
Definition _get_llm (w : World) : (pyexc + ChatGroq) * World :=
  match _llm w with
  | None =>
      if negb (truthy (GROQ_API_KEY E)) then
        (inl (PyExc ClsValueError MSG_NOT_CONFIGURED), w)
      else
        let model := GROQ_MODEL E in
        let c := mkChatGroq model 0 (GROQ_API_KEY E) 1 in
        (inr c, set_llm (Some c) w)
  | Some c => (inr c, w)
  end.

(** def _try_next_model() *)
Definition _try_next_model (w : World) : option ChatGroq * World :=
  let w := set_model_index (_model_index w + 1) w in
  if length _MODEL_CASCADE <=? _model_index w then (None, w)
  else
    let w := set_llm None w in
    let model := _MODEL_CASCADE !!! _model_index w in
    let c := mkChatGroq model 0 (GROQ_API_KEY E) 1 in
    (Some c, set_llm (Some c) w).

(** [uuid.uuid4().hex] *)
Definition uuid4 (w : World) : pystr * World :=
  (uuid4_hex E (uuid_calls w),
   mkWorld (_llm w) (_model_index w) (_df w) (objects w) (fs w)
           (S (uuid_calls w)) (trace w)).

(** [llm.invoke(messages)] *)
Definition invoke (llm : ChatGroq) (messages : list Message) (w : World)
  : (pyexc + pystr) * World :=
  let res := llm_invoke E (trace w) llm messages in
  (res, log (EvInvoke llm messages res) w).

(** [_df.copy()]: a new table object with the contents of the canonical
    one. *)
Definition df_copy (w : World) : tref * World :=
  (TObject (length (objects w)),
   mkWorld (_llm w) (_model_index w) (_df w) (objects w ++ [_df w]) (fs w)
           (uuid_calls w) (trace w)).

(** [with redirect_stdout(buf): exec(compile(code, ...), ns)]: the dict
    [ns] is updated in place, so the caller goes on with the dict of the
    result; tables, files and module globals are as the run left them. *)
Definition exec (code : pystr) (ns : gmap pystr pyval) (w : World)
  : ExecResult DataFrame * World :=
  let before :=
    mkExecState ns (_df w) (objects w) (fs w) (_llm w) (_model_index w) in
  let res := exec_py E code before in
  let after := ex_state res in
  (res,
   log (EvExec code before res)
       (mkWorld (st_llm after) (st_model_index after) (st_df after)
                (st_objects after) (st_fs after) (uuid_calls w) (trace w))).

(** The state the first run of generated code starts from, in a request
    that reaches it in world [w]. *)
Definition first_state (plot_path : pystr) (w : World) : ExecState DataFrame :=
  mkExecState (namespace (TObject (length (objects w))) plot_path)
              (_df w) (objects w ++ [_df w]) (fs w)
              (_llm w) (_model_index w).

(** The world [w] after the events [evs], the last run having left the
    state [st]. *)
Definition world_after (w : World) (evs : list Event)
    (st : ExecState DataFrame) : World :=
  mkWorld (st_llm st) (st_model_index st) (st_df st) (st_objects st)
          (st_fs st) (uuid_calls w) (trace w ++ evs).

(** How the cascade loop of [process_query] ends. *)
Inductive Generated :=
| GenCode (code : pystr) (llm : ChatGroq)   (* [break] *)
| GenNothing                                (* the [for] ran out *)
| GenReturn (r : QueryResult)               (* [return] inside the loop *)
| GenRaise (e : pyexc).                     (* not an [Exception] *)

(** for _attempt in range(len(_MODEL_CASCADE)): ..., [attempts] being the
    iterations left. *)
Fixpoint ask_model (attempts : nat) (system_msg query : pystr)
    (llm : ChatGroq) (w : World) : Generated * World :=
  match attempts with
  | O => (GenNothing, w)
  | S attempts' =>
      let '(res, w) :=
        invoke llm [SystemMessage system_msg; HumanMessage query] w in
      match res with
      | inr content => (GenCode (_clean_code content) llm, w)
      | inl exc =>
          if is_Exception exc then
            if _is_quota_error exc then
              match _try_next_model w with
              | (None, w) => (GenReturn (mkResult MSG_ALL_RATE_LIMITED None), w)
              | (Some llm, w) => ask_model attempts' system_msg query llm w
              end
            else
              (GenReturn (mkResult (msg_could_not_contact exc) None), w)
          else (GenRaise exc, w)
      end
  end.

(** How the retry block ends. *)
Inductive Retried :=
| RetryDone (text : pystr) (err_msg : option pystr)
| RetryReturn (r : QueryResult)
| RetryRaise (e : pyexc).

(** The [except Exception as exc2] clause of the retry. *)
Definition retry_except (text : pystr) (exc2 : pyexc) : Retried :=
  if is_Exception exc2 then
    if _is_quota_error exc2 then RetryReturn (mkResult MSG_QUOTA_REACHED None)
    else RetryDone text (Some (exc_str exc2))
  else RetryRaise exc2.

(** The body of [if err_msg and not text:]. *)
Definition retry (system_msg query code err_msg text : pystr)
    (llm : ChatGroq) (ns : gmap pystr pyval) (w : World) : Retried * World :=
  let retry_msg := retry_message err_msg code in
  let '(res, w) :=
    invoke llm [SystemMessage system_msg; HumanMessage query;
                HumanMessage retry_msg] w in
  match res with
  | inl exc2 => (retry_except text exc2, w)
  | inr content =>
      let code2 := _clean_code content in
      let '(r2, w) := exec code2 ns w in
      match ex_raised r2 with
      | Some exc2 => (retry_except text exc2, w)
      | None =>
          match getvalue r2 with
          | inl exc2 => (retry_except text exc2, w)
          | inr out => (RetryDone (strip out) None, w)
          end
      end
  end.

(** The check for a saved plot: [os.path.exists] and [os.path.getsize]
    on whatever is at the path, and [os.remove], which no [try] encloses
    and which refuses a directory. *)
Definition check_plot (plot_fname plot_path : pystr) (w : World)
  : (pyexc + option pystr) * World :=
  match fs w !! plot_path with
  | Some node =>
      if 0 <? getsize node then
        (inr (Some (py "/static/" ++ plot_fname)), w)
      else
        match node with
        | File _ => (inr None, set_fs (delete plot_path (fs w)) w)
        | Dir _ =>
            (inl (PyExc ClsException (remove_strerror E plot_path)), w)
        end
  | None => (inr None, w)
  end.

(** From the check for a saved plot to the final [return]. *)
Definition assemble (plot_fname plot_path text : pystr)
    (err_msg : option pystr) (w : World) : Outcome * World :=
  match check_plot plot_fname plot_path w with
  | (inr image_url, w) =>
      (Returned (mkResult (build_response err_msg text image_url) image_url),
       w)
  | (inl exc, w) => (Propagated exc, w)
  end.

(** From the construction of the namespace on. *)
Definition execute (system_msg query plot_fname plot_path code : pystr)
    (llm : ChatGroq) (w : World) : Outcome * World :=
  let '(copy, w) := df_copy w in
  let ns := namespace copy plot_path in
  let '(r1, w) := exec code ns w in
  let ns := st_ns (ex_state r1) in
  match ex_raised r1 with
  | Some exc =>
      if is_Exception exc then
        let err_msg := exc_str exc in
        (* text = buf.getvalue().strip(), outside every [try] *)
        match getvalue r1 with
        | inl exc => (Propagated exc, w)
        | inr out =>
            let text := strip out in
            if truthy err_msg && negb (truthy text) then
              match retry system_msg query code err_msg text llm ns w with
              | (RetryDone text err_msg, w) =>
                  assemble plot_fname plot_path text err_msg w
              | (RetryReturn r, w) => (Returned r, w)
              | (RetryRaise e, w) => (Propagated e, w)
              end
            else assemble plot_fname plot_path text (Some err_msg) w
        end
      else (Propagated exc, w)
  | None =>
      match getvalue r1 with
      | inl exc => (Propagated exc, w)
      | inr out => assemble plot_fname plot_path (strip out) None w
      end
  end.

(** The file name and the path [process_query] reserves for the plot of
    the request that starts in [w]. *)
Definition plot_fname (w : World) : pystr :=
  py "plot_" ++ take 8 (uuid4_hex E (uuid_calls w)) ++ py ".png".

Definition plot_path (w : World) : pystr :=
  os_path_join (STATIC_DIR E) (plot_fname w).

(** def process_query(query) *)
Definition process_query (query : pystr) (w : World) : Outcome * World :=
  match _get_llm w with
  | (inl exc, w) =>
      if is_ValueError exc then (Returned (mkResult (exc_str exc) None), w)
      else (Propagated exc, w)
  | (inr llm, w) =>
      let '(hex, w) := uuid4 w in
      let plot_fname := py "plot_" ++ take 8 hex ++ py ".png" in
      let plot_path := os_path_join (STATIC_DIR E) plot_fname in
      let system_msg := _build_system_prompt plot_path in
      match ask_model (length _MODEL_CASCADE) system_msg query llm w with
      | (GenCode code llm, w) =>
          execute system_msg query plot_fname plot_path code llm w
      | (GenNothing, w) => (Returned (mkResult MSG_NO_RESPONSE None), w)
      | (GenReturn r, w) => (Returned r, w)
      | (GenRaise e, w) => (Propagated e, w)
      end
  end.

End Service.

(* ===================================================================== *)
(** ** Reading the events of a request *)
(* ===================================================================== *)

Section Events.

Context {DataFrame : Type}.

(** The events logged between two worlds. *)
Definition request_events (w w' : World DataFrame) : list (Event DataFrame) :=
  drop (length (trace w)) (trace w').

Definition is_invoke (ev : Event DataFrame) : bool :=
  match ev with EvInvoke _ _ _ => true | _ => false end.

(** A call of the model that carries the third, error-context turn: only
    the retry sends one. *)
Definition is_retry_invoke (ev : Event DataFrame) : bool :=
  match ev with
  | EvInvoke _ [SystemMessage _; HumanMessage _; HumanMessage _] _ => true
  | _ => false
  end.

(** A call of the model with the two turns of the cascade loop. *)
Definition is_plain_invoke (ev : Event DataFrame) : bool :=
  match ev with
  | EvInvoke _ [SystemMessage _; HumanMessage _] _ => true
  | _ => false
  end.

Definition model_calls (evs : list (Event DataFrame)) :=
  List.filter is_invoke evs.

Definition retry_calls (evs : list (Event DataFrame)) :=
  List.filter is_retry_invoke evs.

(** The runs of generated code, in order. *)
Fixpoint execs (evs : list (Event DataFrame))
  : list (pystr * ExecState DataFrame * ExecResult DataFrame) :=
  match evs with
  | [] => []
  | EvExec code before res :: evs' => (code, before, res) :: execs evs'
  | _ :: evs' => execs evs'
  end.

(** The events that follow the first run of generated code: those of the
    retry. *)
Fixpoint after_first_exec (evs : list (Event DataFrame))
  : list (Event DataFrame) :=
  match evs with
  | [] => []
  | EvExec _ _ _ :: evs' => evs'
  | _ :: evs' => after_first_exec evs'
  end.

(** The exception an event ended with, if any: for a run, what it raised
    or, when it raised nothing but closed the buffer, the [ValueError] of
    reading that buffer. *)
Definition event_error (ev : Event DataFrame) : option pyexc :=
  match ev with
  | EvInvoke _ _ (inl e) => Some e
  | EvInvoke _ _ (inr _) => None
  | EvExec _ _ res =>
      match ex_raised res with
      | Some e => Some e
      | None => if ex_closed res then Some CLOSED_FILE else None
      end
  end.

Variable E : Env DataFrame.

(** The event ended with an [Exception] that [_is_quota_error] accepts. *)
Definition quota_failure (ev : Event DataFrame) : bool :=
  match event_error ev with
  | Some e => is_Exception e && _is_quota_error E e
  | None => false
  end.

(** Every call of the model fails with a quota-classified error. *)
Definition always_rate_limited : Prop :=
  forall history llm msgs,
    exists e, llm_invoke E history llm msgs = inl e
              /\ is_Exception e = true /\ _is_quota_error E e = true.

(** Whatever the model call or the generated code raises is an
    [Exception]: nothing exits or interrupts the process. *)
Definition raises_only_exceptions : Prop :=
  (forall code st e,
     ex_raised (exec_py E code st) = Some e -> is_Exception e = true)
  /\ (forall history llm msgs e,
        llm_invoke E history llm msgs = inl e -> is_Exception e = true).

(** No run closes the buffer its output is captured in. *)
Definition leaves_stdout_open : Prop :=
  forall code st, ex_closed (exec_py E code st) = false.

(** No run leaves an empty directory, one of size 0, where there was
    none. *)
Definition makes_no_empty_directory : Prop :=
  forall code st path,
    st_fs st !! path <> Some (Dir 0) ->
    st_fs (ex_state (exec_py E code st)) !! path <> Some (Dir 0).

(** A namespace that hands the canonical table itself to the code: one
    of its names is bound to that table object. *)
Definition binds_canonical (ns : gmap pystr pyval) : Prop :=
  exists k, ns !! k = Some (VTable TCanonical).

(** The run kept away from the canonical table: started with no name
    bound to that table, it left the table as it was and bound no name to
    it.  This is a condition on what the run did, not on the names it was
    given: the modules bound in the namespace reach every object of the
    process ([os.sys.modules] leads to the service module as [import]
    does), and a run that goes that way to [_df] is not confined. *)
Definition run_confined
    (x : pystr * ExecState DataFrame * ExecResult DataFrame) : Prop :=
  ~ binds_canonical (st_ns x.1.2) ->
  st_df (ex_state x.2) = st_df x.1.2
  /\ ~ binds_canonical (st_ns (ex_state x.2)).

(** The run left the two other module globals, [_llm] and
    [_model_index], as they were. *)
Definition keeps_globals
    (x : pystr * ExecState DataFrame * ExecResult DataFrame) : Prop :=
  st_llm (ex_state x.2) = st_llm x.1.2
  /\ st_model_index (ex_state x.2) = st_model_index x.1.2.

End Events.

(* ===================================================================== *)
(** ** Stub environments *)
(* ===================================================================== *)

Module Stub.

(** Tables of the stubs: rows of numbers. *)
Definition Table := list (list nat).

(** [str.lower] on ASCII text. *)
Definition ascii_lower (s : pystr) : pystr :=
  List.map (fun c => if ((65 <=? c) && (c <=? 90))%N then (c + 32)%N else c) s.

(** What a stub script does, statement by statement. *)
Inductive Stmt :=
| SPrint (s : pystr)               (* print(s) *)
| SSave (data : list Byte.byte)    (* write [data] to the file PLOT_PATH *)
| SMkdir (size : nat)              (* os.makedirs(PLOT_PATH) *)
| SClose                           (* sys.stdout.close() *)
| SRaise (e : pyexc)               (* raise *)
| SSetDf (t : Table)               (* change, in place, the table bound to df *)
| SSetCanonical (t : Table)        (* import the service module, change _df in place *)
| SSetGlobals (llm : option ChatGroq) (i : nat)
                                   (* import the service module, assign _llm and _model_index *)
| SBind (name : pystr) (v : pyval) (* name = v *).

Definition set_table (r : tref) (t : Table) (st : ExecState Table)
  : ExecState Table :=
  match r with
  | TCanonical =>
      mkExecState (st_ns st) t (st_objects st) (st_fs st)
                  (st_llm st) (st_model_index st)
  | TObject i =>
      mkExecState (st_ns st) (st_df st) (<[i := t]> (st_objects st))
                  (st_fs st) (st_llm st) (st_model_index st)
  end.

Definition set_node (path : pystr) (node : fsnode) (st : ExecState Table)
  : ExecState Table :=
  mkExecState (st_ns st) (st_df st) (st_objects st)
              (<[path := node]> (st_fs st)) (st_llm st) (st_model_index st).

(** [out] is what has been printed and [closed] whether the buffer has
    been closed; printing to a closed buffer raises. *)
Fixpoint run (prog : list Stmt) (out : pystr) (closed : bool)
    (st : ExecState Table) : ExecResult Table :=
  match prog with
  | [] => mkExecResult st out None closed
  | SPrint s :: prog' =>
      if closed then mkExecResult st out (Some CLOSED_FILE) closed
      else run prog' (out ++ s ++ [NL]) closed st
  | SSave data :: prog' =>
      match st_ns st !! py "PLOT_PATH" with
      | Some (VStr path) => run prog' out closed (set_node path (File data) st)
      | _ => mkExecResult st out (Some (PyExc ClsException (py "name 'PLOT_PATH' is not defined"))) closed
      end
  | SMkdir size :: prog' =>
      match st_ns st !! py "PLOT_PATH" with
      | Some (VStr path) => run prog' out closed (set_node path (Dir size) st)
      | _ => mkExecResult st out (Some (PyExc ClsException (py "name 'PLOT_PATH' is not defined"))) closed
      end
  | SClose :: prog' => run prog' out true st
  | SRaise e :: _ => mkExecResult st out (Some e) closed
  | SSetDf t :: prog' =>
      match st_ns st !! py "df" with
      | Some (VTable r) => run prog' out closed (set_table r t st)
      | _ => mkExecResult st out (Some (PyExc ClsException (py "name 'df' is not defined"))) closed
      end
  | SSetCanonical t :: prog' => run prog' out closed (set_table TCanonical t st)
  | SSetGlobals llm i :: prog' =>
      run prog' out closed
          (mkExecState (st_ns st) (st_df st) (st_objects st) (st_fs st) llm i)
  | SBind name v :: prog' =>
      run prog' out closed
          (mkExecState (<[name := v]> (st_ns st)) (st_df st) (st_objects st)
                       (st_fs st) (st_llm st) (st_model_index st))
  end.

(** A stub [exec]: the text of the script selects what it does; unknown
    text is a [SyntaxError]. *)
Definition exec_table (scripts : list (pystr * list Stmt)) (code : pystr)
    (st : ExecState Table) : ExecResult Table :=
  match List.find (fun p => str_eqb (fst p) code) scripts with
  | Some (_, prog) => run prog [] false st
  | None =>
      mkExecResult st [] (Some (PyExc ClsException (py "invalid syntax")))
                   false
  end.

(** A stub model: the [n]-th call of the process gets the [n]-th answer of
    the script, and a quota error once the script is used up. *)
Definition llm_script (answers : list (pyexc + pystr))
    (history : list (Event Table)) (llm : ChatGroq) (msgs : list Message)
  : pyexc + pystr :=
  match answers !! length (model_calls history) with
  | Some a => a
  | None => inl (PyExc ClsException (py "429 Too Many Requests"))
  end.

(** The text of Linux's [IsADirectoryError] for a path. *)
Definition is_a_directory (path : pystr) : pystr :=
  py "[Errno 21] Is a directory: '" ++ path ++ py "'".

Definition env (key : pystr) (answers : list (pyexc + pystr))
    (scripts : list (pystr * list Stmt)) : Env Table :=
  mkEnv key (py "llama-3.3-70b-versatile") (py "/app/backend/static")
        ascii_lower (llm_script answers) (exec_table scripts)
        (fun n => py "0123456789abcdef0123456789abcdef")
        is_a_directory is_a_directory.

(** The process right after import: no client, index 0, the dataset
    loaded, nothing else. *)
Definition titanic : Table := [[1; 0; 3]; [2; 1; 1]; [3; 1; 3]].

Definition fresh : World Table := mkWorld None 0 titanic [] ∅ 0 [].

Definition KEY : pystr := py "gsk_test".
Definition PNG : list Byte.byte := [Byte.x89; Byte.x50; Byte.x4e; Byte.x47].
Definition QUESTION : pystr := py "Show me a histogram of passenger ages".

Definition boom : pyexc := PyExc ClsException (py "name 'ages' is not defined").
Definition bam : pyexc := PyExc ClsException (py "unsupported operand").
Definition too_many : pyexc := PyExc ClsException (py "429 Too Many Requests").

(** A script that prints one sentence. *)
Definition env_print : Env Table :=
  env KEY [inr (py "print('38% survived')")]
      [(py "print('38% survived')", [SPrint (py "38% survived")])].

Abbreviation run_print := (process_query env_print QUESTION fresh).

(** A script that saves a chart and prints nothing. *)
Definition env_plot : Env Table :=
  env KEY [inr (py "plt.savefig(PLOT_PATH)")]
      [(py "plt.savefig(PLOT_PATH)", [SSave PNG])].

Abbreviation run_plot := (process_query env_plot QUESTION fresh).

(** A first script that saves the chart and then fails without printing,
    and a rewritten script that fails too. *)
Definition env_plot_then_fail : Env Table :=
  env KEY [inr (py "plot(ages)"); inr (py "plot(df.ages)")]
      [(py "plot(ages)", [SSave PNG; SRaise boom]);
       (py "plot(df.ages)", [SRaise bam])].

Abbreviation run_plot_then_fail := (process_query env_plot_then_fail QUESTION fresh).

(** A first script that fails without printing, and a rewritten script
    that fails with [KeyError: '429']. *)
Definition key_error_429 : pyexc := PyExc ClsException (py "'429'").

Definition env_retry_key_error : Env Table :=
  env KEY [inr (py "print(ages)"); inr (py "print(df['429'])")]
      [(py "print(ages)", [SRaise boom]);
       (py "print(df['429'])", [SRaise key_error_429])].

Abbreviation run_retry_key_error := (process_query env_retry_key_error QUESTION fresh).

(** A first script that fails with [KeyError: '429'] without printing,
    and a rewritten script that prints. *)
Definition env_first_key_error : Env Table :=
  env KEY [inr (py "print(df['429'])"); inr (py "print(len(df))")]
      [(py "print(df['429'])", [SRaise key_error_429]);
       (py "print(len(df))", [SPrint (py "3")])].

Abbreviation run_first_key_error := (process_query env_first_key_error QUESTION fresh).

(** A script that closes the buffer its output is captured in. *)
Definition env_close : Env Table :=
  env KEY [inr (py "import sys; sys.stdout.close()")]
      [(py "import sys; sys.stdout.close()", [SClose])].

Abbreviation run_close := (process_query env_close QUESTION fresh).

(** A first script that fails without printing, and a rewritten script
    that closes the buffer. *)
Definition env_retry_close : Env Table :=
  env KEY [inr (py "print(ages)"); inr (py "import sys; sys.stdout.close()")]
      [(py "print(ages)", [SRaise boom]);
       (py "import sys; sys.stdout.close()", [SClose])].

Abbreviation run_retry_close := (process_query env_retry_close QUESTION fresh).

(** A first script that saves the chart and fails; the model is then
    rate-limited. *)
Definition env_plot_then_quota : Env Table :=
  env KEY [inr (py "plot(ages)"); inl too_many]
      [(py "plot(ages)", [SSave PNG; SRaise boom])].

Abbreviation run_plot_then_quota := (process_query env_plot_then_quota QUESTION fresh).

(** A script that leaves the process: [raise SystemExit(1)]. *)
Definition system_exit : pyexc := PyExc ClsBaseException (py "1").

Definition env_exit : Env Table :=
  env KEY [inr (py "raise SystemExit(1)")]
      [(py "raise SystemExit(1)", [SRaise system_exit])].

Abbreviation run_exit := (process_query env_exit QUESTION fresh).

(** A script that imports the service module and empties its [_df] in
    place. *)
Definition env_import : Env Table :=
  env KEY [inr (py "import backend.services.agent as a; a._df.drop(a._df.index, inplace=True)")]
      [(py "import backend.services.agent as a; a._df.drop(a._df.index, inplace=True)",
        [SSetCanonical []])].

Abbreviation run_import := (process_query env_import QUESTION fresh).

(** A first script that binds a name, empties its [df] in place and
    fails; the rewritten script prints. *)
Definition env_retry_state : Env Table :=
  env KEY [inr (py "x = 1; df.drop(df.index, inplace=True); f()");
           inr (py "print(len(df))")]
      [(py "x = 1; df.drop(df.index, inplace=True); f()",
        [SBind (py "x") (VOther 1); SSetDf []; SRaise boom]);
       (py "print(len(df))", [SPrint (py "0")])].

Abbreviation run_retry_state := (process_query env_retry_state QUESTION fresh).

(** A model that is always rate-limited. *)
Definition env_rate_limited : Env Table := env KEY [] [].

Abbreviation run_rate_limited := (process_query env_rate_limited QUESTION fresh).

(** No credential. *)
Definition env_no_key : Env Table := env [] [] [].

(** A model that always answers and generated code that always fails. *)
Definition env_always_fails : Env Table :=
  mkEnv KEY (py "llama-3.3-70b-versatile") (py "/app/backend/static")
        ascii_lower (fun _ _ _ => inr (py "plot(ages)"))
        (fun _ st => mkExecResult st [] (Some boom) false)
        (fun n => py "0123456789abcdef0123456789abcdef")
        is_a_directory is_a_directory.

(** The path and the URL every stub request reserves. *)
Definition PLOT : pystr := py "/app/backend/static/plot_01234567.png".
Definition PLOT_URL : pystr := py "/static/plot_01234567.png".

(** The client a fresh stub process builds. *)
Definition client : ChatGroq :=
  mkChatGroq (py "llama-3.3-70b-versatile") 0 KEY 1.

(** The state a first run starts from in a fresh process. *)
Definition start : ExecState Table :=
  mkExecState (namespace (TObject 0) PLOT) titanic [titanic] ∅
              (Some client) 0.

(** The same state with [x] bound and the request's table emptied. *)
Definition start_changed : ExecState Table :=
  mkExecState (<[py "x" := VOther 1]> (namespace (TObject 0) PLOT))
              titanic [[]] ∅ (Some client) 0.

(** Scripts that change their own [df] only, whatever their text: the
    table bound to [df] is emptied in place and its former length
    printed. *)
Definition exec_own_df (code : pystr) (st : ExecState Table)
  : ExecResult Table :=
  match st_ns st !! py "df" with
  | Some (VTable (TObject i)) =>
      mkExecResult
        (mkExecState (st_ns st) (st_df st) (<[i := []]> (st_objects st))
                     (st_fs st) (st_llm st) (st_model_index st))
        (py "dropped") None false
  | _ => mkExecResult st [] (Some boom) false
  end.

Definition env_own_df : Env Table :=
  mkEnv KEY (py "llama-3.3-70b-versatile") (py "/app/backend/static")
        ascii_lower (llm_script [inr (py "df.drop(df.index, inplace=True)")])
        exec_own_df (fun n => py "0123456789abcdef0123456789abcdef")
        is_a_directory is_a_directory.

Abbreviation run_own_df := (process_query env_own_df QUESTION fresh).

End Stub.

(* ===================================================================== *)
(** ** The cascade state, read off the events *)
(* ===================================================================== *)

Section CascadeState.

Context {DataFrame : Type}.

(** The client an event called, and the conversation it sent. *)
Definition event_client (ev : Event DataFrame) : option ChatGroq :=
  match ev with
  | EvInvoke llm _ _ => Some llm
  | EvExec _ _ _ => None
  end.

Definition event_messages (ev : Event DataFrame) : option (list Message) :=
  match ev with
  | EvInvoke _ messages _ => Some messages
  | EvExec _ _ _ => None
  end.

(** An event of the part of a request that runs code: a run, or the call
    of the retry. *)
Definition run_event (sys q code : pystr) (llm : ChatGroq) (ev : Event DataFrame)
  : Prop :=
  match ev with
  | EvExec _ _ _ => True
  | EvInvoke c msgs _ =>
      c = llm
      /\ exists err,
           msgs = [SystemMessage sys; HumanMessage q;
                   HumanMessage (retry_message err code)]
  end.

Variable E : Env DataFrame.

(** A call of the cascade loop that ended on a quota-classified error:
    the calls after which [_try_next_model] runs. *)
Definition is_switch (ev : Event DataFrame) : bool :=
  is_plain_invoke ev && quota_failure E ev.

(** The client [_get_llm] builds, and the one [_try_next_model] builds for
    cascade entry [i]. *)
Definition primary_client : ChatGroq :=
  mkChatGroq (GROQ_MODEL E) 0 (GROQ_API_KEY E) 1.

Definition fallback_client (i : nat) : ChatGroq :=
  mkChatGroq (_MODEL_CASCADE !!! i) 0 (GROQ_API_KEY E) 1.

(** The client the [k]-th call of a cascade loop uses, in a loop entered
    with client [llm] at cascade index [i]. *)
Definition loop_client (llm : ChatGroq) (i k : nat) : ChatGroq :=
  match k with
  | O => llm
  | S _ => fallback_client (i + k)
  end.

(** The client that belongs to cascade index [i]: the configured model
    before any switch, the entry at [i] after a switch, and the last entry
    once the index has run past the cascade. *)
Definition client_of (i : nat) : ChatGroq :=
  match i with
  | O => primary_client
  | S _ => fallback_client (Nat.min i (length _MODEL_CASCADE - 1))
  end.

(** The two globals agree: no client yet and index 0, or the client of
    the index. *)
Definition coherent (w : World DataFrame) : Prop :=
  match _llm w with
  | None => _model_index w = 0
  | Some c => c = client_of (_model_index w)
  end.

End CascadeState.

(* ===================================================================== *)
(** ** The HTTP handler [chat_endpoint] and the front end *)
(* ===================================================================== *)

(** HTTPException(status_code=..., detail=...) *)
Record HTTPException := mkHTTPException {
  status_code : nat;
  detail : pystr;
}.

(** ChatResponse(response=..., image_url=...), with the two fields the
    handler fills. *)
Record ChatResponse := mkChatResponse {
  chat_response : pystr;
  chat_image_url : option pystr;
}.

(** How a call of the handler ends: with the response model, with an
    [HTTPException], or with an exception no clause caught. *)
Inductive Handled :=
| Responded (r : ChatResponse)
| Rejected (h : HTTPException)
| Unhandled (e : pyexc).

Definition MSG_EMPTY_MESSAGE : pystr := py "Message cannot be empty.".

Definition msg_internal_error (exc : pyexc) : pystr :=
  py "Internal server error: " ++ exc_str exc.

Section Endpoint.

Context {DataFrame : Type}.
Variable E : Env DataFrame.

(** async def chat_endpoint(request), [message] being [request.message]. *)
Definition chat_endpoint (message : pystr) (w : World DataFrame)
  : Handled * World DataFrame :=
  if negb (truthy (strip message)) then
    (Rejected (mkHTTPException 422 MSG_EMPTY_MESSAGE), w)
  else
    match process_query E message w with
    | (Returned result, w) =>
        (Responded (mkChatResponse (response result) (image_url result)), w)
    | (Propagated exc, w) =>
        if is_Exception exc then
          (Rejected (mkHTTPException 500 (msg_internal_error exc)), w)
        else (Unhandled exc, w)
    end.

End Endpoint.

(** The front end's [_handle_query(question)], as far as the back end
    sees it: the messages it posts to [/api/chat].  Left out: the session
    state and the rendering. *)
Definition _handle_query (question : pystr) : list pystr :=
  let question := strip question in
  if negb (truthy question) then [] else [question].

(* ===================================================================== *)
(** ** The standalone app, [streamlit_app.py] *)
(* ===================================================================== *)

Module Standalone.

(** _QUOTA_PHRASES of the standalone app: one phrase more. *)
Definition _QUOTA_PHRASES : list pystr :=
  [ py "RESOURCE_EXHAUSTED";
    py "quota";
    py "rate limit";
    py "429";
    py "Too Many Requests";
    py "rate_limit" ].

Definition PROMPT_HEAD : pystr :=
  concat
    [ ln (py "You are an expert Python data analyst working with the Titanic passenger dataset.");
      ln [];
      ln (py "DATAFRAME `df` " ++ [EMDASH] ++ py " 891 rows, 12 columns:");
      ln (py "  PassengerId  int    unique id 1-891");
      ln (py "  Survived     int    0=died, 1=survived");
      ln (py "  Pclass       int    ticket class: 1=First, 2=Second, 3=Third");
      ln (py "  Name         str    full name");
      ln (py "  Sex          str    'male' or 'female'");
      ln (py "  Age          float  age in years (177 NaN values)");
      ln (py "  SibSp        int    num siblings/spouses aboard");
      ln (py "  Parch        int    num parents/children aboard");
      ln (py "  Ticket       str    ticket number");
      ln (py "  Fare         float  fare in GBP");
      ln (py "  Cabin        str    cabin number (687 NaN values)");
      ln (py "  Embarked     str    port: C=Cherbourg Q=Queenstown S=Southampton");
      ln [];
      ln (py "EXECUTION NAMESPACE (already available " ++ [EMDASH] ++ py " do NOT import or redefine):");
      py "  df, pd, np, plt, sns, PLOT_PATH=" ++ [DQUOTE] ].

Definition PROMPT_TAIL : pystr :=
  concat
    [ ln ([DQUOTE]);
      ln [];
      ln (py "RULES:");
      ln (py "FOR STATISTICS / DATA QUESTIONS:");
      ln (py "  1. Compute the answer using pandas/numpy on df.");
      ln (py "  2. print() a single clear sentence. Use **bold** for key figures.");
      ln (py "  3. For multi-row results print a markdown table.");
      ln [];
      ln (py "FOR CHARTS / PLOTS / VISUALIZATIONS:");
      ln (py "  1. plt.style.use('seaborn-v0_8-whitegrid'); sns.set_palette(" ++ [DQUOTE] ++ py "husl" ++ [DQUOTE] ++ py ")");
      ln (py "  2. fig, ax = plt.subplots(figsize=(10, 6))");
      ln (py "  3. Build chart on ax. Add descriptive title, xlabel, ylabel.");
      ln (py "  4. plt.tight_layout()");
      ln (py "  5. plt.savefig(PLOT_PATH, bbox_inches='tight', dpi=150)");
      ln (py "  6. plt.close('all')");
      ln (py "  7. print() one sentence describing what the chart shows.");
      ln [];
      ln (py "CRITICAL:");
      ln (py "  - NEVER call plt.show()");
      ln (py "  - Output ONLY valid Python code " ++ [EMDASH] ++ py " no markdown fences, no explanations.") ].


(** def _build_system_prompt(plot_path) *)
Definition _build_system_prompt (plot_path : pystr) : pystr :=
  PROMPT_HEAD ++ plot_path ++ PROMPT_TAIL.

Definition MSG_NOT_CONFIGURED : pystr :=
  WARNING_SIGN ++ py " GROQ_API_KEY is not configured." ++ [NL; NL]
  ++ py "**For local use:** Add `GROQ_API_KEY=your_key` to `.env`"
  ++ [NL; NL]
  ++ py "**For Streamlit Cloud:** Add it in App Settings " ++ [8594%N]
  ++ py " Secrets as:" ++ [NL]
  ++ py "```toml" ++ [NL] ++ py "GROQ_API_KEY = " ++ [DQUOTE]
  ++ py "your_key_here" ++ [DQUOTE] ++ [NL] ++ py "```".

Definition MSG_ALL_RATE_LIMITED : pystr :=
  WARNING_SIGN ++ py " All Groq models are currently rate-limited. "
  ++ py "Please wait a minute and try again.".

Definition msg_api_error (exc : pyexc) : pystr :=
  py "Error calling Groq API: " ++ exc_str exc.

Definition msg_analysis_error (err_msg : pystr) : pystr :=
  py "Analysis error: `" ++ err_msg ++ py "`" ++ [NL; NL]
  ++ py "Try rephrasing your question.".

Definition MSG_VISUALISATION : pystr := py "Here is the visualisation:".

Definition MSG_NO_OUTPUT : pystr :=
  py "Analysis ran but produced no output. Try rephrasing.".

(** The namespace dict of the standalone [process_query]: no [uuid]. *)
Definition namespace (copy : tref) (plot_path : pystr) : gmap pystr pyval :=
  <[py "df" := VTable copy]>
  (<[py "pd" := VModule (py "pandas")]>
  (<[py "np" := VModule (py "numpy")]>
  (<[py "plt" := VModule (py "matplotlib.pyplot")]>
  (<[py "sns" := VModule (py "seaborn")]>
  (<[py "PLOT_PATH" := VStr plot_path]>
  (<[py "os" := VModule (py "os")]> ∅)))))).

(** Truth value of a [bytes | None]. *)
Definition truthy_bytes (o : option (list Byte.byte)) : bool :=
  match o with Some (_ :: _) => true | _ => false end.

(** Where the standalone app runs: the secret of Streamlit Cloud, if
    [st.secrets] has one, the environment variable, if set, and the plot
    directory. *)
Record Deployment := mkDeployment {
  secrets_key : option pystr;
  environ_key : option pystr;
  _PLOT_DIR : pystr;
}.

(** How the standalone [process_query] ends: with its pair, or with an
    exception it did not handle. *)
Inductive Answer :=
| Answered (text : pystr) (img_bytes : option (list Byte.byte))
| Escaped (e : pyexc).

(** How the loop over the cascade ends. *)
Inductive Asked :=
| AskCode (code : pystr)      (* [break] *)
| AskNothing                  (* the [for] ran out *)
| AskReturn (text : pystr)    (* [return] inside the loop *)
| AskRaise (e : pyexc).       (* not an [Exception] *)

Section App.

Context {DataFrame : Type}.
Variable E : Env DataFrame.
Variable D : Deployment.

Local Abbreviation World := (World DataFrame).

(** def _get_api_key() *)
Definition _get_api_key : pystr :=
  match secrets_key D with
  | Some key => key
  | None => default [] (environ_key D)
  end.

(** def _is_quota_error(exc) *)
Definition _is_quota_error (exc : pyexc) : bool :=
  existsb (fun p => contains (str_lower E p) (str_lower E (exc_str exc)))
          _QUOTA_PHRASES.

(** for model in _MODEL_CASCADE: ..., [models] being the entries left. *)
Fixpoint ask_cascade (models : list pystr) (api_key system_msg query : pystr)
    (w : World) : Asked * World :=
  match models with
  | [] => (AskNothing, w)
  | model :: models' =>
      let llm := mkChatGroq model 0 api_key 1 in
      let '(res, w) :=
        invoke E llm [SystemMessage system_msg; HumanMessage query] w in
      match res with
      | inr content => (AskCode (_clean_code content), w)
      | inl exc =>
          if is_Exception exc then
            if _is_quota_error exc then
              ask_cascade models' api_key system_msg query w
            else (AskReturn (msg_api_error exc), w)
          else (AskRaise exc, w)
      end
  end.

(** Reading the plot, if one was saved, and removing the file; neither
    [open] nor [os.remove] is inside a [try], and both refuse a
    directory. *)
Definition read_plot (plot_path : pystr) (w : World)
  : (pyexc + option (list Byte.byte)) * World :=
  match fs w !! plot_path with
  | Some node =>
      if 0 <? getsize node then
        match node with
        | File data => (inr (Some data), set_fs (delete plot_path (fs w)) w)
        | Dir _ => (inl (PyExc ClsException (open_strerror E plot_path)), w)
        end
      else
        match node with
        | File _ => (inr None, set_fs (delete plot_path (fs w)) w)
        | Dir _ => (inl (PyExc ClsException (remove_strerror E plot_path)), w)
        end
  | None => (inr None, w)
  end.

(** The three [if]s that end [process_query]. *)
Definition answer (err_msg : option pystr) (text : pystr)
    (img_bytes : option (list Byte.byte)) : Answer :=
  if truthy_opt err_msg && negb (truthy text) && negb (truthy_bytes img_bytes)
  then Answered (msg_analysis_error (default [] err_msg)) None
  else
    let text :=
      if negb (truthy text) && truthy_bytes img_bytes then MSG_VISUALISATION
      else text in
    let text :=
      if negb (truthy text) && negb (truthy_bytes img_bytes) then MSG_NO_OUTPUT
      else text in
    Answered text img_bytes.

(** From [text = buf.getvalue().strip()], which no [try] encloses, to
    the final [return]. *)
Definition finish (err_msg : option pystr) (r : ExecResult DataFrame)
    (plot_path : pystr) (w : World) : Answer * World :=
  match getvalue r with
  | inl exc => (Escaped exc, w)
  | inr out =>
      let text := strip out in
      match read_plot plot_path w with
      | (inr img_bytes, w) => (answer err_msg text img_bytes, w)
      | (inl exc, w) => (Escaped exc, w)
      end
  end.

Definition plot_path (w : World) : pystr :=
  os_path_join (_PLOT_DIR D) (plot_fname E w).

(** def process_query(query) *)
Definition process_query (query : pystr) (w : World) : Answer * World :=
  let api_key := _get_api_key in
  if negb (truthy api_key) then (Answered MSG_NOT_CONFIGURED None, w)
  else
    let '(hex, w) := uuid4 E w in
    let plot_fname := py "plot_" ++ take 8 hex ++ py ".png" in
    let plot_path := os_path_join (_PLOT_DIR D) plot_fname in
    let system_msg := _build_system_prompt plot_path in
    match ask_cascade _MODEL_CASCADE api_key system_msg query w with
    | (AskCode code, w) =>
        let '(copy, w) := df_copy w in
        let ns := namespace copy plot_path in
        let '(r, w) := exec E code ns w in
        match ex_raised r with
        | Some exc =>
            if is_Exception exc then finish (Some (exc_str exc)) r plot_path w
            else (Escaped exc, w)
        | None => finish None r plot_path w
        end
    | (AskNothing, w) => (Answered MSG_ALL_RATE_LIMITED None, w)
    | (AskReturn text, w) => (Answered text None, w)
    | (AskRaise e, w) => (Escaped e, w)
    end.

End App.

End Standalone.

(* ===================================================================== *)
(** ** More stub scenarios *)
(* ===================================================================== *)

Module Scenarios.

Import Stub.

(** The two clients a stub process gets to first. *)
Definition primary : ChatGroq :=
  mkChatGroq (py "llama-3.3-70b-versatile") 0 KEY 1.

Definition fallback1 : ChatGroq := mkChatGroq (py "llama3-70b-8192") 0 KEY 1.

(** The conversation of the cascade loop in a stub request. *)
Definition asked : list Message :=
  [SystemMessage (_build_system_prompt PLOT); HumanMessage QUESTION].

(** The API is unreachable. *)
Definition api_down : pyexc := PyExc ClsException (py "Connection error.").

Definition env_api_down : Env Table := env KEY [inl api_down] [].

Abbreviation run_api_down := (process_query env_api_down QUESTION fresh).

(** Two models are rate-limited, the third answers. *)
Definition env_two_switches : Env Table :=
  env KEY [inl too_many; inl too_many; inr (py "print('38% survived')")]
      [(py "print('38% survived')", [SPrint (py "38% survived")])].

Abbreviation run_two_switches := (process_query env_two_switches QUESTION fresh).

(** A script that prints its answer and then fails. *)
Definition env_print_then_fail : Env Table :=
  env KEY [inr (py "print('38% survived'); f()")]
      [(py "print('38% survived'); f()",
        [SPrint (py "38% survived"); SRaise boom])].

Abbreviation run_print_then_fail :=
  (process_query env_print_then_fail QUESTION fresh).

(** One model is rate-limited, the next answers with a script that
    imports the service module and resets its two globals. *)
Definition env_reset_globals : Env Table :=
  env KEY [inl too_many;
           inr (py "import backend.services.agent as a; a._llm = None; a._model_index = 0")]
      [(py "import backend.services.agent as a; a._llm = None; a._model_index = 0",
        [SSetGlobals None 0])].

Abbreviation run_reset_globals :=
  (process_query env_reset_globals QUESTION fresh).

(** A script that makes a directory at the reserved path. *)
Definition env_mkdir : Env Table :=
  env KEY [inr (py "os.makedirs(PLOT_PATH)")]
      [(py "os.makedirs(PLOT_PATH)", [SMkdir 4096])].

Abbreviation run_mkdir := (process_query env_mkdir QUESTION fresh).

(** The same on a file system whose empty directories have size 0. *)
Definition env_mkdir_empty : Env Table :=
  env KEY [inr (py "os.makedirs(PLOT_PATH)")]
      [(py "os.makedirs(PLOT_PATH)", [SMkdir 0])].

Abbreviation run_mkdir_empty := (process_query env_mkdir_empty QUESTION fresh).

(** The standalone app with its key in the environment. *)
Definition deployed : Standalone.Deployment :=
  Standalone.mkDeployment None (Some KEY) (py "/app/backend/static").

(** The state a run of the standalone app starts from. *)
Definition start_standalone : ExecState Table :=
  mkExecState (Standalone.namespace (TObject 0) PLOT) titanic [titanic] ∅
              None 0.

(** Requests to the standalone app. *)
Abbreviation standalone_two_switches :=
  (Standalone.process_query env_two_switches deployed QUESTION fresh).

Abbreviation standalone_plot :=
  (Standalone.process_query env_plot deployed QUESTION fresh).

Abbreviation standalone_plot_then_fail :=
  (Standalone.process_query env_plot_then_fail deployed QUESTION fresh).

End Scenarios.

(* ===================================================================== *)
(** ** Properties of the code sanitizer *)
(* ===================================================================== *)

Section Sanitizer.

Local Open Scope N_scope.

(** *** Whitespace runs and [strip] *)

Lemma drop_ws_run (s : pystr) : drop (ws_run s) s = lstrip s.
Proof.
  induction s as [|c s IH]; simpl; [reflexivity|].
  destruct (is_space c); simpl; auto.
Qed.

Lemma lstrip_all_space (w s : pystr) :
  all_space w = true -> lstrip (w ++ s) = lstrip s.
Proof.
  induction w as [|c w IH]; simpl; [reflexivity|].
  intros [Hc Hw]%andb_prop. rewrite Hc. auto.
Qed.

Lemma lstrip_nil_all_space (s : pystr) : lstrip s = [] -> all_space s = true.
Proof.
  induction s as [|c s IH]; simpl; [reflexivity|].
  destruct (is_space c); simpl; [auto | discriminate].
Qed.

Lemma all_space_lstrip (s : pystr) : all_space s = true -> lstrip s = [].
Proof.
  intros H. rewrite <- (app_nil_r s). rewrite lstrip_all_space; auto.
Qed.

(** [lstrip] leaves a text that does not start with whitespace alone. *)
Lemma lstrip_head (c : N) (s : pystr) :
  is_space c = false -> lstrip (c :: s) = c :: s.
Proof. intros H. simpl. now rewrite H. Qed.

Lemma lstrip_cases (s : pystr) :
  lstrip s = [] \/ exists c t, lstrip s = c :: t /\ is_space c = false.
Proof.
  induction s as [|c s IH]; simpl; [now left|].
  destruct (is_space c) eqn:Hc; [exact IH|]. right. eauto.
Qed.

Lemma lstrip_idem (s : pystr) : lstrip (lstrip s) = lstrip s.
Proof.
  destruct (lstrip_cases s) as [->|(c & t & -> & Hc)]; [reflexivity|].
  now apply lstrip_head.
Qed.

Lemma lstrip_split (s : pystr) :
  exists w, s = w ++ lstrip s /\ all_space w = true.
Proof.
  induction s as [|c s (w & Hs & Hw)]; simpl.
  - exists []. split; reflexivity.
  - destruct (is_space c) eqn:Hc.
    + exists (c :: w). simpl. rewrite Hc, Hw. split; [congruence | reflexivity].
    + exists []. split; reflexivity.
Qed.

Lemma all_space_app (a b : pystr) :
  all_space (a ++ b) = all_space a && all_space b.
Proof. apply forallb_app. Qed.

Lemma all_space_rev (a : pystr) : all_space (rev a) = all_space a.
Proof.
  induction a as [|c a IH]; simpl; [reflexivity|].
  rewrite all_space_app, IH. simpl. rewrite andb_true_r. apply andb_comm.
Qed.

Lemma rstrip_app_space (s w : pystr) :
  all_space w = true -> rstrip (s ++ w) = rstrip s.
Proof.
  intros Hw. unfold rstrip. rewrite rev_app_distr.
  rewrite lstrip_all_space; [reflexivity|]. now rewrite all_space_rev.
Qed.

(** Trailing whitespace does not change what [strip] returns. *)
Lemma strip_app_space (s w : pystr) :
  all_space w = true -> strip (s ++ w) = strip s.
Proof.
  intros Hw. unfold strip.
  destruct (lstrip_cases s) as [Hs|(c & t & Hs & Hc)].
  - rewrite Hs. rewrite lstrip_all_space by now apply lstrip_nil_all_space.
    rewrite (all_space_lstrip w Hw). reflexivity.
  - destruct (lstrip_split s) as (v & Hsv & Hv).
    rewrite Hsv at 1. rewrite <- app_assoc, lstrip_all_space by exact Hv.
    rewrite Hs. change ((c :: t) ++ w) with (c :: (t ++ w)).
    rewrite lstrip_head by exact Hc.
    change (c :: (t ++ w)) with ((c :: t) ++ w).
    now apply rstrip_app_space.
Qed.

Lemma strip_app_space_l (w s : pystr) :
  all_space w = true -> strip (w ++ s) = strip s.
Proof. intros Hw. unfold strip. now rewrite lstrip_all_space. Qed.

(** [rstrip] cuts a suffix of whitespace. *)
Lemma rstrip_split (s : pystr) :
  exists w, s = rstrip s ++ w /\ all_space w = true.
Proof.
  destruct (lstrip_split (rev s)) as (w & Hs & Hw).
  exists (rev w). split.
  - unfold rstrip. rewrite <- rev_app_distr, <- Hs. now rewrite rev_involutive.
  - now rewrite all_space_rev.
Qed.

Lemma rstrip_idem (s : pystr) : rstrip (rstrip s) = rstrip s.
Proof.
  unfold rstrip. rewrite rev_involutive, lstrip_idem. reflexivity.
Qed.

(** [rstrip] keeps the head of a text that does not start with whitespace. *)
Lemma lstrip_rstrip (s : pystr) :
  lstrip (rstrip (lstrip s)) = rstrip (lstrip s).
Proof.
  destruct (lstrip_cases s) as [->|(c & t & -> & Hc)]; [reflexivity|].
  destruct (rstrip_split (c :: t)) as (w & Hs & Hw).
  destruct (rstrip (c :: t)) as [|c' t'] eqn:Hr; [reflexivity|].
  simpl in Hs. injection Hs as -> _. now apply lstrip_head.
Qed.

Lemma strip_idem (s : pystr) : strip (strip s) = strip s.
Proof.
  unfold strip. rewrite lstrip_rstrip. apply rstrip_idem.
Qed.

(** *** Fences and the two patterns *)

Lemma strip_prefix_app (p s : pystr) : strip_prefix p (p ++ s) = Some s.
Proof.
  induction p as [|a p IH]; simpl; [reflexivity|]. now rewrite N.eqb_refl.
Qed.

Lemma strip_prefix_fence_head (c : N) (s : pystr) :
  negb (c =? BACKTICK) = true -> strip_prefix FENCE (c :: s) = None.
Proof.
  intros Hc. apply negb_true_iff in Hc. rewrite N.eqb_sym in Hc.
  unfold FENCE. cbn [strip_prefix]. now rewrite Hc.
Qed.

Lemma contains_cons (p : pystr) (c : N) (s : pystr) :
  contains p s = true -> contains p (c :: s) = true.
Proof. intros H. simpl. rewrite H. now destruct (strip_prefix p (c :: s)). Qed.

Lemma contains_drop (p : pystr) (k : nat) (s t : pystr) :
  strip_prefix p (drop k s) = Some t -> contains p s = true.
Proof.
  revert s. induction k as [|k IH]; intros s H.
  - rewrite drop_0 in H. destruct s; simpl; now rewrite H.
  - destruct s as [|c s]; [destruct p; simpl in *; congruence|].
    apply contains_cons, IH. exact H.
Qed.

Lemma has_fence_tail (c : N) (s : pystr) :
  has_fence (c :: s) = false -> has_fence s = false.
Proof.
  intros H. destruct (has_fence s) eqn:Hs; [|reflexivity].
  unfold has_fence in *. now rewrite (contains_cons _ c _ Hs) in H.
Qed.

Lemma match_open_fence (b : bool) (s : pystr) (n : nat) :
  match_open b s = Some n -> has_fence s = true.
Proof.
  unfold match_open. destruct b; [|discriminate].
  destruct (strip_prefix FENCE (drop (ws_run s) s)) eqn:H; [|discriminate].
  intros _. exact (contains_drop _ _ _ _ H).
Qed.

Lemma match_close_fence (b : bool) (s : pystr) (n : nat) :
  match_close b s = Some n -> has_fence s = true.
Proof.
  unfold match_close.
  destruct (strip_prefix FENCE (drop (ws_run s) s)) eqn:H; [|discriminate].
  intros _. exact (contains_drop _ _ _ _ H).
Qed.

(** A substitution whose pattern needs a fence leaves fence-free text
    alone. *)
Lemma re_sub_no_fence (m : bool -> pystr -> option nat) :
  (forall b s n, m b s = Some n -> has_fence s = true) ->
  forall s b, has_fence s = false -> re_sub m 0 b s = s.
Proof.
  intros Hm. induction s as [|c s IH]; intros b Hs; [reflexivity|].
  simpl. destruct (m b (c :: s)) as [n|] eqn:Hmatch.
  - apply Hm in Hmatch. congruence.
  - f_equal. apply IH. exact (has_fence_tail _ _ Hs).
Qed.

Lemma clean_no_fence (y : pystr) :
  has_fence y = false -> _clean_code y = strip y.
Proof.
  intros Hy. unfold _clean_code.
  rewrite (re_sub_no_fence _ match_open_fence) by exact Hy.
  rewrite (re_sub_no_fence _ match_close_fence) by exact Hy.
  reflexivity.
Qed.

Lemma no_backtick_no_fence (s : pystr) :
  no_backtick s = true -> has_fence s = false.
Proof.
  induction s as [|c s IH]; [reflexivity|].
  simpl. intros [Hc Hs]%andb_prop. unfold has_fence.
  cbn [contains]. rewrite (strip_prefix_fence_head _ _ Hc).
  exact (IH Hs).
Qed.

(** Dropping a whole match: the scan resumes after it. *)
Lemma re_sub_skip (m : bool -> pystr -> option nat) (pre r : pystr) (b : bool) :
  re_sub m (length pre) b (pre ++ r)
  = re_sub m 0 (match last pre with Some c => c =? NL | None => b end) r.
Proof.
  revert b. induction pre as [|c pre IH]; intros b; [reflexivity|].
  simpl. rewrite IH. destruct pre; [reflexivity|].
  rewrite last_cons_cons.
  destruct (last (n :: pre)) eqn:Hl; [reflexivity|].
  apply last_None in Hl. discriminate.
Qed.

Lemma re_sub_skip_all (m : bool -> pystr -> option nat) (s : pystr) (b : bool) :
  re_sub m (length s) b s = [].
Proof.
  rewrite <- (app_nil_r s) at 2. rewrite re_sub_skip. reflexivity.
Qed.

(** In backtick-free text followed by a closing fence line, the opening
    pattern can only match a whitespace run that reaches the fence. *)
Lemma open_before_closing_fence (t s2 : pystr) :
  no_backtick t = true ->
  strip_prefix FENCE (drop (ws_run (t ++ NL :: FENCE)) (t ++ NL :: FENCE))
  = Some s2 ->
  all_space t = true /\ s2 = []
  /\ ws_run (t ++ NL :: FENCE) = S (length t).
Proof.
  induction t as [|c t IH].
  - simpl. intros _ H. injection H as <-. auto.
  - cbn [no_backtick forallb app ws_run all_space length].
    intros [Hc Ht]%andb_prop. destruct (is_space c) eqn:Hsp.
    + cbn [drop]. intros H. destruct (IH Ht H) as (Ha & Hb & Hd).
      unfold all_space in *. rewrite Ha, Hd. auto.
    + rewrite drop_0, (strip_prefix_fence_head _ _ Hc). discriminate.
Qed.

(** The first substitution on backtick-free text followed by a closing
    fence line: the fence goes, with at most some whitespace before it. *)
Lemma re_sub_open_closing_fence (t : pystr) :
  no_backtick t = true ->
  forall b, exists u w,
    t ++ [NL] = u ++ w /\ all_space w = true
    /\ re_sub match_open 0 b (t ++ NL :: FENCE) = u.
Proof.
  induction t as [|c t IH]; intros Ht b.
  - destruct b.
    + exists [], [NL]. repeat split.
    + exists [NL], []. repeat split.
  - pose proof Ht as Hct. simpl in Hct. apply andb_prop in Hct as [Hc Ht'].
    change ((c :: t) ++ NL :: FENCE) with (c :: (t ++ NL :: FENCE)).
    cbn [re_sub].
    destruct (match_open b (c :: t ++ NL :: FENCE)) as [[|k]|] eqn:Hm.
    + destruct (IH Ht' (c =? NL)) as (u & w & Hu & Hw & Hr).
      exists (c :: u), w. simpl. rewrite Hr, <- Hu. auto.
    + unfold match_open in Hm. destruct b; [|discriminate].
      change (c :: t ++ NL :: FENCE) with ((c :: t) ++ NL :: FENCE) in Hm.
      destruct (strip_prefix FENCE _) as [s2|] eqn:Hp; [|discriminate].
      destruct (open_before_closing_fence _ _ Ht Hp) as (Hsp & -> & Hrun).
      rewrite Hrun in Hm. simpl in Hm. injection Hm as Hk.
      exists [], ((c :: t) ++ [NL]). split; [reflexivity|]. split.
      * rewrite all_space_app, Hsp. reflexivity.
      * assert (k = length (t ++ NL :: FENCE)) as ->.
        { rewrite length_app. simpl. lia. }
        apply re_sub_skip_all.
    + destruct (IH Ht' (c =? NL)) as (u & w & Hu & Hw & Hr).
      exists (c :: u), w. simpl. rewrite Hr, <- Hu. auto.
Qed.

Lemma no_backtick_app (a b : pystr) :
  no_backtick (a ++ b) = no_backtick a && no_backtick b.
Proof. apply forallb_app. Qed.

Lemma ws_run_length (s : pystr) : (ws_run s <= length s)%nat.
Proof.
  induction s as [|c s IH]; simpl; [lia|]. destruct (is_space c); simpl; lia.
Qed.

(** The opening pattern at the head of a fenced text takes the fence, the
    tag and all the whitespace that follows. *)
Lemma match_open_fenced (tagged : bool) (rest : pystr) :
  let tag := if tagged then py "python" else [] in
  match_open true (FENCE ++ tag ++ NL :: rest)
  = Some (length (FENCE ++ tag ++ take (ws_run (NL :: rest)) (NL :: rest))).
Proof.
  intros tag. unfold match_open.
  assert (ws_run (FENCE ++ tag ++ NL :: rest) = 0%nat) as -> by reflexivity.
  rewrite drop_0, strip_prefix_app.
  pose proof (ws_run_length (NL :: rest)) as Hlen.
  assert (length (FENCE ++ tag ++ take (ws_run (NL :: rest)) (NL :: rest))
          = (3 + length tag + ws_run (NL :: rest))%nat) as ->.
  { rewrite !length_app, length_take. simpl length in *. lia. }
  subst tag. destruct tagged.
  - rewrite strip_prefix_app. reflexivity.
  - assert (strip_prefix (py "python") ([] ++ NL :: rest) = None) as ->
      by reflexivity.
    reflexivity.
Qed.

Lemma re_sub_match (m : bool -> pystr -> option nat) (pre r : pystr) (b : bool) :
  pre <> [] -> m b (pre ++ r) = Some (length pre) ->
  re_sub m 0 b (pre ++ r)
  = re_sub m 0 (match last pre with Some c => c =? NL | None => b end) r.
Proof.
  intros Hpre Hm. rewrite <- re_sub_skip.
  destruct pre as [|c pre]; [congruence|].
  change ((c :: pre) ++ r) with (c :: (pre ++ r)) in *.
  cbn [re_sub length]. now rewrite Hm.
Qed.

Lemma ws_run_app (w s : pystr) :
  all_space w = true -> ws_run (w ++ s) = (length w + ws_run s)%nat.
Proof.
  induction w as [|c w IH]; [reflexivity|].
  simpl. intros [Hc Hw]%andb_prop. rewrite Hc, (IH Hw). reflexivity.
Qed.

(** What the first substitution leaves of a fenced, backtick-free body:
    a prefix of the body, short of it by whitespace only. *)
Lemma re_sub_open_fenced (tagged : bool) (body : pystr) :
  no_backtick body = true ->
  exists u w,
    lstrip body ++ [NL] = u ++ w /\ all_space w = true
    /\ re_sub match_open 0 true (fenced tagged body) = u.
Proof.
  intros Hb. unfold fenced.
  remember (if tagged then py "python" else []) as tag eqn:Htag.
  remember (NL :: body ++ [NL] ++ FENCE) as X eqn:HeqX.
  change ([NL] ++ body ++ [NL] ++ FENCE) with (NL :: body ++ [NL] ++ FENCE).
  rewrite <- HeqX.
  assert (FENCE ++ tag ++ X
          = (FENCE ++ tag ++ take (ws_run X) X) ++ drop (ws_run X) X) as ->.
  { now rewrite <- !app_assoc, take_drop. }
  rewrite re_sub_match.
  2: { discriminate. }
  2: { rewrite <- !app_assoc, take_drop.
       rewrite HeqX, Htag. apply match_open_fenced. }
  destruct (lstrip_split body) as (wb & Hbody & Hwb).
  destruct (lstrip_cases body) as [Hnil|(c & t & Hct & Hc)].
  - (* the body is blank: the scan is at the closing fence, on a new line *)
    rewrite Hnil, app_nil_r in Hbody. subst wb.
    assert (X = (NL :: body ++ [NL]) ++ FENCE) as HX.
    { rewrite HeqX. simpl. now rewrite <- app_assoc. }
    assert (all_space (NL :: body ++ [NL]) = true) as Hsp.
    { simpl. rewrite all_space_app, Hwb. reflexivity. }
    assert (ws_run X = length (NL :: body ++ [NL])) as Hrun.
    { rewrite HX, ws_run_app by exact Hsp. simpl. lia. }
    rewrite Hrun, HX, take_app_length, drop_app_length.
    rewrite !last_app. change (body ++ [NL]) with (body ++ [NL]).
    rewrite last_cons, last_snoc. simpl option_rect.
    exists [], [NL]. rewrite Hnil. repeat split.
  - (* the scan is at the first code point of the body proper *)
    assert (no_backtick (c :: t) = true) as Hnb.
    { rewrite Hbody, no_backtick_app, Hct in Hb. now apply andb_prop in Hb. }
    assert (X = (NL :: wb) ++ (c :: t) ++ NL :: FENCE) as HX.
    { rewrite HeqX, Hbody, Hct. simpl. now rewrite <- !app_assoc. }
    assert (all_space (NL :: wb) = true) as Hsp by (simpl; now rewrite Hwb).
    assert (ws_run X = length (NL :: wb)) as Hrun.
    { rewrite HX, ws_run_app by exact Hsp. simpl. rewrite Hc. lia. }
    rewrite Hrun, HX, take_app_length, drop_app_length, Hct.
    apply re_sub_open_closing_fence. exact Hnb.
Qed.

(** A fenced, backtick-free body comes out trimmed and without its
    fences. *)
Lemma clean_fenced (tagged : bool) (body : pystr) :
  no_backtick body = true -> _clean_code (fenced tagged body) = strip body.
Proof.
  intros Hb. unfold _clean_code.
  destruct (re_sub_open_fenced tagged body Hb) as (u & w & Huw & Hw & ->).
  destruct (lstrip_split body) as (wb & Hbody & Hwb).
  assert (no_backtick u = true) as Hu.
  { assert (no_backtick (u ++ w) = true) as H.
    { rewrite <- Huw, no_backtick_app.
      rewrite Hbody, no_backtick_app in Hb. apply andb_prop in Hb as [_ ->].
      reflexivity. }
    rewrite no_backtick_app in H. now apply andb_prop in H. }
  rewrite (re_sub_no_fence _ match_close_fence)
    by now apply no_backtick_no_fence.
  rewrite <- (strip_app_space u w Hw), <- Huw.
  rewrite strip_app_space by reflexivity.
  rewrite Hbody at 2. now rewrite strip_app_space_l.
Qed.

End Sanitizer.

(* ===================================================================== *)
(** ** Properties of the prompt *)
(* ===================================================================== *)

Section Prompt.

Lemma lines_cons (s : pystr) : exists l ls, lines s = l :: ls.
Proof.
  induction s as [|c s (l & ls & IH)]; simpl; [eauto|].
  destruct (c =? NL)%N; [eauto|]. rewrite IH. eauto.
Qed.

Lemma lines_app (a b : pystr) :
  lines (a ++ b)
  = match lines b with
    | l :: rest => glue (lines a) l rest
    | [] => lines a
    end.
Proof.
  destruct (lines_cons b) as (l & rest & Hb). rewrite Hb.
  induction a as [|c a IH]; [exact Hb|].
  cbn [app lines]. destruct (c =? NL)%N.
  - rewrite IH. destruct (lines_cons a) as (x & xs & ->). reflexivity.
  - rewrite IH. destruct (lines_cons a) as (x & xs & ->).
    destruct xs; reflexivity.
Qed.

Lemma lines_no_newline (p s : pystr) :
  no_newline p = true ->
  lines (p ++ s)
  = match lines s with
    | l :: rest => (p ++ l) :: rest
    | [] => [p]
    end.
Proof.
  destruct (lines_cons s) as (l & rest & Hs). rewrite Hs.
  induction p as [|c p IH]; [intros _; exact Hs|].
  cbn [no_newline forallb app lines]. intros [Hc Hp]%andb_prop.
  apply negb_true_iff in Hc. rewrite Hc, (IH Hp). reflexivity.
Qed.

(** The prompt lists six names, wherever the plot goes. *)
Lemma prompt_documents_six (path : pystr) :
  no_newline path = true ->
  documented_names (_build_system_prompt path)
  = [py "df"; py "pd"; py "np"; py "plt"; py "sns"; py "PLOT_PATH"].
Proof.
  intros Hp. unfold documented_names, _build_system_prompt.
  rewrite lines_app, (lines_no_newline _ _ Hp).
  vm_compute. reflexivity.
Qed.

End Prompt.

(* ===================================================================== *)
(** ** Properties of the service *)
(* ===================================================================== *)

Section ServiceProperties.

Context {DataFrame : Type}.
Variable E : Env DataFrame.

Local Abbreviation World := (World DataFrame).
Local Abbreviation Event := (Event DataFrame).

(** *** Events *)

Lemma execs_app (a b : list Event) : execs (a ++ b) = execs a ++ execs b.
Proof.
  induction a as [|[] a IH]; simpl; [reflexivity| exact IH | now rewrite IH].
Qed.

Lemma plain_execs (evs : list Event) :
  forallb is_plain_invoke evs = true -> execs evs = [].
Proof.
  induction evs as [|ev evs IH]; [reflexivity|].
  simpl. intros [Hev Hevs]%andb_prop. destruct ev; [auto | discriminate].
Qed.

Lemma retry_calls_app (a b : list Event) :
  retry_calls (a ++ b) = retry_calls a ++ retry_calls b.
Proof. apply List.filter_app. Qed.

Lemma plain_retry_calls (evs : list Event) :
  forallb is_plain_invoke evs = true -> retry_calls evs = [].
Proof.
  induction evs as [|ev evs IH]; [reflexivity|].
  simpl. intros [Hev Hevs]%andb_prop. unfold retry_calls in *.
  cbn [List.filter]. rewrite (IH Hevs).
  destruct ev as [llm [|[] [|[] [|[] []]]] res|]; simpl in *;
    try discriminate; reflexivity.
Qed.

Lemma plain_model_calls (evs : list Event) :
  forallb is_plain_invoke evs = true -> model_calls evs = evs.
Proof.
  induction evs as [|ev evs IH]; [reflexivity|].
  simpl. intros [Hev Hevs]%andb_prop. unfold model_calls in *.
  cbn [List.filter]. rewrite (IH Hevs).
  destruct ev; [reflexivity | discriminate].
Qed.

Lemma request_events_app (w w' : World) (evs : list Event) :
  trace w' = trace w ++ evs -> request_events w w' = evs.
Proof. intros H. unfold request_events. rewrite H. apply drop_app_length. Qed.

(** *** The cascade loop *)

(** What [_try_next_model] leaves alone. *)
Lemma try_next_model_frame (w w' : World) (o : option ChatGroq) :
  _try_next_model E w = (o, w') ->
  trace w' = trace w /\ _df w' = _df w /\ objects w' = objects w
  /\ fs w' = fs w /\ uuid_calls w' = uuid_calls w
  /\ _model_index w' = S (_model_index w).
Proof.
  unfold _try_next_model. cbn [set_model_index _model_index].
  destruct (_ <=? _); intros [= <- <-]; cbn; repeat split; lia.
Qed.

(** The loop only calls the model, with the two-turn conversation, and
    touches neither tables nor files. *)
Lemma ask_model_frame (n : nat) (sys q : pystr) :
  forall (llm : ChatGroq) (w w1 : World) (g : Generated),
    ask_model E n sys q llm w = (g, w1) ->
    exists gen,
      trace w1 = trace w ++ gen /\ forallb is_plain_invoke gen = true
      /\ _df w1 = _df w /\ objects w1 = objects w /\ fs w1 = fs w
      /\ uuid_calls w1 = uuid_calls w.
Proof.
  induction n as [|n IH]; intros llm w w1 g; cbn [ask_model].
  - intros [= <- <-]. exists []. rewrite app_nil_r. auto 10.
  - unfold invoke.
    set (ev := EvInvoke llm [SystemMessage sys; HumanMessage q] _).
    destruct (llm_invoke E (trace w) llm _) as [exc|content].
    + destruct (is_Exception exc).
      * destruct (_is_quota_error E exc).
        -- destruct (_try_next_model E (log ev w)) as [[llm'|] w2] eqn:Hnext;
             apply try_next_model_frame in Hnext
               as (Ht & Hd & Ho & Hf & Hu & _); cbn in Ht, Hd, Ho, Hf, Hu.
           ++ intros (gen & Hg & Hp & -> & -> & -> & ->)%IH.
              exists (ev :: gen). rewrite Hg, Ht, <- app_assoc. auto 10.
           ++ intros [= <- <-]. exists [ev]. rewrite Ht. auto 10.
        -- intros [= <- <-]. exists [ev]. auto 10.
      * intros [= <- <-]. exists [ev]. auto 10.
    + intros [= <- <-]. exists [ev]. auto 10.
Qed.

Lemma ask_model_raise (n : nat) (sys q : pystr) :
  forall (llm : ChatGroq) (w w1 : World) (e : pyexc),
    ask_model E n sys q llm w = (GenRaise e, w1) ->
    is_Exception e = false
    /\ exists history llm' msgs, llm_invoke E history llm' msgs = inl e.
Proof.
  induction n as [|n IH]; intros llm w w1 e; cbn [ask_model];
    [discriminate|].
  unfold invoke.
  destruct (llm_invoke E (trace w) llm _) as [exc|content] eqn:Hinv;
    [|discriminate].
  destruct (is_Exception exc) eqn:Hexc.
  - destruct (_is_quota_error E exc); [|discriminate].
    destruct (_try_next_model E _) as [[llm'|] w2]; [|discriminate].
    apply IH.
  - intros [= <- <-]. eauto.
Qed.

(** *** The request up to the run of the generated code *)

(** A request either stops for want of a credential, or runs the cascade
    loop and goes on as the loop ended. *)
Lemma process_query_inv (q : pystr) (w w' : World) (out : Outcome) :
  process_query E q w = (out, w') ->
  (_llm w = None /\ truthy (GROQ_API_KEY E) = false
   /\ out = Returned (mkResult MSG_NOT_CONFIGURED None) /\ w' = w)
  \/ exists g w1 gen,
       trace w1 = trace w ++ gen /\ forallb is_plain_invoke gen = true
       /\ _df w1 = _df w /\ objects w1 = objects w /\ fs w1 = fs w
       /\ match g with
          | GenCode code llm =>
              execute E (_build_system_prompt (plot_path E w)) q
                      (plot_fname E w) (plot_path E w) code llm w1
              = (out, w')
          | GenNothing =>
              out = Returned (mkResult MSG_NO_RESPONSE None) /\ w' = w1
          | GenReturn r => out = Returned r /\ w' = w1
          | GenRaise e =>
              out = Propagated e /\ w' = w1 /\ is_Exception e = false
              /\ exists history llm msgs,
                   llm_invoke E history llm msgs = inl e
          end.
Proof.
  unfold process_query, _get_llm.
  destruct (_llm w) as [c|] eqn:Hllm.
  2: destruct (truthy (GROQ_API_KEY E)) eqn:Hkey; cbn [negb].
  3: { intros [= <- <-]. left. auto. }
  all: cbn [uuid4 fst snd];
    match goal with
    | |- context [ask_model E ?n ?s ?q ?l ?w0] =>
        destruct (ask_model E n s q l w0) as [g w1] eqn:Hask
    end;
    pose proof (ask_model_frame _ _ _ _ _ _ _ Hask)
      as (gen & Ht & Hp & Hd & Ho & Hf & _);
    cbn in Ht, Hd, Ho, Hf;
    intros H; right; exists g, w1, gen;
    repeat (split; [assumption|]);
    destruct g as [code llm| |r|e]; try (injection H as <- <-; auto).
  1, 3: exact H.
  all: destruct (ask_model_raise _ _ _ _ _ _ _ Hask) as [? ?]; auto.
Qed.

(** *** The run of the generated code, unfolded *)

Lemma exec_state_eta (s : ExecState DataFrame) :
  mkExecState (st_ns s) (st_df s) (st_objects s) (st_fs s)
              (st_llm s) (st_model_index s) = s.
Proof. now destruct s. Qed.

(** [execute], with the worlds between its steps written out: which
    events have happened and which state the last run left. *)
Lemma execute_eq (sys q fname path code : pystr) (llm : ChatGroq) (w : World) :
  execute E sys q fname path code llm w
  = let st0 := first_state path w in
    let r1 := exec_py E code st0 in
    let ev1 := EvExec code st0 r1 in
    let text1 := strip (ex_stdout r1) in
    let after1 := world_after w [ev1] (ex_state r1) in
    match ex_raised r1 with
    | None =>
        if ex_closed r1 then (Propagated CLOSED_FILE, after1)
        else assemble E fname path text1 None after1
    | Some e1 =>
        if is_Exception e1 then
          if ex_closed r1 then (Propagated CLOSED_FILE, after1)
          else if truthy (exc_str e1) && negb (truthy text1) then
            let msgs := [SystemMessage sys; HumanMessage q;
                         HumanMessage (retry_message (exc_str e1) code)] in
            let res := llm_invoke E (trace w ++ [ev1]) llm msgs in
            let evI := EvInvoke llm msgs res in
            let retry_end (e2 : pyexc) evs st :=
              if is_Exception e2 then
                if _is_quota_error E e2 then
                  (Returned (mkResult MSG_QUOTA_REACHED None),
                   world_after w evs st)
                else assemble E fname path text1 (Some (exc_str e2))
                              (world_after w evs st)
              else (Propagated e2, world_after w evs st) in
            match res with
            | inl e2 => retry_end e2 [ev1; evI] (ex_state r1)
            | inr content =>
                let code2 := _clean_code content in
                let r2 := exec_py E code2 (ex_state r1) in
                let ev2 := EvExec code2 (ex_state r1) r2 in
                let after2 := world_after w [ev1; evI; ev2] (ex_state r2) in
                match ex_raised r2 with
                | None =>
                    if ex_closed r2 then
                      if _is_quota_error E CLOSED_FILE then
                        (Returned (mkResult MSG_QUOTA_REACHED None), after2)
                      else assemble E fname path text1
                                    (Some (exc_str CLOSED_FILE)) after2
                    else assemble E fname path (strip (ex_stdout r2)) None
                                  after2
                | Some e2 => retry_end e2 [ev1; evI; ev2] (ex_state r2)
                end
            end
          else assemble E fname path text1 (Some (exc_str e1)) after1
        else (Propagated e1, after1)
    end.
Proof.
  unfold execute, df_copy, exec, first_state, world_after, getvalue.
  cbn [fst snd _df objects fs _llm _model_index uuid_calls trace log].
  destruct (ex_raised (exec_py E code _)) as [e1|];
    [|destruct (ex_closed _); reflexivity].
  destruct (is_Exception e1); [|reflexivity].
  destruct (ex_closed (exec_py E code _)); [reflexivity|].
  destruct (truthy (exc_str e1) && _); [|reflexivity].
  unfold retry, invoke, exec, retry_except, getvalue.
  cbn [fst snd _df objects fs _llm _model_index uuid_calls trace log].
  destruct (llm_invoke E _ llm _) as [e2|content].
  - destruct (is_Exception e2); [destruct (_is_quota_error E e2)|];
      unfold log; cbn [_df objects fs _llm _model_index uuid_calls trace];
      rewrite <- app_assoc; reflexivity.
  - rewrite exec_state_eta.
    destruct (ex_raised (exec_py E (_clean_code content) _)) as [e2|];
      [destruct (is_Exception e2); [destruct (_is_quota_error E e2)|]
      |destruct (ex_closed (exec_py E (_clean_code content) _));
       [change (is_Exception CLOSED_FILE) with true; cbn match;
        destruct (_is_quota_error E CLOSED_FILE)|]];
      unfold log; cbn [_df objects fs _llm _model_index uuid_calls trace];
      rewrite <- !app_assoc; reflexivity.
Qed.

(** What the final step leaves alone. *)
Lemma assemble_frame (fname path text : pystr) (err : option pystr)
    (w w' : World) (out : Outcome) :
  assemble E fname path text err w = (out, w') ->
  trace w' = trace w /\ _df w' = _df w /\ objects w' = objects w
  /\ _llm w' = _llm w /\ _model_index w' = _model_index w
  /\ uuid_calls w' = uuid_calls w.
Proof.
  unfold assemble, check_plot.
  destruct (fs w !! path) as [node|]; [destruct (0 <? getsize node)|];
    [|destruct node|]; intros [= <- <-]; auto 10.
Qed.

(** What the final step of a request does to the world and returns: the
    result with its image reference, or the error of removing what turned
    out to be an empty directory. *)
Lemma assemble_inv (fname path text : pystr) (err : option pystr)
    (w w' : World) (out : Outcome) :
  assemble E fname path text err w = (out, w') ->
  trace w' = trace w /\ _df w' = _df w /\ objects w' = objects w
  /\ ((exists img,
         out = Returned (mkResult (build_response err text img) img)
         /\ ((exists node, fs w !! path = Some node /\ 0 < getsize node
              /\ img = Some (py "/static/" ++ fname) /\ fs w' = fs w)
             \/ (fs w !! path = Some (File []) /\ img = None
                 /\ fs w' = delete path (fs w))
             \/ (fs w !! path = None /\ img = None /\ fs w' = fs w)))
      \/ (fs w !! path = Some (Dir 0)
          /\ out = Propagated (PyExc ClsException (remove_strerror E path))
          /\ fs w' = fs w)).
Proof.
  unfold assemble, check_plot.
  destruct (fs w !! path) as [node|] eqn:Hfile.
  2: { intros [= <- <-]. repeat split. left. eexists. split; [reflexivity|].
       right. right. auto. }
  destruct (0 <? getsize node) eqn:Hsize.
  - apply Nat.ltb_lt in Hsize. intros [= <- <-]. repeat split. left.
    eexists. split; [reflexivity|]. left. exists node. auto.
  - apply Nat.ltb_ge in Hsize.
    destruct node as [data|size]; cbn [getsize] in Hsize; intros [= <- <-];
      repeat split.
    + destruct data; [|cbn in Hsize; lia]. left. eexists.
      split; [reflexivity|]. right. left. auto.
    + assert (size = 0) as -> by lia. right. auto.
Qed.

Lemma events_after (w w1 w' : World) (gen evs : list Event)
    (st : ExecState DataFrame) :
  trace w1 = trace w ++ gen ->
  trace w' = trace (world_after w1 evs st) ->
  request_events w w' = gen ++ evs.
Proof.
  intros H1 H2. apply request_events_app.
  rewrite H2. cbn. now rewrite H1, <- app_assoc.
Qed.

Lemma request_events_same (w : World) : request_events w w = [].
Proof. unfold request_events. apply drop_all. Qed.

(** Reads off what one way [execute] ends says of the events: either the
    pair is written out, or it is what [assemble] returns. *)
Ltac finish_run H Ht :=
  first
    [ pose proof (assemble_frame _ _ _ _ _ _ _ H) as (Ht & _)
    | let Hw := fresh "Hw" in
      pose proof (f_equal snd H) as Hw; cbn [snd] in Hw; symmetry in Hw;
      assert (Ht := f_equal trace Hw); clear Hw ].

(** The same, also naming what the end of the run says of the canonical
    table. *)
Ltac finish_run_df H Ht Hd :=
  first
    [ pose proof (assemble_frame _ _ _ _ _ _ _ H) as (Ht & Hd & _)
    | let Hw := fresh "Hw" in
      pose proof (f_equal snd H) as Hw; cbn [snd] in Hw; symmetry in Hw;
      assert (Ht := f_equal trace Hw); assert (Hd := f_equal _df Hw);
      clear Hw ].

(** *** The cascade under quota errors *)

(** From cascade index [i], with enough iterations left, the loop calls
    the model once per remaining cascade entry and gives up. *)
Lemma ask_model_exhausted (sys q : pystr) :
  always_rate_limited E ->
  forall (n : nat) (llm : ChatGroq) (w : World),
    _model_index w < length _MODEL_CASCADE ->
    length _MODEL_CASCADE - _model_index w <= n ->
    exists w1 gen,
      ask_model E n sys q llm w
      = (GenReturn (mkResult MSG_ALL_RATE_LIMITED None), w1)
      /\ trace w1 = trace w ++ gen
      /\ forallb is_plain_invoke gen = true
      /\ length gen = length _MODEL_CASCADE - _model_index w
      /\ _model_index w1 = length _MODEL_CASCADE.
Proof.
  intros Hq. induction n as [|n IH]; intros llm w Hlt Hn; [lia|].
  cbn [ask_model]. unfold invoke.
  set (ev := EvInvoke llm [SystemMessage sys; HumanMessage q] _).
  assert (is_plain_invoke ev = true) as Hev by reflexivity.
  clearbody ev.
  destruct (Hq (trace w) llm [SystemMessage sys; HumanMessage q])
    as (e & -> & -> & ->).
  destruct (_try_next_model E (log ev w)) as [o w2] eqn:Hnext.
  pose proof (try_next_model_frame _ _ _ Hnext) as (Ht & _ & _ & _ & _ & Hi).
  cbn [log trace _model_index] in Ht, Hi.
  unfold _try_next_model in Hnext.
  cbn [set_model_index log _model_index] in Hnext.
  destruct (length _MODEL_CASCADE <=? _model_index w + 1) eqn:Hlast.
  - injection Hnext as <- <-. apply Nat.leb_le in Hlast.
    exists (set_model_index (_model_index w + 1) (log ev w)), [ev].
    cbn [set_model_index log trace _model_index length forallb].
    rewrite Hev. repeat split; auto; lia.
  - injection Hnext as <- Hw2. apply Nat.leb_gt in Hlast.
    destruct (IH (mkChatGroq (_MODEL_CASCADE !!! (_model_index w + 1)) 0
                             (GROQ_API_KEY E) 1) w2)
      as (w1 & gen & -> & Hg & Hp & Hlen & Hidx); [lia | lia |].
    exists w1, (ev :: gen). rewrite Hg, Ht, <- app_assoc.
    repeat split; auto.
    + cbn [forallb]. now rewrite Hp, Hev.
    + cbn [length]. lia.
Qed.

(** *** The first run *)

(** The cases of [execute_eq], one goal each. *)
Ltac execute_cases H :=
  rewrite execute_eq in H; cbv zeta in H;
  repeat match type of H with
         | (match ?x with _ => _ end) = _ => destruct x eqn:?
         end.

(** A request that reaches [execute] runs the generated code first, from
    [first_state]. *)
Lemma execute_first_event (sys q fname path code : pystr) (llm : ChatGroq)
    (w w' : World) (out : Outcome) :
  execute E sys q fname path code llm w = (out, w') ->
  exists evs,
    trace w' = trace w
               ++ EvExec code (first_state path w)
                         (exec_py E code (first_state path w)) :: evs.
Proof.
  intros H. execute_cases H; finish_run H Ht; rewrite Ht; cbn; eauto.
Qed.

(** The first run of a request, read off its events. *)
Lemma first_exec_of_request (q : pystr) (w w' : World) (out : Outcome)
    c s r rest :
  process_query E q w = (out, w') ->
  execs (request_events w w') = (c, s, r) :: rest ->
  exists w1,
    s = first_state (plot_path E w) w1 /\ r = exec_py E c s
    /\ _df w1 = _df w /\ objects w1 = objects w /\ fs w1 = fs w.
Proof.
  intros [(_ & _ & _ & ->)|(g & w1 & gen & Ht & Hp & Hd & Ho & Hf & Hg)]%process_query_inv.
  { now rewrite request_events_same. }
  destruct g as [code llm| |r0|e].
  2-4: destruct Hg as (_ & -> & _) || destruct Hg as (_ & ->);
    rewrite (request_events_app _ _ _ Ht), (plain_execs _ Hp); discriminate.
  apply execute_first_event in Hg as (evs & Hg).
  rewrite Ht, <- app_assoc in Hg.
  rewrite (request_events_app _ _ _ Hg), execs_app, (plain_execs _ Hp).
  cbn [app execs]. intros [= <- <- <- _]. exists w1. auto.
Qed.

Lemma namespace_lookup (copy : tref) (path : pystr) :
  namespace copy path !! py "df" = Some (VTable copy)
  /\ namespace copy path !! py "pd" = Some (VModule (py "pandas"))
  /\ namespace copy path !! py "np" = Some (VModule (py "numpy"))
  /\ namespace copy path !! py "plt" = Some (VModule (py "matplotlib.pyplot"))
  /\ namespace copy path !! py "sns" = Some (VModule (py "seaborn"))
  /\ namespace copy path !! py "PLOT_PATH" = Some (VStr path)
  /\ namespace copy path !! py "os" = Some (VModule (py "os"))
  /\ namespace copy path !! py "uuid" = Some (VModule (py "uuid")).
Proof. repeat split; vm_compute; reflexivity. Qed.

(** The namespace as built binds no name to the canonical table. *)
Lemma namespace_not_canonical (i : nat) (path : pystr) :
  ~ binds_canonical (namespace (TObject i) path).
Proof.
  intros (k & Hk). unfold namespace in Hk.
  repeat (apply lookup_insert_Some in Hk as [[_ Hk]|[_ Hk]];
          [discriminate|]).
  now rewrite lookup_empty in Hk.
Qed.

(** *** The artifact check *)

Lemma after_first_exec_app (gen evs : list Event) c s r :
  forallb is_plain_invoke gen = true ->
  after_first_exec (gen ++ EvExec c s r :: evs) = evs.
Proof.
  induction gen as [|ev gen IH]; [reflexivity|].
  cbn [forallb app after_first_exec]. intros [Hev Hgen]%andb_prop.
  destruct ev; [auto | discriminate].
Qed.

(** What the final step says of the plot file: found non-empty, it is
    referred to and kept; found empty, it is not referred to and is
    removed. *)
Lemma assemble_artifact (fname path text : pystr) (err : option pystr)
    (w w' : World) (res : QueryResult) :
  assemble E fname path text err w = (Returned res, w') ->
  (forall data, fs w !! path = Some (File data) -> data <> [] ->
     image_url res = Some (py "/static/" ++ fname)
     /\ fs w' !! path = Some (File data))
  /\ (fs w !! path = Some (File []) ->
      image_url res = None /\ fs w' !! path = None).
Proof.
  intros (_ & _ & _ & [(img & [= ->] & Hfs)|(_ & [=] & _)])%assemble_inv.
  cbn [image_url].
  destruct Hfs as [(node & Hf & Hne & -> & Hw)
                  |[(Hf & -> & Hw)|(Hf & -> & Hw)]];
    rewrite Hf, Hw; split.
  - intros d [= <-] _. auto.
  - intros [= ->]. cbn in Hne. lia.
  - intros d [= <-] Hd. congruence.
  - intros _. split; [reflexivity | apply lookup_delete_eq].
  - discriminate.
  - discriminate.
Qed.

(** *** The retry *)

Lemma truthy_true (s : pystr) : truthy s = true <-> s <> [].
Proof. destruct s; simpl; split; congruence. Qed.

Lemma retry_condition (e text : pystr) :
  truthy e && negb (truthy text) = true <-> e <> [] /\ text = [].
Proof. destruct e, text; simpl; intuition congruence. Qed.

Lemma build_response_error (m : pystr) (img : option pystr) :
  m <> [] -> build_response (Some m) [] img = msg_error m.
Proof. destruct m; [congruence|reflexivity]. Qed.


(** Names the outcome of one way [execute] ends. *)
Ltac outcome_of H :=
  first
    [ apply assemble_inv in H
        as (_ & _ & _ & [(? & -> & ?)|(? & -> & ?)])
    | injection H as <- _ ].

(** X26: the retry, as the code has it: in a request that runs generated code,
    a first run that raised an [Exception] with a non-empty message, left
    the buffer open and captured no text is followed by exactly one retry
    round trip: one call of the model with the error and the offending
    code as a third turn and, when the model answers, one run of the
    sanitized answer; a first run that raised nothing, or closed the
    buffer, or captured text, is followed by no retry; there is never a
    second retry; and when the retry's run ends in an error with a
    non-empty message and the request returns, the response text is the
    error message built from the retry's error if that is not
    quota-classified, and the quota message if it is. *)
Theorem single_retry (q : pystr) (w w' : World) (out : Outcome)
    c1 s1 r1 rest :
  process_query E q w = (out, w') ->
  execs (request_events w w') = (c1, s1, r1) :: rest ->
  (length (retry_calls (request_events w w')) <= 1 /\ length rest <= 1)
  /\ (forall e1,
        ex_raised r1 = Some e1 -> is_Exception e1 = true ->
        exc_str e1 <> [] -> ex_closed r1 = false ->
        strip (ex_stdout r1) = [] ->
        exists llm res,
          retry_calls (request_events w w')
          = [EvInvoke llm
               [SystemMessage (_build_system_prompt (plot_path E w));
                HumanMessage q;
                HumanMessage (retry_message (exc_str e1) c1)] res]
          /\ forall content, res = inr content ->
               exists s2 r2, rest = [(_clean_code content, s2, r2)])
  /\ (ex_raised r1 = None \/ ex_closed r1 = true
      \/ strip (ex_stdout r1) <> [] ->
      retry_calls (request_events w w') = [] /\ rest = [])
  /\ (forall c2 s2 r2 e2 res,
        rest = [(c2, s2, r2)] ->
        event_error (EvExec c2 s2 r2) = Some e2 -> exc_str e2 <> [] ->
        out = Returned res ->
        (_is_quota_error E e2 = false ->
         response res = msg_error (exc_str e2))
        /\ (_is_quota_error E e2 = true ->
            res = mkResult MSG_QUOTA_REACHED None)).
Proof.
  intros H Hex.
  apply process_query_inv in H
    as [(_ & _ & _ & ->)|(g & w1 & gen & Ht & Hp & _ & _ & _ & Hg)].
  { now rewrite request_events_same in Hex. }
  destruct g as [code llm| |r0|e].
  2-4: destruct Hg as (_ & -> & _) || destruct Hg as (_ & ->);
    rewrite (request_events_app _ _ _ Ht), (plain_execs _ Hp) in Hex;
    discriminate.
  execute_cases Hg; finish_run Hg Htr;
    rewrite (events_after _ _ _ _ _ _ Ht Htr) in Hex |- *;
    rewrite execs_app, (plain_execs _ Hp) in Hex;
    rewrite retry_calls_app, (plain_retry_calls _ Hp);
    cbn [app execs] in Hex;
    cbn [app retry_calls List.filter is_retry_invoke];
    injection Hex as <- <- <- <-;
    try match goal with
        | Hc : truthy _ && negb (truthy _) = true |- _ =>
            apply retry_condition in Hc as [? Htext1]
        end.
  all: split; [cbn [length]; split; lia|split; [|split]].
  (* a first run that failed without output is retried once *)
  all: try (intros e1 He1 Hexc1 Hne1 Hopen1 Hno1;
            first
              [ congruence
              | exfalso;
                match goal with
                | Hr : ex_raised _ = Some ?x |- _ =>
                    assert (e1 = x) as -> by congruence
                end;
                apply truthy_true in Hne1;
                match goal with
                | Hc : truthy _ && negb (truthy _) = false |- _ =>
                    rewrite Hne1, Hno1 in Hc; discriminate Hc
                end
              | match goal with
                | Hr : ex_raised _ = Some ?x |- _ =>
                    assert (e1 = x) as -> by congruence
                end;
                eexists _, _; split; [reflexivity|];
                intros content [= <-] || (intros content [=]); eauto ]).
  (* a first run that succeeded, closed the buffer or printed is not *)
  all: try (intros [Hnone | [Hclosed | Hsome]];
            first [congruence | split; reflexivity]).
  (* a failed retry is reported with its own error, or as a lack of quota *)
  all: intros c2 s2 r2 e2 res [= <- <- <-] He2 Hne2 Hout.
  all: cbn [event_error] in He2;
    repeat match goal with
           | Hr : ex_raised ?r = _, Hx : context [ex_raised ?r] |- _ =>
               rewrite Hr in Hx
           | Hr : ex_closed ?r = _, Hx : context [ex_closed ?r] |- _ =>
               rewrite Hr in Hx
           end;
    try discriminate He2; injection He2 as <-.
  all: outcome_of Hg; try discriminate Hout; injection Hout as <-.
  all: split; intros Hq2; try congruence; try reflexivity.
  all: cbn [response]; rewrite Htext1, build_response_error by exact Hne2;
    reflexivity.
Qed.

(** C4: in a process that has made no request yet and has a credential,
    if every call of the model fails with a quota-classified error, a
    request makes exactly one call per cascade entry, nothing else, and
    returns the all-models-rate-limited text with no image. *)
Theorem cascade_exhaustion (q : pystr) (w : World) :
  _llm w = None -> _model_index w = 0 ->
  truthy (GROQ_API_KEY E) = true ->
  always_rate_limited E ->
  exists w',
    process_query E q w = (Returned (mkResult MSG_ALL_RATE_LIMITED None), w')
    /\ length (model_calls (request_events w w')) = length _MODEL_CASCADE
    /\ model_calls (request_events w w') = request_events w w'
    /\ execs (request_events w w') = [].
Proof.
  intros Hllm Hidx Hkey Hq. unfold process_query, _get_llm.
  rewrite Hllm, Hkey. cbn [negb uuid4 fst snd].
  match goal with
  | |- context [ask_model E ?n ?s _ ?l ?w0] =>
      destruct (ask_model_exhausted s q Hq n l w0)
        as (w1 & gen & -> & Ht & Hp & Hlen & _)
  end.
  - cbn. rewrite Hidx. cbn. lia.
  - cbn. lia.
  - exists w1. cbn in Ht, Hlen. rewrite Hidx, Nat.sub_0_r in Hlen.
    rewrite (request_events_app _ _ _ Ht), (plain_model_calls _ Hp).
    rewrite (plain_execs _ Hp). auto.
Qed.


(** C6, as the code has it: in a request that runs generated code and
    whose retry does not stop on a quota-classified error, a non-empty
    file left at the reserved path by the last run makes the image
    reference non-null (and it is the static URL of the reserved name),
    and an empty file left there makes it null and is deleted. *)
Theorem artifact_detection (q : pystr) (w w' : World) (out : Outcome)
    c s r (res : QueryResult) :
  process_query E q w = (out, w') ->
  last (execs (request_events w w')) = Some (c, s, r) ->
  existsb (quota_failure E) (after_first_exec (request_events w w')) = false ->
  out = Returned res ->
  (forall data,
     st_fs (ex_state r) !! plot_path E w = Some (File data) -> data <> [] ->
     image_url res = Some (py "/static/" ++ plot_fname E w)
     /\ fs w' !! plot_path E w = Some (File data))
  /\ (st_fs (ex_state r) !! plot_path E w = Some (File []) ->
      image_url res = None /\ fs w' !! plot_path E w = None).
Proof.
  intros H Hlast Hquota ->.
  apply process_query_inv in H
    as [(_ & _ & _ & ->)|(g & w1 & gen & Ht & Hp & _ & _ & _ & Hg)].
  { now rewrite request_events_same in Hlast. }
  destruct g as [code llm| |r0|e].
  2-4: destruct Hg as (_ & -> & _) || destruct Hg as (_ & ->);
    rewrite (request_events_app _ _ _ Ht), (plain_execs _ Hp) in Hlast;
    discriminate.
  execute_cases Hg.
  all: first
    [ discriminate Hg
    | pose proof (assemble_artifact _ _ _ _ _ _ _ Hg) as Hart;
      apply assemble_inv in Hg as (Htr & _);
      rewrite (events_after _ _ _ _ _ _ Ht Htr), execs_app,
        (plain_execs _ Hp) in Hlast;
      cbn in Hlast; injection Hlast as <- <- <-; exact Hart
    | exfalso; injection Hg as _ Hw; apply (f_equal trace) in Hw;
      symmetry in Hw;
      rewrite (events_after _ _ _ _ _ _ Ht Hw) in Hquota;
      rewrite after_first_exec_app in Hquota by exact Hp;
      unfold quota_failure in Hquota; cbn [existsb event_error] in Hquota;
      repeat match goal with
             | Hx : is_Exception _ = true |- _ => rewrite Hx in Hquota
             | Hx : _is_quota_error E _ = true |- _ => rewrite Hx in Hquota
             | Hx : ex_raised _ = _ |- _ => rewrite Hx in Hquota
             | Hx : ex_closed _ = _ |- _ => rewrite Hx in Hquota
             end;
      change (is_Exception CLOSED_FILE) with true in Hquota;
      discriminate Hquota ].
Qed.

(** C7: with no credential configured and no client built yet, a request
    returns the configuration error as its text and no image at once: the
    world is left as it was, so no model was called and no code run. *)
Theorem no_credential (q : pystr) (w : World) :
  _llm w = None -> truthy (GROQ_API_KEY E) = false ->
  process_query E q w = (Returned (mkResult MSG_NOT_CONFIGURED None), w)
  /\ request_events w w = [].
Proof.
  intros Hllm Hkey. unfold process_query, _get_llm.
  rewrite Hllm, Hkey. split; [reflexivity | apply request_events_same].
Qed.

(** C8, as the code has it: generated code runs against a copy of the
    dataset made for the request, a new table object with the contents of
    the canonical one, and is handed no name for the canonical table; and
    when the runs of the request keep away from the canonical table
    (handed no name for it, they neither change it nor get hold of it),
    the canonical table after the request is the one before it, whether
    the runs succeed or fail and with or without a retry. *)
Theorem canonical_table_untouched (q : pystr) (w w' : World) (out : Outcome) :
  process_query E q w = (out, w') ->
  Forall run_confined (execs (request_events w w')) ->
  _df w' = _df w
  /\ forall c s r rest,
       execs (request_events w w') = (c, s, r) :: rest ->
       st_ns s !! py "df" = Some (VTable (TObject (length (objects w))))
       /\ st_objects s = objects w ++ [_df w]
       /\ ~ binds_canonical (st_ns s).
Proof.
  intros H Hconf. split.
  - apply process_query_inv in H
      as [(_ & _ & _ & ->)|(g & w1 & gen & Ht & Hp & Hd & _ & _ & Hg)];
      [reflexivity|].
    destruct g as [code llm| |r0|e].
    2-4: destruct Hg as (_ & -> & _) || destruct Hg as (_ & ->); exact Hd.
    rewrite <- Hd.
    execute_cases Hg; finish_run_df Hg Htr Hdf; rewrite Hdf;
      rewrite (events_after _ _ _ _ _ _ Ht Htr), execs_app,
        (plain_execs _ Hp) in Hconf;
      cbn [app execs] in Hconf;
      repeat match goal with
             | Hc : Forall _ (_ :: _) |- _ =>
                 apply Forall_cons in Hc as [? Hc]
             end;
      unfold run_confined in *; cbn [fst snd world_after _df] in *.
    all: match goal with
         | H1 : ~ binds_canonical (st_ns (first_state _ _)) -> _ |- _ =>
             destruct (H1 (namespace_not_canonical _ _)) as [Hdf1 Hns1]
         end.
    all: try exact Hdf1.
    all: match goal with
         | H2 : ~ binds_canonical (st_ns (ex_state _)) -> _ |- _ =>
             destruct (H2 Hns1) as [-> _]; exact Hdf1
         end.
  - intros c s r rest Hex.
    destruct (first_exec_of_request _ _ _ _ _ _ _ _ H Hex)
      as (w1 & -> & _ & Hd & Ho & _).
    cbn [first_state st_ns st_objects]. rewrite Ho, Hd.
    split; [apply namespace_lookup|].
    split; [reflexivity | apply namespace_not_canonical].
Qed.

(** C9: when a request runs generated code twice, the retry starts from
    exactly the state the first run left behind: the same namespace with
    every binding the first run made, the same tables (the request's copy
    of the dataset as the first run changed it, nothing copied anew) and
    the same files; and there is no third run. *)
Theorem retry_runs_in_first_namespace (q : pystr) (w w' : World)
    (out : Outcome) c1 s1 r1 c2 s2 r2 rest :
  process_query E q w = (out, w') ->
  execs (request_events w w') = (c1, s1, r1) :: (c2, s2, r2) :: rest ->
  s2 = ex_state r1 /\ st_ns s2 = st_ns (ex_state r1) /\ rest = [].
Proof.
  intros [(_ & _ & _ & ->)|(g & w1 & gen & Ht & Hp & _ & _ & _ & Hg)]%process_query_inv.
  { now rewrite request_events_same. }
  destruct g as [code llm| |r|e].
  2-4: destruct Hg as (_ & -> & _) || destruct Hg as (_ & ->);
    rewrite (request_events_app _ _ _ Ht), (plain_execs _ Hp); discriminate.
  rewrite execute_eq in Hg. cbv zeta in Hg.
  repeat match type of Hg with
         | (match ?x with _ => _ end) = _ => destruct x
         end;
    finish_run Hg Htr;
    rewrite (events_after _ _ _ _ _ _ Ht Htr), execs_app, (plain_execs _ Hp);
    cbn [app execs]; intros [= <- <- <- <- <- <- <-] || discriminate; auto.
Qed.

(** C10: in every request that runs generated code, the namespace the
    code first runs in binds, besides df, pd, np, plt, sns and PLOT_PATH,
    the modules os and uuid; the prompt of the request lists the six
    names only. *)
Theorem namespace_has_os_and_uuid (q : pystr) (w w' : World) (out : Outcome)
    c s r rest :
  process_query E q w = (out, w') ->
  execs (request_events w w') = (c, s, r) :: rest ->
  (st_ns s !! py "os" = Some (VModule (py "os"))
   /\ st_ns s !! py "uuid" = Some (VModule (py "uuid")))
  /\ (st_ns s !! py "df" = Some (VTable (TObject (length (objects w))))
      /\ st_ns s !! py "pd" = Some (VModule (py "pandas"))
      /\ st_ns s !! py "np" = Some (VModule (py "numpy"))
      /\ st_ns s !! py "plt" = Some (VModule (py "matplotlib.pyplot"))
      /\ st_ns s !! py "sns" = Some (VModule (py "seaborn"))
      /\ st_ns s !! py "PLOT_PATH" = Some (VStr (plot_path E w)))
  /\ (no_newline (plot_path E w) = true ->
      documented_names (_build_system_prompt (plot_path E w))
      = [py "df"; py "pd"; py "np"; py "plt"; py "sns"; py "PLOT_PATH"]).
Proof.
  intros H Hex.
  destruct (first_exec_of_request _ _ _ _ _ _ _ _ H Hex)
    as (w1 & -> & _ & _ & Ho & _).
  cbn [first_state st_ns]. rewrite Ho.
  pose proof (namespace_lookup (TObject (length (objects w))) (plot_path E w))
    as (? & ? & ? & ? & ? & ? & ? & ?).
  repeat split; try assumption. apply prompt_documents_six.
Qed.

End ServiceProperties.

(* ===================================================================== *)
(** ** The claims on concrete requests *)
(* ===================================================================== *)

Import Stub.

(** ** Two ordinary requests *)

(** A statistic: the printed sentence is the text, and there is no
    image. *)
Example scenario_statistic :
  fst run_print = Returned (mkResult (py "38% survived") None).
Proof. vm_compute. reflexivity. Qed.

(** A chart saved without a word: the fixed text and the URL of the
    file. *)
Example scenario_chart :
  fst run_plot = Returned (mkResult MSG_VISUALISATION (Some PLOT_URL)).
Proof. vm_compute. reflexivity. Qed.

(** ** C1 *)

(** C1, at a request where the code departs from it: the first script
    saves a non-empty chart and fails without printing, the rewritten
    script fails without printing; no text is captured and the chart is
    at the reserved path, yet the text returned is the error message of
    the retry, not the visualisation message (the standalone app's
    [process_query] tests [not img_bytes] too and would answer with the
    visualisation message). *)
Theorem error_text_hides_visualisation :
  fst run_plot_then_fail
  = Returned (mkResult (msg_error (exc_str bam)) (Some PLOT_URL))
  /\ plot_path env_plot_then_fail fresh = PLOT
  /\ fs (snd run_plot_then_fail) !! PLOT = Some (File PNG)
  /\ List.map (fun x => strip (ex_stdout (snd x)))
              (execs (request_events fresh (snd run_plot_then_fail)))
     = [[]; []]
  /\ msg_error (exc_str bam) <> MSG_VISUALISATION.
Proof.
  repeat split; try (vm_compute; reflexivity). vm_compute. discriminate.
Qed.

(** ** C2 *)

(** C2, as the code has it: cleaning is idempotent on every text whose
    cleaned form contains no fence marker, and a backtick-free body
    between an opening fence line (tagged [python] or not) and a closing
    fence line comes out as the trimmed body. *)
Theorem clean_code_fence_free (x body : pystr) (tagged : bool) :
  (has_fence (_clean_code x) = false ->
   _clean_code (_clean_code x) = _clean_code x)
  /\ (no_backtick body = true ->
      _clean_code (fenced tagged body) = strip body).
Proof.
  split.
  - intros Hx. rewrite (clean_no_fence _ Hx). unfold _clean_code.
    apply strip_idem.
  - apply clean_fenced.
Qed.

(** A fenced script is cleaned to its body, and cleaning it again changes
    nothing. *)
Lemma clean_code_fence_free_witness :
  has_fence (_clean_code (fenced true (py "print(1)"))) = false
  /\ no_backtick (py "  print(1) ") = true
  /\ _clean_code (_clean_code (fenced true (py "print(1)")))
     = _clean_code (fenced true (py "print(1)"))
  /\ _clean_code (fenced false (py "  print(1) ")) = py "print(1)".
Proof.
  split; [reflexivity|]. split; [reflexivity|].
  split.
  - apply (clean_code_fence_free (fenced true (py "print(1)")) [] true).
    reflexivity.
  - apply (clean_code_fence_free [] (py "  print(1) ") false). reflexivity.
Defined.

(** C2 fails as stated: a fence marker that follows the tag of the first
    one on the same line survives one cleaning and not two. *)
Lemma clean_code_not_idempotent :
  _clean_code (py "```python```print(1)") = py "```print(1)"
  /\ _clean_code (_clean_code (py "```python```print(1)"))
     <> _clean_code (py "```python```print(1)").
Proof. split; [reflexivity|]. vm_compute. discriminate. Qed.

(** Fence markers are matched on every line: interior ones go too. *)
Example clean_code_interior_fences :
  _clean_code (py "```python" ++ [NL] ++ py "a = 1" ++ [NL] ++ py "```"
               ++ [NL] ++ py "and then" ++ [NL] ++ py "```python" ++ [NL]
               ++ py "b = 2" ++ [NL] ++ py "```")
  = py "a = 1" ++ [NL] ++ py "and then" ++ [NL] ++ py "b = 2".
Proof. reflexivity. Qed.

(** ** C3 *)

(** Both scripts fail without output: one retry, and the text carries the
    error of the second. *)
Lemma single_retry_witness :
  process_query env_plot_then_fail QUESTION fresh
  = (fst run_plot_then_fail, snd run_plot_then_fail)
  /\ length (retry_calls (request_events fresh (snd run_plot_then_fail))) <= 1
  /\ exists res,
       fst run_plot_then_fail = Returned res
       /\ response res = msg_error (exc_str bam).
Proof.
  split; [apply surjective_pairing|].
  pose (r1 := exec_py env_plot_then_fail (py "plot(ages)") start).
  pose (r2 := exec_py env_plot_then_fail (py "plot(df.ages)") (ex_state r1)).
  destruct (single_retry env_plot_then_fail QUESTION fresh
              (snd run_plot_then_fail) (fst run_plot_then_fail)
              (py "plot(ages)") start r1
              [(py "plot(df.ages)", ex_state r1, r2)])
    as ((Hlen & _) & _ & _ & Hfail).
  - apply surjective_pairing.
  - vm_compute. reflexivity.
  - split; [exact Hlen|].
    exists (mkResult (msg_error (exc_str bam)) (Some PLOT_URL)).
    split; [vm_compute; reflexivity|].
    apply (Hfail (py "plot(df.ages)") (ex_state r1) r2 bam);
      [reflexivity | vm_compute; reflexivity | discriminate
      | vm_compute; reflexivity | vm_compute; reflexivity].
Defined.

(** C3, at a request where the code departs from it: the first script
    fails without output, the rewritten script is run and fails with
    [KeyError: '429']; the response is the quota message, which does not
    carry the error of the failed retry.  The handler of the retry asks
    [_is_quota_error] about whatever its block raised, the run of the
    rewritten script included; the handler of the first run does not, and
    the same [KeyError] raised by a first script is an execution error
    that is retried. *)
Theorem retry_error_not_reported :
  List.map (fun x => (ex_raised (snd x), strip (ex_stdout (snd x))))
           (execs (request_events fresh (snd run_retry_key_error)))
  = [(Some boom, []); (Some key_error_429, [])]
  /\ fst run_retry_key_error = Returned (mkResult MSG_QUOTA_REACHED None)
  /\ contains (exc_str key_error_429) MSG_QUOTA_REACHED = false
  /\ List.map (fun x => ex_raised (snd x))
              (execs (request_events fresh (snd run_first_key_error)))
     = [Some key_error_429; None]
  /\ length (retry_calls (request_events fresh (snd run_first_key_error))) = 1
  /\ fst run_first_key_error = Returned (mkResult (py "3") None).
Proof. repeat split; vm_compute; reflexivity. Qed.

(** ** C4 *)

(** A model that always answers 429: four calls, then the rate-limit
    text. *)
Lemma cascade_exhaustion_witness :
  always_rate_limited env_rate_limited
  /\ fst run_rate_limited = Returned (mkResult MSG_ALL_RATE_LIMITED None)
  /\ length (model_calls (request_events fresh (snd run_rate_limited))) = 4.
Proof.
  assert (always_rate_limited env_rate_limited) as Hq.
  { intros history llm msgs. exists too_many.
    repeat split; vm_compute; reflexivity. }
  split; [exact Hq|].
  destruct (cascade_exhaustion env_rate_limited QUESTION fresh
              eq_refl eq_refl eq_refl Hq) as (w' & -> & Hlen & _).
  split; [reflexivity | exact Hlen].
Defined.

(** ** C5 *)


(** C5, at a request where the code departs from it: the script closes
    the buffer its output is captured in and ends without raising; the
    read of the buffer after the run, which no handler covers, raises
    [ValueError], an [Exception], and the request ends with it instead of
    a response.  The read of the buffer after the retry is inside the
    handler of the retry: the same script as a rewritten one gets a
    response, the error text with the message of that [ValueError]. *)
Theorem closed_stdout_propagates :
  List.map (fun x => (ex_raised (snd x), ex_closed (snd x)))
           (execs (request_events fresh (snd run_close)))
  = [(None, true)]
  /\ fst run_close = Propagated CLOSED_FILE
  /\ is_Exception CLOSED_FILE = true
  /\ List.map (fun x => (ex_raised (snd x), ex_closed (snd x)))
              (execs (request_events fresh (snd run_retry_close)))
     = [(Some boom, false); (None, true)]
  /\ fst run_retry_close
     = Returned (mkResult (msg_error (exc_str CLOSED_FILE)) None).
Proof. repeat split; vm_compute; reflexivity. Qed.

(** A script that raises [SystemExit] is not caught by [except Exception]
    either, and the request ends with that exception. *)
Example system_exit_propagates :
  List.map (fun x => ex_raised (snd x))
           (execs (request_events fresh (snd run_exit)))
  = [Some system_exit]
  /\ fst run_exit = Propagated system_exit.
Proof. split; vm_compute; reflexivity. Qed.

(** ** C6 *)

(** A script that saves a chart: the image is referred to and the file
    kept. *)
Lemma artifact_detection_witness :
  last (execs (request_events fresh (snd run_plot)))
  = Some (py "plt.savefig(PLOT_PATH)", start,
          exec_py env_plot (py "plt.savefig(PLOT_PATH)") start)
  /\ fst run_plot = Returned (mkResult MSG_VISUALISATION (Some PLOT_URL))
  /\ fs (snd run_plot) !! plot_path env_plot fresh = Some (File PNG).
Proof.
  assert (last (execs (request_events fresh (snd run_plot)))
          = Some (py "plt.savefig(PLOT_PATH)", start,
                  exec_py env_plot (py "plt.savefig(PLOT_PATH)") start))
    as Hlast by (vm_compute; reflexivity).
  assert (fst run_plot = Returned (mkResult MSG_VISUALISATION (Some PLOT_URL)))
    as Hout by (vm_compute; reflexivity).
  split; [exact Hlast|]. split; [exact Hout|].
  destruct (artifact_detection env_plot QUESTION fresh (snd run_plot)
              (fst run_plot) _ _ _ _ (surjective_pairing _) Hlast
              ltac:(vm_compute; reflexivity) Hout) as [Hsaved _].
  apply (Hsaved PNG); [vm_compute; reflexivity | discriminate].
Defined.

(** C6 fails as stated: the first script saves a non-empty chart and
    fails, the model is rate-limited at the retry, and the request
    returns with no image although the file is there. *)
Lemma artifact_ignored_on_quota :
  fs (snd run_plot_then_quota) !! plot_path env_plot_then_quota fresh
  = Some (File PNG)
  /\ PNG <> []
  /\ fst run_plot_then_quota = Returned (mkResult MSG_QUOTA_REACHED None).
Proof.
  repeat split; try (vm_compute; reflexivity). discriminate.
Qed.

(** ** C7 *)

(** A fresh process without a key. *)
Lemma no_credential_witness :
  _llm fresh = None /\ truthy (GROQ_API_KEY env_no_key) = false
  /\ process_query env_no_key QUESTION fresh
     = (Returned (mkResult MSG_NOT_CONFIGURED None), fresh).
Proof.
  split; [reflexivity|]. split; [reflexivity|].
  exact (proj1 (no_credential env_no_key QUESTION fresh eq_refl eq_refl)).
Defined.

(** ** C8 *)

(** Scripts that drop the rows of their own [df] keep away from the
    canonical table. *)
Lemma exec_own_df_confined (code : pystr) (st : ExecState Table) :
  run_confined (code, st, exec_own_df code st).
Proof.
  intros Hns. cbn [fst snd]. unfold exec_own_df.
  destruct (st_ns st !! py "df") as [[[|i]| | |]|]; cbn; auto.
Qed.

(** After such a script the canonical table is whole and the copy of the
    request is empty. *)
Lemma canonical_table_untouched_witness :
  Forall run_confined (execs (request_events fresh (snd run_own_df)))
  /\ _df (snd run_own_df) = titanic
  /\ objects (snd run_own_df) = [[]].
Proof.
  assert (Forall run_confined (execs (request_events fresh (snd run_own_df))))
    as Hconf.
  { replace (execs (request_events fresh (snd run_own_df)))
      with [(py "df.drop(df.index, inplace=True)", start,
             exec_own_df (py "df.drop(df.index, inplace=True)") start)]
      by (vm_compute; reflexivity).
    apply Forall_cons. split; [apply exec_own_df_confined | constructor]. }
  split; [exact Hconf|]. split; [|vm_compute; reflexivity].
  exact (proj1 (canonical_table_untouched env_own_df QUESTION fresh
                  (snd run_own_df) (fst run_own_df)
                  (surjective_pairing _) Hconf)).
Defined.

(** C8 fails as stated: generated code runs inside the process with
    nothing closed to it; a script that imports the service module and
    drops the rows of [_df] in place leaves the canonical table empty. *)
Lemma canonical_table_mutated :
  _df fresh = titanic /\ _df (snd run_import) = [] /\ titanic <> [].
Proof. repeat split; try (vm_compute; reflexivity). discriminate. Qed.

(** ** C9 *)

(** The rewritten script starts with [x] bound and [df] emptied, as the
    failed script left them. *)
Lemma retry_runs_in_first_namespace_witness :
  execs (request_events fresh (snd run_retry_state))
  = [(py "x = 1; df.drop(df.index, inplace=True); f()", start,
      exec_py env_retry_state
              (py "x = 1; df.drop(df.index, inplace=True); f()") start);
     (py "print(len(df))", start_changed,
      exec_py env_retry_state (py "print(len(df))") start_changed)]
  /\ start_changed
     = ex_state (exec_py env_retry_state
                   (py "x = 1; df.drop(df.index, inplace=True); f()") start).
Proof.
  assert (execs (request_events fresh (snd run_retry_state))
          = [(py "x = 1; df.drop(df.index, inplace=True); f()", start,
              exec_py env_retry_state
                (py "x = 1; df.drop(df.index, inplace=True); f()") start);
             (py "print(len(df))", start_changed,
              exec_py env_retry_state (py "print(len(df))") start_changed)])
    as Hex by (vm_compute; reflexivity).
  split; [exact Hex|].
  exact (proj1 (retry_runs_in_first_namespace env_retry_state QUESTION fresh
                  (snd run_retry_state) (fst run_retry_state)
                  _ _ _ _ _ _ _ (surjective_pairing _) Hex)).
Defined.

(** ** C10 *)

(** The namespace of a plain request, and the prompt it sent. *)
Lemma namespace_has_os_and_uuid_witness :
  execs (request_events fresh (snd run_print))
  = [(py "print('38% survived')", start,
      exec_py env_print (py "print('38% survived')") start)]
  /\ no_newline (plot_path env_print fresh) = true
  /\ st_ns start !! py "os" = Some (VModule (py "os"))
  /\ st_ns start !! py "uuid" = Some (VModule (py "uuid"))
  /\ documented_names (_build_system_prompt (plot_path env_print fresh))
     = [py "df"; py "pd"; py "np"; py "plt"; py "sns"; py "PLOT_PATH"].
Proof.
  assert (execs (request_events fresh (snd run_print))
          = [(py "print('38% survived')", start,
              exec_py env_print (py "print('38% survived')") start)]) as Hex
    by (vm_compute; reflexivity).
  split; [exact Hex|]. split; [vm_compute; reflexivity|].
  destruct (namespace_has_os_and_uuid env_print QUESTION fresh
              (snd run_print) (fst run_print) _ _ _ _
              (surjective_pairing _) Hex) as ((Hos & Huuid) & _ & Hdoc).
  split; [exact Hos|]. split; [exact Huuid|].
  apply Hdoc. vm_compute. reflexivity.
Defined.

(* ===================================================================== *)
(** ** Further properties of the sanitizer and the prompt *)
(* ===================================================================== *)

(** *** What cleaning never does *)

Lemma lstrip_sublist (s : pystr) : sublist (lstrip s) s.
Proof.
  destruct (lstrip_split s) as (w & Hs & _). rewrite Hs at 2.
  apply sublist_inserts_l. reflexivity.
Qed.

Lemma rstrip_sublist (s : pystr) : sublist (rstrip s) s.
Proof.
  destruct (rstrip_split s) as (w & Hs & _). rewrite Hs at 2.
  apply sublist_inserts_r. reflexivity.
Qed.

Lemma re_sub_sublist (m : bool -> pystr -> option nat) (s : pystr) :
  forall skip b, sublist (re_sub m skip b s) s.
Proof.
  induction s as [|c s IH]; intros skip b; [constructor|].
  cbn [re_sub]. destruct skip as [|k].
  - destruct (m b (c :: s)) as [[|k]|].
    + apply sublist_skip, IH.
    + apply sublist_cons, IH.
    + apply sublist_skip, IH.
  - apply sublist_cons, IH.
Qed.

(** X1: cleaning only deletes code points: the result is a subsequence of the
    reply, never longer than it. *)
Theorem clean_code_only_deletes (raw : pystr) :
  sublist (_clean_code raw) raw
  /\ length (_clean_code raw) <= length raw.
Proof.
  assert (sublist (_clean_code raw) raw) as H.
  { unfold _clean_code, strip.
    etransitivity; [apply rstrip_sublist|].
    etransitivity; [apply lstrip_sublist|].
    etransitivity; apply re_sub_sublist. }
  split; [exact H | exact (sublist_length _ _ H)].
Qed.

(** X2: the cleaned code neither starts nor ends with whitespace:
    trimming it again, on either side, changes nothing, and its first and
    last code points, if it has any, are not whitespace. *)
Theorem clean_code_trimmed (raw : pystr) :
  lstrip (_clean_code raw) = _clean_code raw
  /\ rstrip (_clean_code raw) = _clean_code raw
  /\ match _clean_code raw with
     | c :: _ => is_space c = false
     | [] => True
     end
  /\ match last (_clean_code raw) with
     | Some c => is_space c = false
     | None => True
     end.
Proof.
  unfold _clean_code, strip.
  set (z := re_sub match_close 0 true (re_sub match_open 0 true raw)).
  split; [apply lstrip_rstrip|]. split; [apply rstrip_idem|]. split.
  - rewrite <- (lstrip_rstrip z).
    destruct (lstrip_cases (rstrip (lstrip z))) as [->|(c & t & -> & Hc)];
      [exact I | exact Hc].
  - unfold rstrip.
    destruct (lstrip_cases (rev (lstrip z))) as [->|(c & t & -> & Hc)];
      [exact I|].
    cbn [rev]. rewrite last_snoc. exact Hc.
Qed.

(** X3: text without a fence marker is only trimmed, and blank text is
    cleaned to the empty string. *)
Theorem clean_code_plain_text (raw : pystr) :
  (has_fence raw = false -> _clean_code raw = strip raw)
  /\ (all_space raw = true -> _clean_code raw = []).
Proof.
  split; [apply clean_no_fence|].
  intros Hsp.
  assert (has_fence raw = false) as Hf.
  { apply no_backtick_no_fence. unfold no_backtick, all_space in *.
    apply forallb_forall. intros c Hc.
    pose proof (proj1 (forallb_forall _ _) Hsp c Hc) as Hs.
    destruct (N.eqb_spec c BACKTICK) as [->|]; [discriminate | reflexivity]. }
  rewrite (clean_no_fence _ Hf). unfold strip.
  now rewrite (all_space_lstrip _ Hsp).
Qed.

Lemma clean_code_plain_text_witness :
  _clean_code (py "  print(1)  ") = py "print(1)"
  /\ _clean_code (py "   ") = [].
Proof.
  destruct (clean_code_plain_text (py "  print(1)  ")) as [H _].
  destruct (clean_code_plain_text (py "   ")) as [_ H'].
  split; [rewrite H | rewrite H']; reflexivity.
Defined.

Lemma strip_prefix_snoc_none (p a : pystr) (c : N) (x : pystr) :
  forallb (fun d => negb (N.eqb d c)) p = true ->
  strip_prefix p (a ++ [c]) = None -> strip_prefix p (a ++ c :: x) = None.
Proof.
  revert a. induction p as [|d p IH]; intros a Hp; [discriminate|].
  cbn [forallb] in Hp. apply andb_prop in Hp as [Hd Hp].
  apply negb_true_iff in Hd.
  destruct a as [|b a]; cbn [app strip_prefix].
  - now rewrite Hd.
  - destruct (N.eqb d b); [now apply IH | reflexivity].
Qed.

(** X4: the opening pattern knows one info string, python.  Whatever else
    follows the opening fence on its line stays in the code: the cleaned
    text is the trimmed text between the fences, info string included. *)
Theorem clean_code_info_string_stays (tagged : bool) (c : N) (rest : pystr) :
  no_backtick (c :: rest) = true ->
  is_space c = false ->
  (tagged = false -> strip_prefix (py "python") (c :: rest ++ [NL]) = None) ->
  _clean_code (FENCE ++ (if tagged then py "python" else [])
               ++ (c :: rest) ++ NL :: FENCE)
  = strip (c :: rest).
Proof.
  intros Hnb Hc Htag. unfold _clean_code.
  set (tag := if tagged then py "python" else []).
  set (X := (c :: rest) ++ NL :: FENCE).
  assert (match_open true ((FENCE ++ tag) ++ X) = Some (length (FENCE ++ tag)))
    as Hm.
  { unfold match_open.
    assert (ws_run ((FENCE ++ tag) ++ X) = 0%nat) as -> by reflexivity.
    rewrite drop_0, <- app_assoc, strip_prefix_app.
    assert (ws_run X = 0%nat) as HX by (unfold X; simpl; now rewrite Hc).
    subst tag. destruct tagged.
    - rewrite strip_prefix_app, HX. reflexivity.
    - cbn [app]. unfold X.
      rewrite (strip_prefix_snoc_none (py "python") (c :: rest) NL FENCE eq_refl
               (Htag eq_refl)).
      fold X. rewrite HX. reflexivity. }
  rewrite (app_assoc FENCE tag X).
  rewrite re_sub_match; [|subst tag; now destruct tagged | exact Hm].
  assert (match last (FENCE ++ tag) with
          | Some d => N.eqb d NL | None => true end = false) as ->.
  { subst tag. destruct tagged; reflexivity. }
  destruct (re_sub_open_closing_fence (c :: rest) Hnb false)
    as (u & w & Huw & Hw & Hu).
  unfold X. rewrite Hu.
  assert (no_backtick u = true) as Hbu.
  { assert (no_backtick (u ++ w) = true) as H.
    { rewrite <- Huw, no_backtick_app, Hnb. reflexivity. }
    rewrite no_backtick_app in H. now apply andb_prop in H. }
  rewrite (re_sub_no_fence _ match_close_fence)
    by now apply no_backtick_no_fence.
  rewrite <- (strip_app_space u w Hw), <- Huw.
  now rewrite strip_app_space.
Qed.

Lemma clean_code_info_string_stays_witness :
  _clean_code (py "```py" ++ [NL] ++ py "print(1)" ++ [NL] ++ py "```")
  = py "py" ++ [NL] ++ py "print(1)"
  /\ _clean_code (py "```python3" ++ [NL] ++ py "print(1)" ++ [NL] ++ py "```")
     = py "3" ++ [NL] ++ py "print(1)".
Proof.
  split.
  - refine (eq_trans _ (eq_trans
      (clean_code_info_string_stays false 112%N
         (py "y" ++ [NL] ++ py "print(1)") _ _ _) _));
      try reflexivity.
  - refine (eq_trans _ (eq_trans
      (clean_code_info_string_stays true 51%N
         ([NL] ++ py "print(1)") _ _ _) _));
      try reflexivity; intros H; discriminate H.
Defined.

(** X5: the prompt names the plot path verbatim: its PLOT_PATH line is the
    label, the path between double quotes, and the note that follows,
    whatever the path (one without a newline). *)
Theorem prompt_names_plot_path (path : pystr) :
  no_newline path = true ->
  lines (_build_system_prompt path) !! 22
  = Some (py "  PLOT_PATH  " ++ [EMDASH] ++ py " " ++ [DQUOTE] ++ path
          ++ [DQUOTE] ++ py " (absolute file path; save plots here)").
Proof.
  intros Hp. unfold _build_system_prompt.
  rewrite lines_app, (lines_no_newline _ _ Hp).
  vm_compute. reflexivity.
Qed.

Lemma prompt_names_plot_path_witness :
  lines (_build_system_prompt PLOT) !! 22
  = Some (py "  PLOT_PATH  " ++ [EMDASH] ++ py " " ++ [DQUOTE] ++ PLOT
          ++ [DQUOTE] ++ py " (absolute file path; save plots here)").
Proof. apply prompt_names_plot_path. reflexivity. Defined.

(* ===================================================================== *)
(** ** Further properties of the service *)
(* ===================================================================== *)

Section CascadeProperties.

Context {DataFrame : Type}.
Variable E : Env DataFrame.

Local Abbreviation World := (World DataFrame).
Local Abbreviation Event := (Event DataFrame).

Lemma get_llm_frame (w w0 : World) (llm : ChatGroq) :
  _get_llm E w = (inr llm, w0) ->
  _llm w0 = Some llm /\ _model_index w0 = _model_index w
  /\ trace w0 = trace w /\ _df w0 = _df w /\ objects w0 = objects w
  /\ fs w0 = fs w /\ uuid_calls w0 = uuid_calls w
  /\ (_llm w = None -> llm = primary_client E)
  /\ (forall c, _llm w = Some c -> llm = c).
Proof.
  unfold _get_llm. destruct (_llm w) as [c|] eqn:Hllm.
  - intros [= <- <-]. repeat split; auto; congruence.
  - destruct (truthy (GROQ_API_KEY E)); cbn [negb]; [|discriminate].
    intros [= <- <-]. cbn. repeat split; auto; discriminate.
Qed.

(** X6: the client is built at most once: after a call of [_get_llm]
    that gave a client, a further call gives that client and changes
    nothing, whatever the settings say by then, because the key and the
    model name are read only when no client is there; a call that raised
    left the process as it was. *)
Theorem get_llm_idempotent (E' : Env DataFrame) (w w0 : World)
    (r : pyexc + ChatGroq) :
  _get_llm E w = (r, w0) ->
  match r with
  | inr c => _get_llm E' w0 = (inr c, w0)
  | inl e => w0 = w /\ _llm w = None
  end.
Proof.
  unfold _get_llm. destruct (_llm w) as [c|] eqn:Hllm.
  - intros [= <- <-]. now rewrite Hllm.
  - destruct (truthy (GROQ_API_KEY E)) eqn:Hkey; cbn [negb].
    + intros [= <- <-]. reflexivity.
    + intros [= <- <-]. auto.
Qed.

(** A request, step by step. *)
Lemma process_query_steps (q : pystr) (w w' : World) (out : Outcome) :
  process_query E q w = (out, w') ->
  (_llm w = None /\ truthy (GROQ_API_KEY E) = false
   /\ out = Returned (mkResult MSG_NOT_CONFIGURED None) /\ w' = w)
  \/ exists llm w0 g w1,
       _get_llm E w = (inr llm, w0)
       /\ ask_model E (length _MODEL_CASCADE)
                    (_build_system_prompt (plot_path E w)) q llm
                    (snd (uuid4 E w0)) = (g, w1)
       /\ match g with
          | GenCode code c =>
              execute E (_build_system_prompt (plot_path E w)) q
                      (plot_fname E w) (plot_path E w) code c w1
              = (out, w')
          | GenNothing =>
              out = Returned (mkResult MSG_NO_RESPONSE None) /\ w' = w1
          | GenReturn r => out = Returned r /\ w' = w1
          | GenRaise e => out = Propagated e /\ w' = w1
          end.
Proof.
  unfold process_query.
  destruct (_get_llm E w) as [[exc|llm] w0] eqn:Hget.
  - unfold _get_llm in Hget. destruct (_llm w) eqn:Hllm; [discriminate|].
    destruct (truthy (GROQ_API_KEY E)) eqn:Hkey; cbn [negb] in Hget;
      [discriminate|].
    injection Hget as <- <-. cbn [is_ValueError exc_cls exc_str].
    intros [= <- <-]. left. auto.
  - apply get_llm_frame in Hget as Hfr.
    destruct Hfr as (_ & _ & _ & _ & _ & _ & Hu & _).
    cbn [uuid4 fst snd]. unfold plot_path, plot_fname. rewrite <- Hu.
    match goal with
    | |- context [ask_model E ?n ?s ?q ?l ?w0] =>
        destruct (ask_model E n s q l w0) as [g w1] eqn:Hask
    end.
    intros H. right. exists llm, w0, g, w1. split; [reflexivity|].
    split; [exact Hask|].
    destruct g; try (injection H as <- <-; auto). exact H.
Qed.

Local Abbreviation loop_msgs sys q :=
  [SystemMessage sys; HumanMessage q].

Ltac nil_lookup :=
  let Hk := fresh in intros ? ? Hk; now rewrite lookup_nil in Hk.

(** The cascade loop, read off the events it leaves: calls that ended on
    a quota error, each followed by a switch to a cascade entry that
    exists, and then the call that decided. *)
Lemma ask_model_spec (n : nat) (sys q : pystr) :
  forall (llm : ChatGroq) (w w1 : World) (g : Generated),
    ask_model E n sys q llm w = (g, w1) ->
    exists pre : list Event,
      forallb (is_switch E) pre = true
      /\ (forall k ev, pre !! k = Some ev ->
          exists res,
            ev = EvInvoke (loop_client E llm (_model_index w) k)
                          (loop_msgs sys q) res)
      /\ length pre <= n
      /\ (pre <> [] ->
          _model_index w + length pre < length _MODEL_CASCADE)
      /\ _df w1 = _df w /\ objects w1 = objects w /\ fs w1 = fs w
      /\ uuid_calls w1 = uuid_calls w
      /\ match g with
         | GenNothing =>
             trace w1 = trace w ++ pre /\ length pre = n
             /\ _model_index w1 = _model_index w + length pre
         | GenCode code c =>
             exists content,
               trace w1 = trace w ++ pre
                          ++ [EvInvoke c (loop_msgs sys q) (inr content)]
               /\ code = _clean_code content
               /\ _model_index w1 = _model_index w + length pre
               /\ c = loop_client E llm (_model_index w) (length pre)
         | GenReturn r =>
             exists c e,
               trace w1 = trace w ++ pre
                          ++ [EvInvoke c (loop_msgs sys q) (inl e)]
               /\ is_Exception e = true
               /\ c = loop_client E llm (_model_index w) (length pre)
               /\ ((_is_quota_error E e = true
                    /\ r = mkResult MSG_ALL_RATE_LIMITED None
                    /\ _model_index w1 = _model_index w + S (length pre)
                    /\ length _MODEL_CASCADE <= _model_index w1)
                   \/ (_is_quota_error E e = false
                       /\ r = mkResult (msg_could_not_contact e) None
                       /\ _model_index w1 = _model_index w + length pre))
         | GenRaise e =>
             exists c,
               trace w1 = trace w ++ pre
                          ++ [EvInvoke c (loop_msgs sys q) (inl e)]
               /\ is_Exception e = false
               /\ _model_index w1 = _model_index w + length pre
               /\ c = loop_client E llm (_model_index w) (length pre)
         end.
Proof.
  induction n as [|n IH]; intros llm w w1 g; cbn [ask_model].
  - intros [= <- <-]. exists []. cbn. rewrite app_nil_r.
    split; [reflexivity|].
    split; [intros k ev0 Hk; now rewrite lookup_nil in Hk|].
    repeat split; auto; try lia; congruence.
  - unfold invoke.
    set (ev := EvInvoke llm [SystemMessage sys; HumanMessage q] _).
    destruct (llm_invoke E (trace w) llm _) as [exc|content] eqn:Hinv.
    + destruct (is_Exception exc) eqn:Hexc.
      * destruct (_is_quota_error E exc) eqn:Hq.
        -- assert (is_switch E ev = true) as Hev.
           { unfold is_switch, quota_failure, ev.
             cbn [is_plain_invoke event_error]. now rewrite Hexc, Hq. }
           destruct (_try_next_model E (log ev w)) as [[llm'|] w2] eqn:Hnext.
           ++ pose proof (try_next_model_frame _ _ _ _ Hnext)
                as (Ht & Hd & Ho & Hf & Hu & Hi).
              cbn in Ht, Hd, Ho, Hf, Hu, Hi.
              unfold _try_next_model in Hnext.
              cbn [set_model_index log _model_index] in Hnext.
              destruct (length _MODEL_CASCADE <=? _model_index w + 1)
                eqn:Hlast; [discriminate|].
              apply Nat.leb_gt in Hlast.
              injection Hnext as <- _.
              intros (pre & Hp & Hcl & Hlen & Hmid & -> & -> & -> & -> & Hg)%IH.
              rewrite Hi in Hmid, Hcl. rewrite Hi, Ht in Hg.
              assert (forall k, loop_client E
                        (mkChatGroq (_MODEL_CASCADE !!! (_model_index w + 1))
                                    0 (GROQ_API_KEY E) 1)
                        (S (_model_index w)) k
                      = loop_client E llm (_model_index w) (S k)) as Hc.
              { intros [|k]; cbn [loop_client].
                - unfold fallback_client. reflexivity.
                - replace (_model_index w + S (S k))
                    with (S (_model_index w) + S k) by lia. reflexivity. }
              exists (ev :: pre). cbn [forallb length].
              rewrite Hev, Hp, Hd, Ho, Hf, Hu.
              split; [reflexivity|].
              split.
              { intros [|k] ev0 Hk; cbn in Hk.
                - injection Hk as <-. unfold ev. eauto.
                - rewrite <- Hc. now apply Hcl. }
              split; [lia|].
              split.
              { intros _. destruct pre as [|e0 pre0]; [cbn [length]; lia|].
                assert (e0 :: pre0 <> []) as Hne by discriminate.
                specialize (Hmid Hne). cbn [length] in *. lia. }
              repeat (split; [reflexivity|]).
              destruct g as [code c| |r|e].
              ** destruct Hg as (content & Htr & -> & Hidx & ->).
                 exists content. rewrite Htr, <- !app_assoc.
                 repeat split; auto; lia.
              ** destruct Hg as (Htr & <- & Hidx).
                 rewrite Htr, <- !app_assoc. repeat split; auto; lia.
              ** destruct Hg as (c & e & Htr & He & Hceq & Hcase).
                 rewrite Hc in Hceq. exists c, e. rewrite Htr, <- !app_assoc.
                 repeat (split; [auto|]).
                 destruct Hcase as [(? & ? & ? & ?)|(? & ? & ?)];
                   [left | right]; repeat split; auto; lia.
              ** destruct Hg as (c & Htr & He & Hidx & Hceq).
                 rewrite Hc in Hceq. exists c. rewrite Htr, <- !app_assoc.
                 repeat split; auto; lia.
           ++ pose proof (try_next_model_frame _ _ _ _ Hnext)
                as (Ht & Hd & Ho & Hf & Hu & Hi).
              cbn in Ht, Hd, Ho, Hf, Hu, Hi.
              unfold _try_next_model in Hnext.
              cbn [set_model_index log _model_index] in Hnext.
              destruct (length _MODEL_CASCADE <=? _model_index w + 1)
                eqn:Hlast; [|discriminate].
              apply Nat.leb_le in Hlast.
              intros [= <- <-]. exists []. cbn [forallb length app].
              repeat (split; [first [reflexivity | lia | congruence
                                    | intros; lia | nil_lookup]|]).
              exists llm, exc. rewrite Ht.
              repeat (split; [auto|]). left. repeat split; auto; lia.
        -- intros [= <- <-]. exists []. cbn [forallb length app].
           repeat (split; [first [reflexivity | lia | congruence
                                 | intros; lia | nil_lookup]|]).
           exists llm, exc. repeat (split; [auto|]).
           right. repeat split; auto; cbn; lia.
      * intros [= <- <-]. exists []. cbn [forallb length app].
        repeat (split; [first [reflexivity | lia | congruence
                              | intros; lia | nil_lookup]|]).
        exists llm. repeat split; auto; cbn; lia.
    + intros [= <- <-]. exists []. cbn [forallb length app].
      repeat (split; [first [reflexivity | lia | congruence | intros; lia
                            | nil_lookup]|]).
      exists content. repeat split; auto; cbn; lia.
Qed.


Lemma cascade_length : length _MODEL_CASCADE = 4.
Proof. reflexivity. Qed.

(** With one iteration per cascade entry the loop never runs out. *)
Lemma ask_model_decides (sys q : pystr) (llm : ChatGroq) (w : World) :
  fst (ask_model E (length _MODEL_CASCADE) sys q llm w) <> GenNothing.
Proof.
  destruct (ask_model E _ sys q llm w) as [g w1] eqn:Hask. cbn [fst].
  intros ->.
  apply ask_model_spec in Hask
    as (pre & _ & _ & _ & Hmid & _ & _ & _ & _ & _ & Hlen & _).
  rewrite cascade_length in *.
  destruct pre as [|ev pre]; [discriminate|].
  assert (ev :: pre <> []) as Hne by discriminate.
  specialize (Hmid Hne). lia.
Qed.


Lemma filter_all {A} (f : A -> bool) (l : list A) :
  forallb f l = true -> List.filter f l = l.
Proof.
  induction l as [|a l IH]; [reflexivity|].
  cbn. intros [-> Hl]%andb_prop. now rewrite IH.
Qed.

Lemma filter_none {A} (f : A -> bool) (l : list A) :
  forallb (fun a => negb (f a)) l = true -> List.filter f l = [].
Proof.
  induction l as [|a l IH]; [reflexivity|].
  cbn. intros [Ha Hl]%andb_prop. apply negb_true_iff in Ha.
  now rewrite Ha, IH.
Qed.

Lemma switches_plain (pre : list Event) :
  forallb (is_switch E) pre = true -> forallb is_plain_invoke pre = true.
Proof.
  induction pre as [|ev pre IH]; [reflexivity|].
  cbn [forallb]. intros [Hev Hpre]%andb_prop.
  apply andb_prop in Hev as [-> _]. now rewrite IH.
Qed.

(** What the last step leaves of the globals. *)
Lemma assemble_globals (fname path text : pystr) (err : option pystr)
    (w w' : World) (out : Outcome) :
  assemble E fname path text err w = (out, w') ->
  _llm w' = _llm w /\ _model_index w' = _model_index w
  /\ uuid_calls w' = uuid_calls w /\ trace w' = trace w.
Proof.
  intros (? & _ & _ & ? & ? & ?)%assemble_frame. auto.
Qed.

Ltac execute_cases H :=
  rewrite execute_eq in H; cbv zeta in H;
  repeat match type of H with
         | (match ?x with _ => _ end) = _ => destruct x eqn:?
         end.

Lemma execute_events (sys q fname path code : pystr) (llm : ChatGroq)
    (w w' : World) (out : Outcome) :
  execute E sys q fname path code llm w = (out, w') ->
  uuid_calls w' = uuid_calls w
  /\ exists evs,
       trace w' = trace w ++ evs
       /\ Forall (run_event sys q code llm) evs
       /\ forallb (fun ev => negb (is_plain_invoke ev)) evs = true
       /\ length (model_calls evs) <= 1
       /\ length (execs evs) <= 2
       /\ (Forall keeps_globals (execs evs) ->
           _llm w' = _llm w /\ _model_index w' = _model_index w).
Proof.
  intros H. execute_cases H;
    (first
       [ apply assemble_globals in H as (Hl & Hi & Hu & Ht);
         rewrite Hl, Hi, Hu, Ht
       | injection H as <- <- ]);
    cbn [world_after _llm _model_index uuid_calls trace];
    (split; [reflexivity|]); eexists; (split; [reflexivity|]);
    (split; [repeat constructor; eauto|]); cbn [forallb is_plain_invoke negb andb model_calls execs List.filter is_invoke length];
    (split; [reflexivity|]); (split; [lia|]); (split; [lia|]);
    intros Hk;
    repeat match goal with
           | Hc : Forall _ (_ :: _) |- _ =>
               apply Forall_cons in Hc as [[? ?] Hc]
           end;
    cbn [fst snd first_state st_llm st_model_index] in *; split; congruence.
Qed.

(** X8: the service only ever raises the cascade index: in a request
    whose runs of generated code leave the module globals [_llm] and
    [_model_index] as they found them, the index grows by one for each
    call of the cascade loop that ended on a quota-classified error,
    whether or not a further model was left, and nothing lowers or resets
    it. *)
Theorem model_index_counts_switches (q : pystr) (w w' : World)
    (out : Outcome) :
  process_query E q w = (out, w') ->
  Forall keeps_globals (execs (request_events w w')) ->
  _model_index w'
  = _model_index w
    + length (List.filter (is_switch E) (request_events w w')).
Proof.
  intros [(_ & _ & _ & ->)|(llm & w0 & g & w1 & Hget & Hask & Hg)]%process_query_steps
    Hk.
  { rewrite request_events_same. cbn. lia. }
  apply get_llm_frame in Hget as (_ & Hi0 & Ht0 & _).
  apply ask_model_spec in Hask
    as (pre & Hp & _ & _ & _ & _ & _ & _ & _ & Hspec).
  cbn [uuid4 snd trace _model_index] in Hspec. rewrite Hi0, Ht0 in Hspec.
  pose proof (filter_all _ _ Hp) as Hfil.
  destruct g as [code c| |r|e].
  - destruct Hspec as (content & Htr & _ & Hidx & _).
    apply execute_events in Hg as (_ & evs & Ht & _ & Hnp & _ & _ & Hglob).
    rewrite Htr, <- !app_assoc in Ht.
    rewrite (request_events_app _ _ _ Ht) in Hk |- *.
    rewrite !execs_app, (plain_execs _ (switches_plain _ Hp)) in Hk.
    cbn [app execs] in Hk. destruct (Hglob Hk) as [_ Hi].
    rewrite !List.filter_app, Hfil.
    rewrite (filter_none (is_switch E) evs).
    2: { clear -Hnp. induction evs as [|ev evs IH]; [reflexivity|].
         cbn [forallb] in *. apply andb_prop in Hnp as [Hev Hevs].
         rewrite IH by exact Hevs. unfold is_switch.
         apply negb_true_iff in Hev. now rewrite Hev. }
    cbn [List.filter]. unfold is_switch at 1, quota_failure.
    cbn [event_error]. rewrite andb_false_r, !app_nil_r, Hi, Hidx. lia.
  - destruct Hg as (_ & ->). destruct Hspec as (Htr & _ & Hidx).
    rewrite (request_events_app _ _ _ Htr), Hfil. lia.
  - destruct Hg as (_ & ->). destruct Hspec as (c & e & Htr & He & _ & Hcase).
    rewrite (request_events_app _ _ _ Htr), List.filter_app, Hfil.
    unfold is_switch, quota_failure. cbn [List.filter is_plain_invoke event_error].
    rewrite He.
    destruct Hcase as [(Hq & _ & Hidx & _)|(Hq & _ & Hidx)]; rewrite Hq;
      cbn; rewrite ?length_app; cbn; lia.
  - destruct Hg as (_ & ->). destruct Hspec as (c & Htr & He & Hidx & _).
    rewrite (request_events_app _ _ _ Htr), List.filter_app, Hfil.
    unfold is_switch, quota_failure. cbn [List.filter is_plain_invoke event_error].
    rewrite He. cbn. rewrite app_nil_r. lia.
Qed.


(** A request that gets past the credential check, read off its events:
    the calls that ended in a switch, the call that decided, and what
    followed it. *)
Lemma process_query_events (q : pystr) (w w' : World) (out : Outcome) :
  process_query E q w = (out, w') ->
  (_llm w = None /\ truthy (GROQ_API_KEY E) = false
   /\ out = Returned (mkResult MSG_NOT_CONFIGURED None) /\ w' = w)
  \/ exists llm pre c res evs w1,
       (_llm w = None -> llm = primary_client E)
       /\ (forall c0, _llm w = Some c0 -> llm = c0)
       /\ request_events w w'
          = pre ++ EvInvoke c (loop_msgs (_build_system_prompt (plot_path E w)) q) res
                :: evs
       /\ forallb (is_switch E) pre = true
       /\ (forall k ev, pre !! k = Some ev ->
           exists res0,
             ev = EvInvoke (loop_client E llm (_model_index w) k)
                    (loop_msgs (_build_system_prompt (plot_path E w)) q) res0)
       /\ (pre <> [] -> _model_index w + length pre < length _MODEL_CASCADE)
       /\ c = loop_client E llm (_model_index w) (length pre)
       /\ trace w1
          = trace w ++ pre
            ++ [EvInvoke c (loop_msgs (_build_system_prompt (plot_path E w)) q) res]
       /\ _df w1 = _df w /\ objects w1 = objects w /\ fs w1 = fs w
       /\ match res with
          | inr content =>
              execute E (_build_system_prompt (plot_path E w)) q
                      (plot_fname E w) (plot_path E w)
                      (_clean_code content) c w1 = (out, w')
              /\ trace w' = trace w1 ++ evs
              /\ _model_index w1 = _model_index w + length pre
          | inl e =>
              evs = [] /\ w' = w1
              /\ if is_Exception e then
                   if _is_quota_error E e then
                     out = Returned (mkResult MSG_ALL_RATE_LIMITED None)
                     /\ length _MODEL_CASCADE <= _model_index w + S (length pre)
                     /\ _model_index w1 = _model_index w + S (length pre)
                   else
                     out = Returned (mkResult (msg_could_not_contact e) None)
                     /\ _model_index w1 = _model_index w + length pre
                 else out = Propagated e
                      /\ _model_index w1 = _model_index w + length pre
          end.
Proof.
  intros [H|(llm & w0 & g & w1 & Hget & Hask & Hg)]%process_query_steps;
    [now left | right].
  apply get_llm_frame in Hget as (_ & Hi0 & Ht0 & Hd0 & Ho0 & Hf0 & _ & Hn & Hs).
  pose proof (ask_model_decides (_build_system_prompt (plot_path E w)) q
                llm (snd (uuid4 E w0))) as Hdec.
  rewrite Hask in Hdec. cbn [fst] in Hdec.
  apply ask_model_spec in Hask
    as (pre & Hp & Hcl & _ & Hmid & Hd & Ho & Hf & _ & Hspec).
  cbn [uuid4 snd trace _model_index _df objects fs]
    in Hspec, Hmid, Hd, Ho, Hf, Hcl.
  rewrite Hi0 in Hmid, Hcl. rewrite Hi0, Ht0 in Hspec.
  rewrite Hd0 in Hd. rewrite Ho0 in Ho. rewrite Hf0 in Hf.
  destruct g as [code c| |r|e]; [| congruence | |].
  - destruct Hspec as (content & Htr & -> & Hidx & Hc).
    pose proof (execute_events _ _ _ _ _ _ _ _ _ Hg)
      as (_ & evs & Ht & _).
    exists llm, pre, c, (inr content), evs, w1.
    repeat (split; [assumption|]).
    split.
    { apply request_events_app. rewrite Ht, Htr, <- !app_assoc. reflexivity. }
    repeat (split; [assumption|]). auto.
  - destruct Hg as (-> & ->). destruct Hspec as (c & e & Htr & He & Hc & Hcase).
    exists llm, pre, c, (inl e), [], w1.
    repeat (split; [assumption|]).
    split.
    { apply request_events_app. rewrite Htr. reflexivity. }
    repeat (split; [assumption|]).
    repeat (split; [reflexivity|]). rewrite He.
    destruct Hcase as [(-> & -> & Hidx & Hlen)|(-> & -> & Hidx)];
      repeat split; auto; lia.
  - destruct Hg as (-> & ->). destruct Hspec as (c & Htr & He & Hidx & Hc).
    exists llm, pre, c, (inl e), [], w1.
    repeat (split; [assumption|]).
    split.
    { apply request_events_app. rewrite Htr. reflexivity. }
    repeat (split; [assumption|]).
    repeat (split; [reflexivity|]). rewrite He. auto.
Qed.

Lemma switches_model_calls (pre : list Event) :
  forallb (is_switch E) pre = true -> model_calls pre = pre.
Proof. intros H. apply plain_model_calls, switches_plain, H. Qed.

Lemma model_calls_app (a b : list Event) :
  model_calls (a ++ b) = model_calls a ++ model_calls b.
Proof. apply List.filter_app. Qed.

(** X9: what a request can cost: at most one call of the cascade loop per
    cascade entry from the current index on (one call when the index is
    already at or past the last entry), one more call for the retry, and
    two runs of generated code. *)
Theorem request_cost_bounded (q : pystr) (w w' : World) (out : Outcome) :
  process_query E q w = (out, w') ->
  length (model_calls (request_events w w'))
  <= Nat.max 1 (length _MODEL_CASCADE - _model_index w) + 1
  /\ length (execs (request_events w w')) <= 2.
Proof.
  intros [(_ & _ & _ & ->)
         |(llm & pre & c & res & evs & w1 & _ & _ & Hev & Hp & _ & Hmid & _
           & _ & _ & _ & _ & Hres)]%process_query_events.
  { rewrite request_events_same. cbn. lia. }
  rewrite Hev.
  change (pre ++ ?a :: evs) with (pre ++ [a] ++ evs).
  rewrite !model_calls_app, !execs_app, (switches_model_calls _ Hp),
    (plain_execs _ (switches_plain _ Hp)), !length_app.
  cbn [model_calls List.filter is_invoke execs length app].
  assert (length pre + 1 <= Nat.max 1 (length _MODEL_CASCADE - _model_index w))
    as Hpre.
  { destruct pre as [|ev pre]; [cbn [length]; lia|].
    assert (ev :: pre <> []) as Hne by discriminate.
    specialize (Hmid Hne). lia. }
  rewrite cascade_length in *.
  destruct res as [e|content].
  - destruct Hres as (-> & _). cbn. lia.
  - destruct Hres as (Hex & Ht & _).
    apply execute_events in Hex as (_ & evs' & Ht' & _ & _ & Hm & Hx & _).
    rewrite Ht' in Ht. apply app_inv_head in Ht. subst evs'. lia.
Qed.


Lemma switch_quota (ev : Event) (e : pyexc) :
  is_switch E ev = true -> event_error ev = Some e ->
  is_Exception e = true /\ _is_quota_error E e = true.
Proof.
  unfold is_switch, quota_failure. intros [_ H]%andb_prop He.
  rewrite He in H. now apply andb_prop in H.
Qed.

(** X10: an API failure that is not quota-classified ends the request at
    once: no further model is tried, no code is run, and the answer is
    the could-not-contact message with the text of the error. *)
Theorem api_failure_is_terminal (q : pystr) (w w' : World) (out : Outcome)
    (ev : Event) (e : pyexc) :
  process_query E q w = (out, w') ->
  In ev (request_events w w') ->
  is_plain_invoke ev = true ->
  event_error ev = Some e ->
  is_Exception e = true ->
  _is_quota_error E e = false ->
  out = Returned (mkResult (msg_could_not_contact e) None)
  /\ last (request_events w w') = Some ev
  /\ execs (request_events w w') = [].
Proof.
  intros [(_ & _ & _ & ->)
         |(llm & pre & c & res & evs & w1 & _ & _ & Hev & Hp & _ & _ & _
           & _ & _ & _ & _ & Hres)]%process_query_events
         Hin Hplain Herr Hexc Hq.
  { now rewrite request_events_same in Hin. }
  rewrite Hev in *. apply in_app_or in Hin as [Hin|[<-|Hin]].
  - pose proof (proj1 (forallb_forall _ _) Hp _ Hin) as Hsw.
    destruct (switch_quota _ _ Hsw Herr). congruence.
  - cbn [event_error] in Herr. destruct res as [e0|content]; [|discriminate].
    injection Herr as ->. destruct Hres as (-> & _ & Hout).
    rewrite Hexc, Hq in Hout. destruct Hout as (-> & _).
    split; [reflexivity|]. split; [apply last_snoc|].
    rewrite execs_app, (plain_execs _ (switches_plain _ Hp)). reflexivity.
  - destruct res as [e0|content].
    + destruct Hres as (-> & _). destruct Hin.
    + destruct Hres as (Hex & Ht & _).
      apply execute_events in Hex as (_ & evs' & Ht' & _ & Hnp & _).
      rewrite Ht' in Ht. apply app_inv_head in Ht. subst evs'.
      pose proof (proj1 (forallb_forall _ _) Hnp _ Hin) as Hn.
      cbv beta in Hn. rewrite Hplain in Hn. discriminate.
Qed.

Lemma client_of_next (i : nat) :
  length _MODEL_CASCADE <= i + 1 -> client_of E (i + 1) = client_of E i.
Proof.
  rewrite cascade_length. intros Hi. unfold client_of.
  destruct i as [|i]; [lia|]. rewrite cascade_length.
  replace (S i + 1) with (S (S i)) by lia.
  replace (Nat.min (S (S i)) (4 - 1)) with 3 by lia.
  replace (Nat.min (S i) (4 - 1)) with 3 by lia. reflexivity.
Qed.

Lemma client_of_fallback (i : nat) :
  0 < i < length _MODEL_CASCADE -> client_of E i = fallback_client E i.
Proof.
  rewrite cascade_length. intros Hi. unfold client_of.
  destruct i as [|i]; [lia|]. rewrite cascade_length.
  f_equal. lia.
Qed.

(** The cascade loop keeps the two globals in step. *)
Lemma ask_model_coherent (n : nat) (sys q : pystr) :
  forall (llm : ChatGroq) (w w1 : World) (g : Generated),
    ask_model E n sys q llm w = (g, w1) ->
    _llm w = Some llm -> llm = client_of E (_model_index w) ->
    exists c, _llm w1 = Some c /\ c = client_of E (_model_index w1).
Proof.
  induction n as [|n IH]; intros llm w w1 g; cbn [ask_model].
  - intros [= <- <-]. eauto.
  - unfold invoke.
    set (ev := EvInvoke llm [SystemMessage sys; HumanMessage q] _).
    destruct (llm_invoke E (trace w) llm _) as [exc|content].
    2: { intros [= <- <-]. eauto. }
    destruct (is_Exception exc); [|intros [= <- <-]; eauto].
    destruct (_is_quota_error E exc); [|intros [= <- <-]; eauto].
    unfold _try_next_model. cbn [set_model_index log _model_index].
    destruct (length _MODEL_CASCADE <=? _model_index w + 1) eqn:Hlast.
    + apply Nat.leb_le in Hlast. intros [= <- <-] Hl Hc. cbn.
      exists llm. split; [exact Hl|]. now rewrite client_of_next.
    + apply Nat.leb_gt in Hlast. intros H _ _.
      apply IH in H; [exact H | reflexivity |].
      cbn. symmetry. apply client_of_fallback. lia.
Qed.

(** X11: the service keeps the two globals in step: after a request from
    a world in which they agree (no client and index 0, or the client of
    the index), whose runs of generated code leave [_llm] and
    [_model_index] as they found them, they agree again; the client in
    use is the configured model before any switch and the cascade entry
    of the index, or the last entry, after one. *)
Theorem coherent_preserved (q : pystr) (w w' : World) (out : Outcome) :
  coherent E w -> process_query E q w = (out, w') ->
  Forall keeps_globals (execs (request_events w w')) ->
  coherent E w'.
Proof.
  intros Hco [(_ & _ & _ & ->)|(llm & w0 & g & w1 & Hget & Hask & Hg)]%process_query_steps
    Hk;
    [exact Hco|].
  apply get_llm_frame in Hget as (Hl0 & Hi0 & Ht0 & _ & _ & _ & _ & Hn & Hs).
  pose proof (ask_model_frame _ _ _ _ _ _ _ _ Hask) as (gen & Htr & Hp & _).
  cbn [uuid4 snd trace] in Htr. rewrite Ht0 in Htr.
  assert (llm = client_of E (_model_index w0)) as Hllm.
  { rewrite Hi0. unfold coherent in Hco. destruct (_llm w) as [c0|].
    - rewrite (Hs c0 eq_refl). exact Hco.
    - rewrite (Hn eq_refl), Hco. reflexivity. }
  apply ask_model_coherent in Hask as (c & Hc1 & Hc2); [|exact Hl0|exact Hllm].
  assert (coherent E w1) as Hco1 by (unfold coherent; now rewrite Hc1).
  destruct g as [code c'| |r|e];
    try (destruct Hg as (_ & ->); exact Hco1).
  apply execute_events in Hg as (_ & evs & Ht & _ & _ & _ & _ & Hglob).
  rewrite Htr, <- app_assoc in Ht.
  rewrite (request_events_app _ _ _ Ht), execs_app, (plain_execs _ Hp) in Hk.
  destruct (Hglob Hk) as [Hl Hi].
  unfold coherent in *. now rewrite Hl, Hi.
Qed.

(** X12: the calls of the cascade loop go down the cascade in order: in a
    request from a world in which the globals agree, the call at
    position [k] of the request is made with the client of cascade index
    [_model_index + k], and every entry so used exists. *)
Theorem calls_follow_cascade (q : pystr) (w w' : World) (out : Outcome)
    (k : nat) (ev : Event) :
  coherent E w ->
  process_query E q w = (out, w') ->
  request_events w w' !! k = Some ev ->
  is_plain_invoke ev = true ->
  event_client ev = Some (client_of E (_model_index w + k))
  /\ (0 < k -> _model_index w + k < length _MODEL_CASCADE).
Proof.
  intros Hco
    [(_ & _ & _ & ->)
    |(llm & pre & c & res & evs & w1 & Hn & Hs & Hev & Hp & Hcl & Hmid & Hc
      & _ & _ & _ & _ & Hres)]%process_query_events Hk Hplain.
  { now rewrite request_events_same, lookup_nil in Hk. }
  assert (llm = client_of E (_model_index w)) as Hllm.
  { unfold coherent in Hco. destruct (_llm w) as [c0|].
    - rewrite (Hs c0 eq_refl). exact Hco.
    - rewrite (Hn eq_refl), Hco. reflexivity. }
  assert (forall j, j <= length pre ->
            loop_client E llm (_model_index w) j
            = client_of E (_model_index w + j)
            /\ (0 < j -> _model_index w + j < length _MODEL_CASCADE))
    as Hloop.
  { intros [|j] Hj; cbn [loop_client].
    - rewrite Nat.add_0_r. split; [exact Hllm | lia].
    - assert (pre <> []) as Hne by (destruct pre; [cbn in Hj; lia | discriminate]).
      specialize (Hmid Hne).
      split; [|lia]. symmetry. apply client_of_fallback. lia. }
  rewrite Hev in Hk.
  destruct (Nat.lt_ge_cases k (length pre)) as [Hlt|Hge].
  - rewrite lookup_app_l in Hk by exact Hlt.
    destruct (Hcl _ _ Hk) as (res0 & ->). cbn [event_client].
    destruct (Hloop k) as [-> Hb]; [lia|]. auto.
  - rewrite lookup_app_r in Hk by exact Hge.
    destruct (k - length pre) as [|j] eqn:Hj.
    + cbn in Hk. injection Hk as <-. cbn [event_client].
      assert (k = length pre) as -> by lia.
      rewrite Hc. destruct (Hloop (length pre)) as [-> Hb]; [lia|]. auto.
    + cbn in Hk. apply list_elem_of_lookup_2, list_elem_of_In in Hk.
      destruct res as [e0|content].
      * destruct Hres as (-> & _). destruct Hk.
      * destruct Hres as (Hex & Ht & _).
        apply execute_events in Hex as (_ & evs' & Ht' & _ & Hnp & _).
        rewrite Ht' in Ht. apply app_inv_head in Ht. subst evs'.
        pose proof (proj1 (forallb_forall _ _) Hnp _ Hk) as Hnn.
        cbv beta in Hnn. rewrite Hplain in Hnn. discriminate.
Qed.

(** X13: every call of the model in a request carries the system prompt
    built for the plot path of that request and then the question as it
    was asked; the only thing that can follow is the one error-context
    turn of the retry. *)
Theorem calls_carry_prompt_and_question (q : pystr) (w w' : World)
    (out : Outcome) (ev : Event) :
  process_query E q w = (out, w') ->
  In ev (request_events w w') ->
  is_invoke ev = true ->
  exists rest,
    event_messages ev
    = Some (SystemMessage (_build_system_prompt (plot_path E w))
            :: HumanMessage q :: rest)
    /\ (rest = []
        \/ exists err code, rest = [HumanMessage (retry_message err code)]).
Proof.
  intros [(_ & _ & _ & ->)
         |(llm & pre & c & res & evs & w1 & _ & _ & Hev & Hp & Hcl & _ & _
           & _ & _ & _ & _ & Hres)]%process_query_events Hin Hinv.
  { now rewrite request_events_same in Hin. }
  rewrite Hev in Hin. apply in_app_or in Hin as [Hin|[<-|Hin]].
  - apply list_elem_of_In, list_elem_of_lookup_1 in Hin as (k & Hk).
    destruct (Hcl _ _ Hk) as (res0 & ->). exists [].
    split; [reflexivity | now left].
  - exists []. split; [reflexivity | now left].
  - destruct res as [e0|content].
    + destruct Hres as (-> & _). destruct Hin.
    + destruct Hres as (Hex & Ht & _).
      apply execute_events in Hex as (_ & evs' & Ht' & Hrun & _).
      rewrite Ht' in Ht. apply app_inv_head in Ht. subst evs'.
      pose proof (proj1 (List.Forall_forall _ _) Hrun _ Hin) as Hr.
      destruct ev as [c0 msgs res0|]; [|discriminate].
      destruct Hr as (_ & err & ->). cbn [event_messages].
      eexists. split; [reflexivity|]. right. eauto.
Qed.


(** *** What a request answers *)

Lemma app_nonnil {A} (a b : list A) : a <> [] -> a ++ b <> [].
Proof. destruct a; [congruence | discriminate]. Qed.

Lemma build_response_text (err : option pystr) (text : pystr)
    (img : option pystr) :
  text <> [] -> build_response err text img = text.
Proof.
  intros Ht. unfold build_response.
  destruct text; [congruence|]. cbn [truthy negb].
  now rewrite !andb_false_r, !andb_false_l.
Qed.

Lemma build_response_nonempty (err : option pystr) (text : pystr)
    (img : option pystr) :
  build_response err text img <> [].
Proof.
  destruct text as [|c text].
  2: { now rewrite build_response_text. }
  unfold build_response. cbn [truthy negb]. rewrite !andb_true_r, !andb_true_l.
  destruct (truthy_opt err).
  - unfold msg_error. apply app_nonnil. intros H. vm_compute in H.
    discriminate H.
  - destruct (bool_decide (is_Some img)); cbn [negb]; intros H;
      vm_compute in H; discriminate H.
Qed.

(** Names the events [execute] logged, case by case. *)
Ltac run_events Hex Ht :=
  match type of Hex with
  | assemble _ _ _ _ _ (world_after _ _ _) = _ =>
      let Ha := fresh "Ha" in
      pose proof (assemble_inv _ _ _ _ _ _ _ _ Hex) as (Ha & _);
      cbn [world_after trace] in Ha; rewrite Ha in Ht;
      apply app_inv_head in Ht; subst
  | (_, world_after _ _ _) = _ =>
      let Ho := fresh "Hout" in
      let Hw := fresh "Hw" in
      injection Hex as Ho Hw; rewrite <- Hw in Ht;
      cbn [world_after trace] in Ht; apply app_inv_head in Ht; subst
  end.

(** What leaves [process_query] unhandled: an exception of the model call
    or of a run that is no [Exception], the [ValueError] of reading the
    buffer a first run closed, or the error of removing what is an empty
    directory. *)
Lemma propagated_cases (q : pystr) (w w' : World) (e : pyexc) :
  process_query E q w = (Propagated e, w') ->
  is_Exception e = false
  \/ (e = CLOSED_FILE
      /\ exists c s r rest,
           execs (request_events w w') = (c, s, r) :: rest
           /\ ex_closed r = true)
  \/ (e = PyExc ClsException (remove_strerror E (plot_path E w))
      /\ fs w' !! plot_path E w = Some (Dir 0)).
Proof.
  intros [(_ & _ & [=] & _)
         |(llm & pre & c & res & evs & w1 & _ & _ & Hev & Hp & _ & _ & _
           & _ & _ & _ & _ & Hres)]%process_query_events.
  destruct res as [e0|content].
  - destruct Hres as (_ & _ & Hout).
    destruct (is_Exception e0) eqn:He0;
      [destruct (_is_quota_error E e0); destruct Hout as (Hout & _);
       discriminate Hout|].
    destruct Hout as ([= <-] & _). left. exact He0.
  - destruct Hres as (Hex & Ht & _).
    rewrite Hev. change (pre ++ ?a :: evs) with (pre ++ [a] ++ evs).
    rewrite !execs_app, (plain_execs _ (switches_plain _ Hp)).
    cbn [execs app].
    execute_cases Hex;
      first
        [ apply assemble_inv in Hex
            as (_ & _ & _ & [(img & Hout & _)|(Hdir & [= <-] & Hfs)]);
          [discriminate Hout|];
          right; right; split; [reflexivity|]; rewrite Hfs; exact Hdir
        | discriminate Hex
        | run_events Hex Ht;
          first [ left; assumption
                | right; left; split; [reflexivity|];
                  cbn [execs]; do 4 eexists;
                  split; [reflexivity | assumption] ] ].
Qed.

(** X14: the chat never answers with an empty text. *)
Theorem response_never_empty (q : pystr) (w w' : World) (r : QueryResult) :
  process_query E q w = (Returned r, w') -> response r <> [].
Proof.
  intros [(_ & _ & [= ->] & _)
         |(llm & pre & c & res & evs & w1 & _ & _ & _ & _ & _ & _ & _
           & _ & _ & _ & _ & Hres)]%process_query_events.
  { intros H. vm_compute in H. discriminate H. }
  destruct res as [e0|content].
  - destruct Hres as (_ & _ & Hout).
    destruct (is_Exception e0);
      [destruct (_is_quota_error E e0)|]; destruct Hout as ([= ->] & _).
    + intros H. vm_compute in H. discriminate H.
    + cbn [response]. unfold msg_could_not_contact. apply app_nonnil.
      intros H. vm_compute in H. discriminate H.
  - destruct Hres as (Hex & _). execute_cases Hex;
      first
        [ apply assemble_inv in Hex
            as (_ & _ & _ & [(img & [= ->] & _)|(_ & [=] & _)]);
          apply build_response_nonempty
        | discriminate Hex
        | injection Hex as <- _; intros H; vm_compute in H;
          discriminate H ].
Qed.

(** X15: an image reference in the answer is sound as far as the check
    goes: it is the [/static/] URL of the file name reserved for this
    request, and when the request returns, an entry of non-zero size is
    at the reserved path, a file or, since [os.path.getsize] does not
    tell them apart, a directory. *)
Theorem image_url_sound (q : pystr) (w w' : World) (r : QueryResult)
    (u : pystr) :
  process_query E q w = (Returned r, w') ->
  image_url r = Some u ->
  u = py "/static/" ++ plot_fname E w
  /\ exists node, fs w' !! plot_path E w = Some node /\ 0 < getsize node.
Proof.
  intros [(_ & _ & [= ->] & _)
         |(llm & pre & c & res & evs & w1 & _ & _ & _ & _ & _ & _ & _
           & _ & _ & _ & _ & Hres)]%process_query_events; [discriminate|].
  destruct res as [e0|content].
  - destruct Hres as (_ & _ & Hout).
    destruct (is_Exception e0);
      [destruct (_is_quota_error E e0)|]; destruct Hout as ([= ->] & _);
      discriminate.
  - destruct Hres as (Hex & _). intros Hu. execute_cases Hex;
      first
        [ apply assemble_inv in Hex
            as (_ & _ & _ & [(img & [= ->] & Hfs)|(_ & [=] & _)]);
          cbn [image_url] in Hu; subst img;
          (destruct Hfs as [(node & Hf & Hne & Hurl & Hfw)
                           |[(_ & [=] & _)|(_ & [=] & _)]]);
          (split; [congruence | rewrite Hfw; eauto])
        | discriminate Hex
        | injection Hex as <- _; cbn [image_url] in Hu; discriminate Hu ].
Qed.



(** X17: a last run that raised nothing and left the buffer open decides
    the answer alone, as long as what it left at the reserved path is not
    an empty directory: the text is what that run printed, trimmed, or one
    of the two fixed messages when it printed nothing, and the image
    reference says whether that run left an entry of non-zero size at the
    reserved path.  An error of the first attempt does not show once the
    retry has run cleanly. *)
Theorem clean_last_run_decides (q : pystr) (w w' : World) (out : Outcome)
    c s r :
  process_query E q w = (out, w') ->
  last (execs (request_events w w')) = Some (c, s, r) ->
  ex_raised r = None ->
  ex_closed r = false ->
  st_fs (ex_state r) !! plot_path E w <> Some (Dir 0) ->
  let img := match st_fs (ex_state r) !! plot_path E w with
             | Some node =>
                 if 0 <? getsize node
                 then Some (py "/static/" ++ plot_fname E w) else None
             | None => None
             end in
  out = Returned (mkResult (build_response None (strip (ex_stdout r)) img) img).
Proof.
  intros [(_ & _ & _ & ->)
         |(llm & pre & c0 & res & evs & w1 & _ & _ & Hev & Hp & _ & _ & _
           & _ & _ & _ & _ & Hres)]%process_query_events.
  { now rewrite request_events_same. }
  rewrite Hev.
  change (pre ++ ?a :: evs) with (pre ++ [a] ++ evs).
  rewrite !execs_app, (plain_execs _ (switches_plain _ Hp)).
  cbn [execs app].
  destruct res as [e0|content].
  { destruct Hres as (-> & _). discriminate. }
  destruct Hres as (Hex & Ht & _).
  intros Hlast Hclean Hopen Hnodir.
  execute_cases Hex; run_events Hex Ht; cbn [execs last] in Hlast;
    injection Hlast as <- <- <-; try congruence.
  all: apply assemble_inv in Hex
         as (_ & _ & _ & [(im & -> & Hfs)|(Hdir & _)]);
    cbn [world_after fs] in *; [|congruence];
    destruct Hfs as [(node & Hfile & Hne & -> & _)
                    |[(Hfile & -> & _)|(Hfile & -> & _)]];
    rewrite Hfile; try reflexivity;
    apply Nat.ltb_lt in Hne; rewrite Hne; reflexivity.
Qed.

(** X18: the service leaves every file but the reserved one alone: a file
    at another path that the runs of generated code did not change is,
    after the request, what it was before it. *)
Theorem other_files_untouched (q : pystr) (w w' : World) (out : Outcome)
    (p : pystr) :
  process_query E q w = (out, w') ->
  p <> plot_path E w ->
  Forall (fun x => st_fs (ex_state x.2) !! p = st_fs x.1.2 !! p)
         (execs (request_events w w')) ->
  fs w' !! p = fs w !! p.
Proof.
  intros [(_ & _ & _ & ->)
         |(llm & pre & c0 & res & evs & w1 & _ & _ & Hev & Hp & _ & _ & _
           & _ & _ & _ & Hf & Hres)]%process_query_events; [reflexivity|].
  rewrite Hev.
  change (pre ++ ?a :: evs) with (pre ++ [a] ++ evs).
  rewrite !execs_app, (plain_execs _ (switches_plain _ Hp)).
  cbn [execs app].
  destruct res as [e0|content].
  { destruct Hres as (_ & -> & _). now rewrite Hf. }
  destruct Hres as (Hex & Ht & _).
  intros Hp' Hruns.
  assert (forall w2 st fname text err o,
            st_fs st !! p = fs w !! p ->
            assemble E fname (plot_path E w) text err
                     (world_after w1 w2 st) = (o, w') ->
            fs w' !! p = fs w !! p) as Hasm.
  { intros w2 st fname text err o Hst Ha.
    apply assemble_inv in Ha
      as (_ & _ & _ & [(im & _ & Hfs)|(_ & _ & Hfs)]);
      cbn [world_after fs] in Hfs; [|now rewrite Hfs].
    destruct Hfs as [(data & _ & _ & _ & ->)|[(_ & _ & ->)|(_ & _ & ->)]];
      rewrite ?lookup_delete_ne by congruence; exact Hst. }
  execute_cases Hex;
    (assert (Ht' := Ht); run_events Hex Ht');
    cbn [execs] in Hruns;
    repeat match goal with
           | H : Forall _ (_ :: _) |- _ =>
               apply Forall_cons in H as [? H]; cbn [fst snd] in *
           end;
    cbn [first_state st_fs] in *;
    first
      [ eapply Hasm; [|eassumption]; congruence
      | cbn [world_after fs]; congruence ].
Qed.

End CascadeProperties.

(* ===================================================================== *)
(** ** Properties of the HTTP handler *)
(* ===================================================================== *)

Section EndpointProperties.

Context {DataFrame : Type}.
Variable E : Env DataFrame.

Lemma strip_nil_iff (s : pystr) : strip s = [] <-> all_space s = true.
Proof.
  unfold strip. split.
  - intros H. apply lstrip_nil_all_space.
    destruct (rstrip_split (lstrip s)) as (v & Hs & Hv). rewrite H in Hs.
    destruct (lstrip_cases s) as [Hl|(c & t & Hl & Hc)]; [exact Hl|].
    rewrite Hl in Hs. cbn in Hs. subst v. cbn in Hv.
    rewrite Hc in Hv. discriminate.
  - intros H. now rewrite (all_space_lstrip _ H).
Qed.

(** The handler, case by case. *)
Lemma chat_endpoint_cases (message : pystr) (w w' : World DataFrame)
    (out : Handled) :
  chat_endpoint E message w = (out, w') ->
  (all_space message = true
   /\ out = Rejected (mkHTTPException 422 MSG_EMPTY_MESSAGE) /\ w' = w)
  \/ (all_space message = false
      /\ exists r,
           process_query E message w = (Returned r, w')
           /\ out = Responded (mkChatResponse (response r) (image_url r)))
  \/ (all_space message = false
      /\ exists e,
           process_query E message w = (Propagated e, w')
           /\ out = if is_Exception e
                    then Rejected (mkHTTPException 500 (msg_internal_error e))
                    else Unhandled e).
Proof.
  unfold chat_endpoint. destruct (strip message) as [|c t] eqn:Hs.
  { intros [= <- <-]. left. now apply strip_nil_iff in Hs. }
  assert (all_space message = false) as Hns.
  { destruct (all_space message) eqn:Ha; [|reflexivity].
    apply strip_nil_iff in Ha. congruence. }
  cbn [truthy negb].
  destruct (process_query E message w) as [[r|e] w1] eqn:Hq.
  - intros [= <- <-]. right. left. eauto.
  - intros H. right. right. split; [exact Hns|]. exists e.
    destruct (is_Exception e); injection H as <- <-; auto.
Qed.

(** X19: a message that is empty or all whitespace is refused with status
    422 before anything else happens: no model is called, no code is run
    and the process is as it was; and status 422 is answered to such a
    message only. *)
Theorem blank_message_rejected (message : pystr) (w : World DataFrame) :
  (all_space message = true ->
   chat_endpoint E message w
   = (Rejected (mkHTTPException 422 MSG_EMPTY_MESSAGE), w))
  /\ (forall d w',
        chat_endpoint E message w = (Rejected (mkHTTPException 422 d), w') ->
        all_space message = true /\ d = MSG_EMPTY_MESSAGE /\ w' = w).
Proof.
  split.
  - intros H. unfold chat_endpoint. apply strip_nil_iff in H. now rewrite H.
  - intros d w' [(Ha & [= ->] & ->)|[(_ & r & _ & [=])|(_ & e & _ & He)]]%chat_endpoint_cases;
      [auto|].
    destruct (is_Exception e); discriminate He.
Qed.


(** X21: the front end never posts a blank message: what [_handle_query]
    posts is the question trimmed, and is not blank, so the handler takes
    it to the service and never answers it with status 422. *)
Theorem front_end_posts_no_blank (question message : pystr)
    (w : World DataFrame) :
  In message (_handle_query question) ->
  message = strip question
  /\ all_space message = false
  /\ forall d,
       fst (chat_endpoint E message w) <> Rejected (mkHTTPException 422 d).
Proof.
  unfold _handle_query.
  destruct (strip question) as [|c t] eqn:Hs; cbn [truthy negb In];
    [tauto|].
  intros [<-|[]]. split; [reflexivity|].
  assert (all_space (c :: t) = false) as Hns.
  { destruct (all_space (c :: t)) eqn:Ha; [|reflexivity].
    apply strip_nil_iff in Ha. rewrite <- Hs, strip_idem, Hs in Ha.
    discriminate. }
  split; [exact Hns|]. intros d Hh.
  destruct (chat_endpoint E (c :: t) w) as [out w'] eqn:Hc.
  cbn [fst] in Hh. subst out.
  apply chat_endpoint_cases in Hc
    as [(Ha & _)|[(_ & r & _ & [=])|(_ & e & _ & He)]]; [congruence|].
  destruct (is_Exception e); discriminate He.
Qed.

End EndpointProperties.

(* ===================================================================== *)
(** ** Properties of the standalone app *)
(* ===================================================================== *)

Section StandaloneProperties.

Import Standalone.

Context {DataFrame : Type}.
Variable E : Env DataFrame.
Variable D : Deployment.

Local Abbreviation World := (World DataFrame).
Local Abbreviation Event := (Event DataFrame).

(** The loop over the cascade, read off the events it leaves. *)
Lemma ask_cascade_spec (key sys q : pystr) (models : list pystr) :
  forall (w w1 : World) (a : Asked),
    ask_cascade E models key sys q w = (a, w1) ->
    exists evs : list Event,
      trace w1 = trace w ++ evs
      /\ length evs <= length models
      /\ (forall k ev, evs !! k = Some ev ->
          exists m res,
            models !! k = Some m
            /\ ev = EvInvoke (mkChatGroq m 0 key 1)
                             [SystemMessage sys; HumanMessage q] res)
      /\ _llm w1 = _llm w /\ _model_index w1 = _model_index w
      /\ _df w1 = _df w /\ objects w1 = objects w /\ fs w1 = fs w
      /\ uuid_calls w1 = uuid_calls w
      /\ (a = AskNothing -> length evs = length models).
Proof.
  induction models as [|m models IH]; intros w w1 a; cbn [ask_cascade].
  - intros [= <- <-]. exists []. rewrite app_nil_r.
    repeat split; auto. intros k ev Hk. now rewrite lookup_nil in Hk.
  - unfold invoke.
    set (ev := EvInvoke (mkChatGroq m 0 key 1)
                        [SystemMessage sys; HumanMessage q] _).
    assert (forall k ev0, [ev] !! k = Some ev0 ->
              exists m0 res,
                (m :: models) !! k = Some m0
                /\ ev0 = EvInvoke (mkChatGroq m0 0 key 1)
                                  [SystemMessage sys; HumanMessage q] res)
      as Hone.
    { intros [|k] ev0 Hk; cbn in Hk; [|discriminate Hk].
      injection Hk as <-. unfold ev. eauto. }
    destruct (llm_invoke E (trace w) _ _) as [exc|content].
    2: { intros [= <- <-]. exists [ev]. cbn [length].
         repeat split; auto; try lia; discriminate. }
    destruct (is_Exception exc).
    2: { intros [= <- <-]. exists [ev]. cbn [length].
         repeat split; auto; try lia; discriminate. }
    destruct (_is_quota_error E exc).
    2: { intros [= <- <-]. exists [ev]. cbn [length].
         repeat split; auto; try lia; discriminate. }
    intros (evs & Ht & Hlen & Hcl & Hl & Hi & Hd & Ho & Hf & Hu & Hn)%IH.
    cbn in Ht, Hl, Hi, Hd, Ho, Hf, Hu.
    exists (ev :: evs). rewrite Ht, <- app_assoc. cbn [length].
    split; [reflexivity|]. split; [lia|]. split.
    { intros [|k] ev0 Hk; cbn in Hk.
      - injection Hk as <-. unfold ev. eauto.
      - now apply Hcl. }
    repeat (split; [assumption|]). intros Ha. rewrite (Hn Ha). reflexivity.
Qed.

(** What the bytes of a node are to the app: those of a non-empty
    file. *)
Local Abbreviation bytes_of data :=
  (match data with [] => None | _ :: _ => Some data end).

Lemma read_plot_spec (path : pystr) (w w' : World)
    (res : pyexc + option (list Byte.byte)) :
  read_plot E path w = (res, w') ->
  trace w' = trace w
  /\ match fs w !! path with
     | Some (File data) => res = inr (bytes_of data) /\ fs w' !! path = None
     | Some (Dir size) =>
         res = inl (PyExc ClsException
                          ((if 0 <? size then open_strerror E
                            else remove_strerror E) path))
         /\ w' = w
     | None => res = inr None /\ fs w' !! path = None
     end.
Proof.
  unfold read_plot. destruct (fs w !! path) as [[[|b data]|size]|] eqn:Hf;
    cbn [getsize length Nat.ltb Nat.leb];
    [| | destruct size |]; intros [= <- <-];
    cbn [set_fs fs trace]; rewrite ?lookup_delete_eq; auto.
Qed.

(** How a request that ran code ends, by what the run left: [err] is the
    message of the [Exception] it raised, if any. *)
Local Abbreviation finished err r path out w' :=
  (if ex_closed r then out = Escaped CLOSED_FILE
   else match st_fs (ex_state r) !! path with
        | Some (File data) =>
            out = answer err (strip (ex_stdout r)) (bytes_of data)
            /\ fs w' !! path = None
        | Some (Dir size) =>
            out = Escaped (PyExc ClsException
                                 ((if 0 <? size then open_strerror E
                                   else remove_strerror E) path))
        | None =>
            out = answer err (strip (ex_stdout r)) None
            /\ fs w' !! path = None
        end).

Lemma finish_spec (err : option pystr) (r : ExecResult DataFrame)
    (path : pystr) (w w' : World) (out : Answer) :
  finish E err r path w = (out, w') ->
  st_fs (ex_state r) = fs w ->
  trace w' = trace w /\ finished err r path out w'.
Proof.
  unfold finish, getvalue. intros H ->.
  destruct (ex_closed r); [injection H as <- <-; auto|].
  destruct (read_plot E path w) as [[exc|img] w2] eqn:Hread;
    injection H as <- <-;
    apply read_plot_spec in Hread as (Htr & Hcase);
    (split; [exact Htr|]);
    destruct (fs w !! path) as [[data|size]|]; destruct Hcase as [Hres Hw];
    try discriminate Hres; injection Hres as ->; auto.
Qed.

(** The state the run of the generated code starts from. *)
Lemma standalone_process_query_cases (q : pystr) (w w' : World)
    (out : Answer) :
  process_query E D q w = (out, w') ->
  (truthy (_get_api_key D) = false
   /\ out = Answered MSG_NOT_CONFIGURED None /\ w' = w)
  \/ exists evs,
       length evs <= length _MODEL_CASCADE
       /\ (forall k ev, evs !! k = Some ev ->
           exists m res,
             _MODEL_CASCADE !! k = Some m
             /\ ev = EvInvoke (mkChatGroq m 0 (_get_api_key D) 1)
                      [SystemMessage (_build_system_prompt (plot_path E D w));
                       HumanMessage q] res)
       /\ ((request_events w w' = evs /\ fs w' = fs w
            /\ forall t img, out = Answered t img -> img = None)
           \/ exists code,
                let st0 :=
                  mkExecState
                    (namespace (TObject (length (objects w))) (plot_path E D w))
                    (_df w) (objects w ++ [_df w]) (fs w)
                    (_llm w) (_model_index w) in
                let r := exec_py E code st0 in
                request_events w w' = evs ++ [EvExec code st0 r]
                /\ match ex_raised r with
                   | Some exc =>
                       if is_Exception exc then
                         finished (Some (exc_str exc)) r (plot_path E D w)
                                  out w'
                       else out = Escaped exc
                   | None => finished None r (plot_path E D w) out w'
                   end).
Proof.
  unfold process_query.
  destruct (truthy (_get_api_key D)) eqn:Hkey; cbn [negb].
  2: { intros [= <- <-]. left. auto. }
  cbn [uuid4 fst snd]. fold (plot_fname E w). fold (plot_path E D w).
  match goal with
  | |- context [ask_cascade E ?ms ?k ?s ?q ?w0] =>
      destruct (ask_cascade E ms k s q w0) as [a w1] eqn:Hask
  end.
  apply ask_cascade_spec in Hask
    as (evs & Ht & Hlen & Hcl & Hl & Hi & Hd & Ho & Hf & Hu & _).
  cbn [trace _llm _model_index _df objects fs uuid_calls]
    in Ht, Hl, Hi, Hd, Ho, Hf, Hu.
  intros H. right. exists evs.
  split; [exact Hlen|]. split; [exact Hcl|].
  destruct a as [code| |text|e].
  2-4: injection H as <- <-; left;
       (split; [now apply request_events_app|]); (split; [assumption|]);
       intros t img [=]; congruence.
  unfold df_copy, exec in H.
  cbn [fst snd _df objects fs _llm _model_index uuid_calls trace log] in H.
  rewrite Hd, Ho, Hf, Hl, Hi in H.
  set (st0 := mkExecState _ (_df w) _ (fs w) (_llm w) (_model_index w)) in *.
  destruct (ex_raised (exec_py E code st0)) as [exc|] eqn:Hr.
  1: destruct (is_Exception exc) eqn:Hexc.
  2: { injection H as <- <-.
       right. exists code. cbv zeta.
       fold st0. rewrite Hr, Hexc. split; [|reflexivity].
       apply request_events_app. cbn. now rewrite Ht, <- app_assoc. }
  all: apply finish_spec in H as (Htr & Hfin); [|reflexivity];
    cbn [fs trace log] in Htr;
    right; exists code; cbv zeta; fold st0; rewrite Hr, ?Hexc;
    (split; [apply request_events_app; rewrite Htr, Ht, <- app_assoc;
             reflexivity|]);
    exact Hfin.
Qed.


(** X22: the standalone app keeps no cascade state: every request starts
    at the first cascade entry and goes down the cascade in order, the
    call at position [k] using a new client for entry [k]. *)
Theorem standalone_calls_follow_cascade (q : pystr) (w w' : World)
    (out : Answer) (k : nat) (ev : Event) :
  process_query E D q w = (out, w') ->
  request_events w w' !! k = Some ev ->
  is_invoke ev = true ->
  exists m,
    _MODEL_CASCADE !! k = Some m
    /\ event_client ev = Some (mkChatGroq m 0 (_get_api_key D) 1).
Proof.
  intros [(_ & _ & ->)|(evs & Hlen & Hcl & Hcase)]%standalone_process_query_cases Hk Hinv.
  { now rewrite request_events_same, lookup_nil in Hk. }
  destruct Hcase as [(Hev & _)|(code & Hev & _)]; rewrite Hev in Hk.
  - destruct (Hcl _ _ Hk) as (m & res & Hm & ->). eauto.
  - destruct (Nat.lt_ge_cases k (length evs)) as [Hlt|Hge].
    + rewrite lookup_app_l in Hk by exact Hlt.
      destruct (Hcl _ _ Hk) as (m & res & Hm & ->). eauto.
    + rewrite lookup_app_r in Hk by exact Hge.
      destruct (k - length evs) as [|j]; cbn in Hk; [|discriminate Hk].
      injection Hk as <-. discriminate Hinv.
Qed.

Lemma standalone_execs (evs : list Event) (key sys q : pystr) :
  (forall k ev, evs !! k = Some ev ->
     exists m res,
       _MODEL_CASCADE !! k = Some m
       /\ ev = EvInvoke (mkChatGroq m 0 key 1)
                        [SystemMessage sys; HumanMessage q] res) ->
  execs evs = [].
Proof.
  intros Hcl. apply plain_execs, forallb_forall. intros ev Hin.
  apply list_elem_of_In, list_elem_of_lookup_1 in Hin as (k & Hk).
  destruct (Hcl _ _ Hk) as (m & res & _ & ->). reflexivity.
Qed.

Lemma answer_img (err : option pystr) (text t : pystr)
    (img0 img : option (list Byte.byte)) :
  answer err text img0 = Answered t img -> img0 <> Some [] -> img = img0.
Proof.
  unfold answer.
  destruct (truthy_opt err && negb (truthy text) && negb (truthy_bytes img0))
    eqn:Hc.
  - intros [= _ <-] Hne. apply andb_prop in Hc as [_ Hc].
    destruct img0 as [[|b d]|]; [congruence | discriminate | reflexivity].
  - now intros [= _ <-].
Qed.

(** X23: the standalone app leaves no plot file behind: when a request that
    ran code returns, the reserved path is empty again, the run was the
    only one, and the bytes returned are what the run left at the path
    ([None] for no file or an empty one). *)
Theorem standalone_plot_file_removed (q : pystr) (w w' : World)
    (text : pystr) (img : option (list Byte.byte)) c s r rest :
  process_query E D q w = (Answered text img, w') ->
  execs (request_events w w') = (c, s, r) :: rest ->
  rest = []
  /\ fs w' !! plot_path E D w = None
  /\ img = match st_fs (ex_state r) !! plot_path E D w with
           | Some (File (b :: data)) => Some (b :: data)
           | _ => None
           end.
Proof.
  intros [(_ & _ & ->)|(evs & Hlen & Hcl & Hcase)]%standalone_process_query_cases.
  { now rewrite request_events_same. }
  pose proof (standalone_execs _ _ _ _ Hcl) as Hx.
  destruct Hcase as [(Hev & _)|(code & Hev & Hout)]; rewrite Hev.
  { now rewrite Hx. }
  rewrite execs_app, Hx. cbn [execs app]. intros [= <- <- <- <-].
  cbv zeta in Hout.
  split; [reflexivity|].
  destruct (ex_raised _) as [exc|];
    [destruct (is_Exception exc); [|discriminate Hout]|];
    (destruct (ex_closed _); [discriminate Hout|]);
    (destruct (st_fs _ !! _) as [[data|size]|]; [|discriminate Hout|]);
    destruct Hout as (Hout & Hgone); (split; [exact Hgone|]);
    symmetry in Hout; apply answer_img in Hout;
    try (subst img; destruct data; reflexivity);
    try (subst img; reflexivity);
    try (destruct data; discriminate); discriminate.
Qed.


End StandaloneProperties.

(** X25: the standalone app classifies as a quota error everything the
    service does: its list of phrases is the list of the service and one
    phrase more. *)
Theorem standalone_quota_superset {DataFrame : Type} (E : Env DataFrame)
    (exc : pyexc) :
  _is_quota_error E exc = true -> Standalone._is_quota_error E exc = true.
Proof.
  unfold _is_quota_error, Standalone._is_quota_error.
  intros (p & Hin & Hp)%existsb_exists. apply existsb_exists.
  exists p. split; [|exact Hp].
  unfold _QUOTA_PHRASES in Hin. unfold Standalone._QUOTA_PHRASES.
  cbn [In] in *. tauto.
Qed.

Lemma standalone_quota_superset_witness :
  Standalone._is_quota_error env_print too_many = true.
Proof. apply standalone_quota_superset. reflexivity. Defined.


(* ===================================================================== *)
(** ** The further properties on the stub scenarios *)
(* ===================================================================== *)

Import Scenarios.

(** Shows that the runs of a request, computed, keep the globals. *)
Ltac runs_keep_globals := vm_compute; repeat constructor.

(** The client built with the key stays when the key is gone. *)
Lemma get_llm_idempotent_witness :
  _get_llm env_no_key (snd (_get_llm env_print fresh))
  = (inr primary, snd (_get_llm env_print fresh)).
Proof.
  exact (get_llm_idempotent env_print env_no_key fresh
           (snd (_get_llm env_print fresh)) (fst (_get_llm env_print fresh))
           (surjective_pairing _)).
Defined.


Lemma model_index_counts_switches_witness :
  Forall keeps_globals (execs (request_events fresh (snd run_two_switches)))
  /\ _model_index (snd run_two_switches)
     = _model_index fresh
       + length (List.filter (is_switch env_two_switches)
                             (request_events fresh (snd run_two_switches)))
  /\ _model_index (snd run_two_switches) = 2.
Proof.
  assert (Forall keeps_globals
            (execs (request_events fresh (snd run_two_switches)))) as Hk
    by runs_keep_globals.
  split; [exact Hk|]. split; [|vm_compute; reflexivity].
  exact (model_index_counts_switches env_two_switches QUESTION fresh
           (snd run_two_switches) (fst run_two_switches)
           (surjective_pairing _) Hk).
Defined.

(** Generated code can undo what the cascade did: after one switch the
    script resets both globals, and the index is 0 again. *)
Example globals_reset_by_generated_code :
  length (List.filter (is_switch env_reset_globals)
                      (request_events fresh (snd run_reset_globals))) = 1
  /\ List.map (fun x => (st_model_index x.1.2, st_model_index (ex_state x.2)))
              (execs (request_events fresh (snd run_reset_globals)))
     = [(1, 0)]
  /\ _model_index (snd run_reset_globals) = 0
  /\ _llm (snd run_reset_globals) = None.
Proof. repeat split; vm_compute; reflexivity. Qed.

Lemma request_cost_bounded_witness :
  length (model_calls (request_events fresh (snd run_plot_then_fail)))
  <= Nat.max 1 (length _MODEL_CASCADE - _model_index fresh) + 1
  /\ length (execs (request_events fresh (snd run_plot_then_fail))) <= 2.
Proof.
  exact (request_cost_bounded env_plot_then_fail QUESTION fresh
           (snd run_plot_then_fail) (fst run_plot_then_fail)
           (surjective_pairing _)).
Defined.

Lemma api_failure_is_terminal_witness :
  fst run_api_down
  = Returned (mkResult (py "Could not contact Gemini API: Connection error.")
                       None)
  /\ last (request_events fresh (snd run_api_down))
     = Some (EvInvoke primary asked (inl api_down))
  /\ execs (request_events fresh (snd run_api_down)) = [].
Proof.
  assert (request_events fresh (snd run_api_down)
          = [EvInvoke primary asked (inl api_down)]) as Hev
    by (vm_compute; reflexivity).
  refine (api_failure_is_terminal env_api_down QUESTION fresh
            (snd run_api_down) (fst run_api_down)
            (EvInvoke primary asked (inl api_down)) api_down
            (surjective_pairing _) _ eq_refl eq_refl eq_refl _).
  - rewrite Hev. left. reflexivity.
  - vm_compute. reflexivity.
Defined.

Lemma coherent_preserved_witness :
  coherent env_two_switches fresh
  /\ Forall keeps_globals (execs (request_events fresh (snd run_two_switches)))
  /\ coherent env_two_switches (snd run_two_switches)
  /\ _llm (snd run_two_switches)
     = Some (mkChatGroq (py "mixtral-8x7b-32768") 0 KEY 1).
Proof.
  assert (coherent env_two_switches fresh) as Hc by reflexivity.
  assert (Forall keeps_globals
            (execs (request_events fresh (snd run_two_switches)))) as Hk
    by runs_keep_globals.
  split; [exact Hc|]. split; [exact Hk|]. split; [|vm_compute; reflexivity].
  exact (coherent_preserved env_two_switches QUESTION fresh
           (snd run_two_switches) (fst run_two_switches) Hc
           (surjective_pairing _) Hk).
Defined.

Lemma calls_follow_cascade_witness :
  event_client (EvInvoke fallback1 asked (inl too_many) : Event Table)
  = Some (client_of env_two_switches (_model_index fresh + 1))
  /\ (0 < 1 -> _model_index fresh + 1 < length _MODEL_CASCADE).
Proof.
  refine (calls_follow_cascade env_two_switches QUESTION fresh
            (snd run_two_switches) (fst run_two_switches) 1
            (EvInvoke fallback1 asked (inl too_many))
            _ (surjective_pairing _) _ eq_refl).
  - reflexivity.
  - vm_compute. reflexivity.
Defined.

Lemma calls_carry_prompt_and_question_witness :
  exists rest,
    event_messages
      (EvInvoke primary
         (asked ++ [HumanMessage (retry_message (exc_str boom)
                                                (py "plot(ages)"))])
         (inr (py "plot(df.ages)")) : Event Table)
    = Some (SystemMessage (_build_system_prompt
                             (plot_path env_plot_then_fail fresh))
            :: HumanMessage QUESTION :: rest)
    /\ (rest = []
        \/ exists err code, rest = [HumanMessage (retry_message err code)]).
Proof.
  refine (calls_carry_prompt_and_question env_plot_then_fail QUESTION fresh
            (snd run_plot_then_fail) (fst run_plot_then_fail)
            (EvInvoke primary
               (asked ++ [HumanMessage (retry_message (exc_str boom)
                                                      (py "plot(ages)"))])
               (inr (py "plot(df.ages)")))
            (surjective_pairing _) _ eq_refl).
  apply list_elem_of_In, (list_elem_of_lookup_2 _ 2).
  vm_compute. reflexivity.
Defined.


Lemma image_url_sound_witness :
  PLOT_URL = py "/static/" ++ plot_fname env_plot fresh
  /\ exists node,
       fs (snd run_plot) !! plot_path env_plot fresh = Some node
       /\ 0 < getsize node.
Proof.
  assert (fst run_plot = Returned (mkResult MSG_VISUALISATION (Some PLOT_URL)))
    as Hout by (vm_compute; reflexivity).
  refine (image_url_sound env_plot QUESTION fresh (snd run_plot)
            (mkResult MSG_VISUALISATION (Some PLOT_URL)) PLOT_URL _ eq_refl).
  rewrite <- Hout. apply surjective_pairing.
Defined.

(** A directory made at the reserved path is taken for a chart: the
    answer refers to an image that is no file. *)
Example directory_taken_for_chart :
  fst run_mkdir = Returned (mkResult MSG_VISUALISATION (Some PLOT_URL))
  /\ fs (snd run_mkdir) !! PLOT = Some (Dir 4096).
Proof. split; vm_compute; reflexivity. Qed.

(** An empty directory of size 0 there cannot be removed, and the request
    ends with the error of [os.remove]. *)
Example empty_directory_propagates :
  fst run_mkdir_empty
  = Propagated (PyExc ClsException (is_a_directory PLOT))
  /\ fs (snd run_mkdir_empty) !! PLOT = Some (Dir 0).
Proof. split; vm_compute; reflexivity. Qed.

Lemma other_files_untouched_witness :
  fs (snd run_plot) !! py "/app/backend/data/titanic.csv"
  = fs fresh !! py "/app/backend/data/titanic.csv".
Proof.
  assert (execs (request_events fresh (snd run_plot))
          = [(py "plt.savefig(PLOT_PATH)", start,
              exec_py env_plot (py "plt.savefig(PLOT_PATH)") start)]) as Hex
    by (vm_compute; reflexivity).
  refine (other_files_untouched env_plot QUESTION fresh (snd run_plot)
            (fst run_plot) (py "/app/backend/data/titanic.csv")
            (surjective_pairing _) _ _).
  - vm_compute. discriminate.
  - rewrite Hex. constructor; [vm_compute; reflexivity | constructor].
Defined.

Lemma response_never_empty_witness :
  response (mkResult (py "38% survived") None) <> [].
Proof.
  assert (fst run_print = Returned (mkResult (py "38% survived") None))
    as Hout by (vm_compute; reflexivity).
  refine (response_never_empty env_print QUESTION fresh (snd run_print)
            (mkResult (py "38% survived") None) _).
  rewrite <- Hout. apply surjective_pairing.
Defined.

Lemma clean_last_run_decides_witness :
  fst run_retry_state = Returned (mkResult (py "0") None).
Proof.
  assert (last (execs (request_events fresh (snd run_retry_state)))
          = Some (py "print(len(df))", start_changed,
                  exec_py env_retry_state (py "print(len(df))") start_changed))
    as Hlast by (vm_compute; reflexivity).
  assert (st_fs (ex_state (exec_py env_retry_state (py "print(len(df))")
                             start_changed))
          !! plot_path env_retry_state fresh <> Some (Dir 0)) as Hnodir
    by (vm_compute; discriminate).
  rewrite (clean_last_run_decides env_retry_state QUESTION fresh
             (snd run_retry_state) (fst run_retry_state) _ _ _
             (surjective_pairing _) Hlast eq_refl eq_refl Hnodir).
  vm_compute. reflexivity.
Defined.

Lemma blank_message_rejected_witness :
  chat_endpoint env_print (py "   ") fresh
  = (Rejected (mkHTTPException 422 MSG_EMPTY_MESSAGE), fresh).
Proof.
  apply (proj1 (blank_message_rejected env_print (py "   ") fresh)).
  reflexivity.
Defined.


(** Status 500 is live: a script that closes the buffer of its output,
    and one that leaves an empty directory at the reserved path. *)
Example closed_stdout_is_status_500 :
  fst (chat_endpoint env_close QUESTION fresh)
  = Rejected (mkHTTPException
                500 (py "Internal server error: I/O operation on closed file"))
  /\ fst (chat_endpoint env_mkdir_empty QUESTION fresh)
     = Rejected (mkHTTPException
                   500 (py "Internal server error: [Errno 21] Is a directory: '/app/backend/static/plot_01234567.png'")).
Proof. split; vm_compute; reflexivity. Qed.

Lemma front_end_posts_no_blank_witness :
  py "How many survived?" = strip (py "  How many survived?  ")
  /\ all_space (py "How many survived?") = false
  /\ forall d,
       fst (chat_endpoint env_print (py "How many survived?") fresh)
       <> Rejected (mkHTTPException 422 d).
Proof.
  apply (front_end_posts_no_blank env_print (py "  How many survived?  ")).
  left. vm_compute. reflexivity.
Defined.


Lemma standalone_calls_follow_cascade_witness :
  exists m,
    _MODEL_CASCADE !! 1 = Some m
    /\ event_client
         (EvInvoke fallback1
            [SystemMessage (Standalone._build_system_prompt PLOT);
             HumanMessage QUESTION] (inl too_many) : Event Table)
       = Some (mkChatGroq m 0 (Standalone._get_api_key deployed) 1).
Proof.
  refine (standalone_calls_follow_cascade env_two_switches deployed QUESTION
            fresh (snd standalone_two_switches) (fst standalone_two_switches)
            1 (EvInvoke fallback1
                 [SystemMessage (Standalone._build_system_prompt PLOT);
                  HumanMessage QUESTION] (inl too_many))
            (surjective_pairing _) _ eq_refl).
  vm_compute. reflexivity.
Defined.

Lemma standalone_plot_file_removed_witness :
  fst standalone_plot = Standalone.Answered Standalone.MSG_VISUALISATION (Some PNG)
  /\ fs (snd standalone_plot) !! Standalone.plot_path env_plot deployed fresh
     = None.
Proof.
  assert (fst standalone_plot
          = Standalone.Answered Standalone.MSG_VISUALISATION (Some PNG))
    as Hout by (vm_compute; reflexivity).
  split; [exact Hout|].
  assert (execs (request_events fresh (snd standalone_plot))
          = [(py "plt.savefig(PLOT_PATH)", start_standalone,
              exec_py env_plot (py "plt.savefig(PLOT_PATH)") start_standalone)])
    as Hex by (vm_compute; reflexivity).
  refine (proj1 (proj2 (standalone_plot_file_removed env_plot deployed
            QUESTION fresh (snd standalone_plot)
            Standalone.MSG_VISUALISATION (Some PNG) _ _ _ _ _ Hex))).
  rewrite <- Hout. apply surjective_pairing.
Defined.

